(** * OpenPointClass point I/O: a shallow embedding of [point_io.cpp] / [point_io.hpp]

    The development follows the two source files function by function.
    C++ values are modelled as follows.

    - [std::string] and file contents are [list byte];
    - [uint8_t] is [byte]; a [float] stored in a column is its four-byte
      object representation (the codec only ever copies it);
    - [int] and [size_t] are [Z] with the wrap-around written out;
    - [std::vector] is [list], indexed with stdpp's lookup and insert;
    - a call either returns, throws, has undefined behaviour or does not
      terminate: the [outcome] type below;
    - what the machine decides is a parameter: whether memory is granted
      ([Memory]), what an output file keeps ([Storage]), what a formatted
      extraction finds ([FormattedInput]);
    - the arithmetic of [PointSet::spacing] uses IEEE 754 numbers
      ([spec_float]) at the binary32 and binary64 formats. *)

From Stdlib Require Import ZArith List String Ascii Bool Lia.
From Stdlib.Strings Require Import Byte.
From Stdlib.Floats Require Import SpecFloat.
From Stdlib Require Import Decimal DecimalString DecimalN DecimalPos.
From stdpp Require Import base option list gmap strings.

Local Open Scope Z_scope.

(** ** Outcomes of a C++ call *)

Inductive exception : Type :=
| runtime_error (what : string)
| invalid_argument (what : string)
| out_of_range (what : string)
| length_error (what : string)
| bad_alloc.

Inductive outcome (A : Type) : Type :=
| Ok (a : A)
| Throw (e : exception)
| UB
| Diverges.

Arguments Ok {A} a.
Arguments Throw {A} e.
Arguments UB {A}.
Arguments Diverges {A}.

Definition obind {A B : Type} (m : outcome A) (k : A -> outcome B) : outcome B :=
  match m with
  | Ok a => k a
  | Throw e => Throw e
  | UB => UB
  | Diverges => Diverges
  end.

#[global] Instance outcome_bind : MBind outcome := fun A B k m => obind m k.
#[global] Instance outcome_ret : MRet outcome := fun A a => Ok a.

(** [v[i]] on a vector: reading outside the bounds is undefined behaviour. *)
Definition at_ {A : Type} (v : list A) (i : nat) : outcome A :=
  match v !! i with
  | Some x => Ok x
  | None => UB
  end.

(** ** Integer types *)

Definition INT_MAX : Z := 2147483647.
Definition INT_MIN : Z := -2147483648.
Definition SIZE_MAX : Z := 18446744073709551615.

(** Conversion of an integer value to [size_t]. *)
Definition to_size_t (z : Z) : Z := z mod 2 ^ 64.

(** Conversion of an integer value to [uint8_t]. *)
Definition to_uint8 (z : Z) : byte :=
  match Byte.of_N (Z.to_N (z mod 256)) with
  | Some b => b
  | None => x00
  end.

Definition of_uint8 (b : byte) : Z := Z.of_N (Byte.to_N b).

(** ** Strings *)

#[global] Instance byte_eq_dec : EqDecision byte := Byte.byte_eq_dec.

(** A string literal of the source. *)
Definition str (s : string) : list byte := list_byte_of_string s.

(** [s.find(p) == 0] *)
Fixpoint starts_with (p s : list byte) : bool :=
  match p, s with
  | [], _ => true
  | a :: p', b :: s' => if decide (a = b) then starts_with p' s' else false
  | _ :: _, [] => false
  end.

(** [s.substr(pos, n)]: throws when [pos] (a [size_t]) exceeds the size. *)
Definition substr (s : list byte) (pos n : Z) : outcome (list byte) :=
  if Z.of_nat (length s) <? to_size_t pos
  then Throw (out_of_range "basic_string::substr")
  else Ok (take (Z.to_nat (to_size_t n)) (drop (Z.to_nat (to_size_t pos)) s)).

(** [line.erase(std::remove(line.begin(), line.end(), '\r'), line.end())] *)
Definition remove_cr (line : list byte) : list byte :=
  filter (fun b => b <> x0d) line.

(** ** Input streams

    The unread bytes and the two state bits the code depends on. *)

Record istream : Type := mkIstream {
  buf : list byte;
  eofbit : bool;
  failbit : bool
}.

Definition good (s : istream) : bool := negb (eofbit s) && negb (failbit s).

Definition open_stream (content : list byte) : istream := mkIstream content false false.

(** Splits at the first [delim]: the bytes before it, and the rest after it
    when there is one. *)
Fixpoint split_at_delim (delim : byte) (l : list byte) : list byte * option (list byte) :=
  match l with
  | [] => ([], None)
  | b :: l' =>
      if decide (b = delim) then ([], Some l')
      else let '(h, t) := split_at_delim delim l' in (b :: h, t)
  end.

(** [std::getline(s, line, delim)]: on a stream that is not good the string
    is left as it was and [failbit] is set; otherwise the string is erased
    and filled up to the delimiter, which is consumed, or up to the end of
    the input, which sets [eofbit], and [failbit] too when nothing was
    extracted. *)
Definition getline_delim (delim : byte) (s : istream) (line : list byte)
  : list byte * istream :=
  if good s then
    match split_at_delim delim (buf s) with
    | (h, Some t) => (h, mkIstream t false false)
    | (h, None) => (h, mkIstream [] true (bool_decide (h = [])))
    end
  else (line, mkIstream (buf s) (eofbit s) true).

Definition getline (s : istream) (line : list byte) : list byte * istream :=
  getline_delim x0a s line.

(** [s.read(p, n)]: stores the bytes it could extract over the beginning of
    the [n]-byte object [old]; a short read sets [eofbit] and [failbit]; a
    stream that is not good stores nothing. *)
Definition read (s : istream) (n : nat) (old : list byte) : list byte * istream :=
  if good s then
    let got := take n (buf s) in
    if decide (length got = n)
    then (got, mkIstream (drop n (buf s)) false false)
    else (got ++ drop (length got) old, mkIstream [] true true)
  else (old, mkIstream (buf s) (eofbit s) true).

(** ** [std::stoi] and decimal output *)

Definition isspace (b : byte) : bool :=
  bool_decide (b ∈ [x20; x09; x0a; x0b; x0c; x0d]).

Definition digit_of (b : byte) : option Z :=
  let n := of_uint8 b in
  if (48 <=? n) && (n <=? 57) then Some (n - 48) else None.

Fixpoint skip_space (s : list byte) : list byte :=
  match s with
  | b :: s' => if isspace b then skip_space s' else s
  | [] => []
  end.

Fixpoint strtol_digits (s : list byte) (acc : Z) : Z :=
  match s with
  | b :: s' =>
      match digit_of b with
      | Some d => strtol_digits s' (10 * acc + d)
      | None => acc
      end
  | [] => acc
  end.

(** [std::stoi(s)]: leading white space, an optional sign, then the longest
    run of digits; no digit throws [invalid_argument], a value outside
    [int] throws [out_of_range]; what follows the digits is ignored. *)
Definition stoi (s : list byte) : outcome Z :=
  let s1 := skip_space s in
  let '(neg, s2) :=
    match s1 with
    | x2d :: t => (true, t)
    | x2b :: t => (false, t)
    | _ => (false, s1)
    end in
  match s2 with
  | b :: _ =>
      match digit_of b with
      | Some _ =>
          let v := strtol_digits s2 0 in
          let v := if neg then - v else v in
          if (INT_MIN <=? v) && (v <=? INT_MAX) then Ok v
          else Throw (out_of_range "stoi")
      | None => Throw (invalid_argument "stoi")
      end
  | [] => Throw (invalid_argument "stoi")
  end.

(** [o << n] for a [size_t]: the decimal digits of [n]. *)
Definition put_size_t (n : Z) : list byte :=
  str (NilZero.string_of_uint (N.to_uint (Z.to_N n))).

(** ** The header: [getVertexLine], [getVertexCount], [checkHeader], [hasHeader] *)

Definition invalid_ply : exception := runtime_error "Invalid PLY file".

(** [getVertexLine]: the [do ... while (true)] loop.  Every turn on a good
    stream consumes input or ends it, and once the stream is no longer good
    [getline] leaves [line] as it is, so a turn that continues then repeats
    for ever: [fuel] beyond the input length is never used up otherwise. *)
Fixpoint getVertexLine_loop (fuel : nat) (reader : istream) (line : list byte)
  : outcome (list byte * istream) :=
  match fuel with
  | O => Diverges
  | S fuel' =>
      let '(line, reader) := getline reader line in
      if starts_with (str "element") line then Ok (line, reader)
      else if starts_with (str "comment") line
           then getVertexLine_loop fuel' reader line
           else Throw invalid_ply
  end.

Definition getVertexLine (reader : istream) : outcome (list byte * istream) :=
  getVertexLine_loop (S (S (length (buf reader)))) reader [].

(** [while (std::getline(iss, token, ' ')) tokens.push_back(token);] *)
Fixpoint tokens_loop (fuel : nat) (iss : istream) (token : list byte)
  (tokens : list (list byte)) : list (list byte) :=
  match fuel with
  | O => tokens
  | S fuel' =>
      let '(token, iss) := getline_delim x20 iss token in
      if failbit iss then tokens
      else tokens_loop fuel' iss token (tokens ++ [token])
  end.

Definition split_tokens (line : list byte) : list (list byte) :=
  tokens_loop (S (S (length line))) (open_stream line) [] [].

Definition getVertexCount (line : list byte) : outcome Z :=
  let tokens := split_tokens line in
  if Z.of_nat (length tokens) <? 3 then Throw invalid_ply
  else
    t0 ← at_ tokens 0;
    t1 ← at_ tokens 1;
    if bool_decide (t0 <> str "element") && bool_decide (t1 <> str "vertex")
    then Throw invalid_ply
    else
      t2 ← at_ tokens 2;
      n ← stoi t2;
      Ok (to_size_t n).


(** [checkHeader]: the next line, without carriage returns, must end with
    [prop]; [substr] throws on a line shorter than [prop]. *)
Definition checkHeader (reader : istream) (prop : list byte) : outcome istream :=
  let '(line, reader) := getline reader [] in
  let line := remove_cr line in
  s ← substr line (Z.of_nat (length line) - Z.of_nat (length prop))
                  (Z.of_nat (length prop));
  if bool_decide (s <> prop)
  then Throw (runtime_error
         ("Invalid PLY file (expected 'property * " +:+ string_of_list_byte prop
          +:+ "', but found '" +:+ string_of_list_byte line +:+ "')"))
  else Ok reader.

(** [hasHeader]: [&&] evaluates the suffix test only on a line that starts
    with [property]. *)
Definition hasHeader (line prop : list byte) : outcome bool :=
  p ← substr line 0 8;
  if bool_decide (p = str "property") then
    s ← substr line (Z.of_nat (length line) - Z.of_nat (length prop))
                    (Z.of_nat (length prop));
    Ok (bool_decide (s = prop))
  else Ok false.

(** ** The data set: [struct PointSet] *)

(** The object representation of a [float]. *)
Definition float_repr : Type := byte * byte * byte * byte.

Definition array3 (A : Type) : Type := A * A * A.

Definition float_zero : float_repr := (x00, x00, x00, x00).
Definition xyz_zero : array3 float_repr := (float_zero, float_zero, float_zero).
Definition rgb_zero : array3 byte := (x00, x00, x00).

(** binary64 values: the [double] of the source. *)
Definition double : Type := spec_float.
Definition double_of_Z (z : Z) : double := binary_normalize 53 1024 z 0 false.
Definition double_div : double -> double -> double := SFdiv 53 1024.
Definition double_ltb : double -> double -> bool := SFltb.
Definition double_leb : double -> double -> bool := SFleb.
Definition double_eqb : double -> double -> bool := SFeqb.

(** The literal [0.01]: the binary64 number nearest to 1/100. *)
Definition double_0_01 : double := S754_finite false 5764607523034235 (-59).
Definition double_100 : double := Eval vm_compute in double_of_Z 100.
Definition double_minus_1 : double := Eval vm_compute in double_of_Z (-1).

(** The [base] pointer is only stored, never followed, by the functions of
    the two files; [kdTree] records whether the index has been built. *)
Record PointSet : Type := mkPointSet {
  points : list (array3 float_repr);
  colors : list (array3 byte);
  normals : list (array3 float_repr);
  labels : list byte;
  views : list byte;
  pointMap : list Z;
  kdTree : bool;
  m_spacing : double
}.

(** [new PointSet()] *)
Definition new_PointSet : PointSet :=
  mkPointSet [] [] [] [] [] [] false double_minus_1.

Definition set_points (r : PointSet) v : PointSet :=
  mkPointSet v (colors r) (normals r) (labels r) (views r) (pointMap r) (kdTree r) (m_spacing r).
Definition set_colors (r : PointSet) v : PointSet :=
  mkPointSet (points r) v (normals r) (labels r) (views r) (pointMap r) (kdTree r) (m_spacing r).
Definition set_normals (r : PointSet) v : PointSet :=
  mkPointSet (points r) (colors r) v (labels r) (views r) (pointMap r) (kdTree r) (m_spacing r).
Definition set_labels (r : PointSet) v : PointSet :=
  mkPointSet (points r) (colors r) (normals r) v (views r) (pointMap r) (kdTree r) (m_spacing r).
Definition set_views (r : PointSet) v : PointSet :=
  mkPointSet (points r) (colors r) (normals r) (labels r) v (pointMap r) (kdTree r) (m_spacing r).
Definition set_kdTree (r : PointSet) v : PointSet :=
  mkPointSet (points r) (colors r) (normals r) (labels r) (views r) (pointMap r) v (m_spacing r).
Definition set_m_spacing (r : PointSet) v : PointSet :=
  mkPointSet (points r) (colors r) (normals r) (labels r) (views r) (pointMap r) (kdTree r) v.

Definition count (r : PointSet) : Z := Z.of_nat (length (points r)).
Definition hasNormals (r : PointSet) : bool := 0 <? Z.of_nat (length (normals r)).
Definition hasColors (r : PointSet) : bool := 0 <? Z.of_nat (length (colors r)).
Definition hasViews (r : PointSet) : bool := 0 <? Z.of_nat (length (views r)).
Definition hasLabels (r : PointSet) : bool := 0 <? Z.of_nat (length (labels r)).

(** [appendPoint]: two [push_back]s; [src.points[idx]] and [src.colors[idx]]
    are unchecked reads. *)
Definition appendPoint (dst src : PointSet) (idx : nat) : outcome PointSet :=
  p ← at_ (points src) idx;
  let dst := set_points dst (points dst ++ [p]) in
  c ← at_ (colors src) idx;
  Ok (set_colors dst (colors dst ++ [c])).

(** The invariant of the data model: an optional column is empty or as
    long as [points]. *)
Definition column_ok {A B : Type} (pts : list A) (col : list B) : Prop :=
  length col = 0%nat \/ length col = length pts.

Definition columns_ok (r : PointSet) : Prop :=
  column_ok (points r) (colors r) /\ column_ok (points r) (normals r) /\
  column_ok (points r) (views r) /\ column_ok (points r) (labels r).

(** ** Object representations *)

Definition bytes_of_float (f : float_repr) : list byte :=
  let '(a, b, c, d) := f in [a; b; c; d].

Definition bytes_of_xyz (p : array3 float_repr) : list byte :=
  let '(x, y, z) := p in bytes_of_float x ++ bytes_of_float y ++ bytes_of_float z.

Definition bytes_of_rgb (c : array3 byte) : list byte :=
  let '(r, g, b) := c in [r; g; b].

Definition byte_at (l : list byte) (i : nat) : byte := nth i l x00.

Definition float_of_bytes (l : list byte) : float_repr :=
  (byte_at l 0, byte_at l 1, byte_at l 2, byte_at l 3).

Definition xyz_of_bytes (l : list byte) : array3 float_repr :=
  (float_of_bytes l, float_of_bytes (drop 4 l), float_of_bytes (drop 8 l)).

Definition rgb_of_bytes (l : list byte) : array3 byte :=
  (byte_at l 0, byte_at l 1, byte_at l 2).

(** [a[0]], [a[1]], [a[2]] *)
Definition el0 {A : Type} (a : array3 A) : A := fst (fst a).
Definition el1 {A : Type} (a : array3 A) : A := snd (fst a).
Definition el2 {A : Type} (a : array3 A) : A := snd a.

(** [a[i] = v] on a [std::array<uint8_t, 3>]: an index beyond 2 writes
    outside the array. *)
Definition array3_set (a : array3 byte) (i : Z) (v : byte) : outcome (array3 byte) :=
  let '(x, y, z) := a in
  if i =? 0 then Ok (v, y, z)
  else if i =? 1 then Ok (x, v, z)
  else if i =? 2 then Ok (x, y, v)
  else UB.

(** ** Memory

    Whether [operator new] returns when the program asks for that many
    bytes; when it does not, [std::bad_alloc] is thrown.  The requests
    that are modelled are those whose size is read from the input: the
    columns [fastPlyReadPointSet] resizes to the count of the header and
    the two work vectors of [PointSet::spacing]. *)
Class Memory : Type := {
  allocates : Z -> bool
}.

(** The machine that grants every request: the one meant where a
    statement names no other. *)
#[global] Instance ample_memory : Memory | 100 := {|
  allocates := fun _ => true
|}.

(** The elements [v.resize(n)] asks room for when it has to grow a vector
    without spare capacity, as the vectors of a new [PointSet] are:
    [_M_check_len] of libstdc++. *)
Definition grown_capacity (elt_size : Z) (len n : Z) : Z :=
  Z.min ((2 ^ 63 - 1) / elt_size) (len + Z.max len (n - len)).

(** [v.resize(n)] on a vector: a size beyond [max_size()] throws
    [std::length_error]; growing asks for memory and throws
    [std::bad_alloc] when there is none; new elements are
    value-initialised. *)
Definition resize `{Memory} {A : Type} (elt_size : Z) (zero : A) (v : list A) (n : Z)
  : outcome (list A) :=
  if (2 ^ 63 - 1) / elt_size <? n
  then Throw (length_error "vector::_M_default_append")
  else if (Z.of_nat (length v) <? n)
          && negb (allocates (elt_size * grown_capacity elt_size (Z.of_nat (length v)) n))
       then Throw bad_alloc
       else Ok (take (Z.to_nat n) v ++ replicate (Z.to_nat n - length v) zero).

(** ** [fastPlyReadPointSet] *)

(** The locals the property loop of [fastPlyReadPointSet] updates. *)
Record header_scan : Type := mkScan {
  c : Z;
  scanViews : bool;
  scanNormals : bool;
  scanColors : bool;
  labelDim : list byte;
  redIdx : Z;
  greenIdx : Z;
  blueIdx : Z
}.

Definition scan_init : header_scan :=
  mkScan 0 false false false [] 0 1 2.

(** The body of the [while (line != "end_header")] loop up to the guard on
    [c]: lines 187 to 204. *)
Definition scan_line (line : list byte) (st : header_scan) : outcome header_scan :=
  nx ← hasHeader line (str "nx");
  n ← (if nx : bool then Ok true
       else normal_x ← hasHeader line (str "normal_x");
            if normal_x : bool then Ok true else hasHeader line (str "normalx"));
  let hasNormals := if n : bool then true else scanNormals st in
  red ← hasHeader line (str "red");
  let '(hasColors, redIdx) :=
    if red : bool then (true, to_size_t (c st)) else (scanColors st, redIdx st) in
  green ← hasHeader line (str "green");
  let '(hasColors, greenIdx) :=
    if green : bool then (true, to_size_t (c st)) else (hasColors, greenIdx st) in
  blue ← hasHeader line (str "blue");
  let '(hasColors, blueIdx) :=
    if blue : bool then (true, to_size_t (c st)) else (hasColors, blueIdx st) in
  v ← hasHeader line (str "views");
  let hasViews := if v : bool then true else scanViews st in
  l1 ← hasHeader line (str "label");
  let labelDim := if l1 : bool then str "label" else labelDim st in
  l2 ← hasHeader line (str "classification");
  let labelDim := if l2 : bool then str "classification" else labelDim in
  l3 ← hasHeader line (str "class");
  let labelDim := if l3 : bool then str "class" else labelDim in
  Ok (mkScan (c st) hasViews hasNormals hasColors labelDim redIdx greenIdx blueIdx).

Definition incr_c (st : header_scan) : header_scan :=
  mkScan (c st + 1) (scanViews st) (scanNormals st) (scanColors st) (labelDim st)
         (redIdx st) (greenIdx st) (blueIdx st).

(** The property loop.  [if (c++ > 100) break] bounds it: started with
    [c = 0] it makes at most 102 turns, which is the fuel it is given. *)
Fixpoint scan_loop (fuel : nat) (reader : istream) (line : list byte)
  (st : header_scan) : outcome (header_scan * istream * list byte) :=
  if bool_decide (line = str "end_header") then Ok (st, reader, line)
  else
    match fuel with
    | O => Ok (st, reader, line)
    | S fuel' =>
        st ← scan_line line st;
        let c0 := c st in
        let st := incr_c st in
        if 100 <? c0 then Ok (st, reader, line)
        else
          let '(line, reader) := getline reader line in
          scan_loop fuel' reader (remove_cr line) st
    end.

(** What the header decides: lines 211 to 217. *)
Record schema : Type := mkSchema {
  ascii : bool;
  vertexCount : Z;
  sNormals : bool;
  sColors : bool;
  sViews : bool;
  sLabels : bool;
  sRed : Z;
  sGreen : Z;
  sBlue : Z
}.

Definition not_contiguous : exception :=
  runtime_error "red/green/blue properties need to be contiguous".

Definition resolve_colors (st : header_scan) : outcome (Z * Z * Z) :=
  let colorIdxMin := Z.min (Z.min (redIdx st) (greenIdx st)) (blueIdx st) in
  let redIdx := to_size_t (redIdx st - colorIdxMin) in
  let greenIdx := to_size_t (greenIdx st - colorIdxMin) in
  let blueIdx := to_size_t (blueIdx st - colorIdxMin) in
  if bool_decide (to_size_t (redIdx + greenIdx + blueIdx) <> 3)
  then Throw not_contiguous
  else Ok (redIdx, greenIdx, blueIdx).

(** Lines 153 to 217: everything up to the allocation of the columns. *)
Definition read_header (reader : istream) : outcome (schema * istream) :=
  let '(line, reader) := getline reader [] in
  let line := remove_cr line in
  if bool_decide (line <> str "ply")
  then Throw (runtime_error "Invalid PLY file (header does not start with ply)")
  else
    let '(line, reader) := getline reader line in
    let line := remove_cr line in
    let ascii := bool_decide (line = str "format ascii 1.0") in
    '(vertexLine, reader) ← getVertexLine reader;
    count ← getVertexCount vertexLine;
    reader ← checkHeader reader (str "x");
    reader ← checkHeader reader (str "y");
    reader ← checkHeader reader (str "z");
    let '(line, reader) := getline reader line in
    let line := remove_cr line in
    '(st, reader, _) ← scan_loop 102 reader line scan_init;
    '(redIdx, greenIdx, blueIdx) ← resolve_colors st;
    let hasLabels := negb (bool_decide (labelDim st = [])) in
    Ok (mkSchema ascii count (scanNormals st) (scanColors st) (scanViews st)
                 hasLabels redIdx greenIdx blueIdx, reader).

(** Lines 219 to 223. *)
Definition allocate `{Memory} (h : schema) (r : PointSet) : outcome PointSet :=
  let n := vertexCount h in
  p ← resize 12 xyz_zero (points r) n;
  let r := set_points r p in
  r ← (if sNormals h then v ← resize 12 xyz_zero (normals r) n; Ok (set_normals r v)
       else Ok r);
  r ← (if sColors h then v ← resize 3 rgb_zero (colors r) n; Ok (set_colors r v)
       else Ok r);
  r ← (if sViews h then v ← resize 1 x00 (views r) n; Ok (set_views r v)
       else Ok r);
  if sLabels h then v ← resize 1 x00 (labels r) n; Ok (set_labels r v)
  else Ok r.

(** The state of the record loops: the stream, the data set and the
    [color] (binary) or [buf] (ASCII) scratch variable. *)
Record body_state (T : Type) : Type := mkBody {
  bReader : istream;
  bSet : PointSet;
  bScratch : T
}.
Arguments mkBody {T} _ _ _.
Arguments bReader {T} _.
Arguments bSet {T} _.
Arguments bScratch {T} _.

(** One turn of the binary loop, lines 268 to 287. *)
Definition read_binary_record (h : schema) (i : nat) (s : body_state (array3 byte))
  : outcome (body_state (array3 byte)) :=
  let '(mkBody reader r color) := s in
  p ← at_ (points r) i;
  let '(bs, reader) := read reader 12 (bytes_of_xyz p) in
  let r := set_points r (<[i := xyz_of_bytes bs]> (points r)) in
  '(reader, r) ←
    (if sNormals h then
       n ← at_ (normals r) i;
       let '(bs, reader) := read reader 12 (bytes_of_xyz n) in
       Ok (reader, set_normals r (<[i := xyz_of_bytes bs]> (normals r)))
     else Ok (reader, r));
  '(reader, r, color) ←
    (if sColors h then
       let '(bs, reader) := read reader 3 (bytes_of_rgb color) in
       let color := rgb_of_bytes bs in
       e ← at_ (colors r) i;
       e ← array3_set e (sRed h) (el0 color);
       e ← array3_set e (sGreen h) (el1 color);
       e ← array3_set e (sBlue h) (el2 color);
       Ok (reader, set_colors r (<[i := e]> (colors r)), color)
     else Ok (reader, r, color));
  '(reader, r) ←
    (if sViews h then
       v ← at_ (views r) i;
       let '(bs, reader) := read reader 1 [v] in
       Ok (reader, set_views r (<[i := byte_at bs 0]> (views r)))
     else Ok (reader, r));
  '(reader, r) ←
    (if sLabels h then
       l ← at_ (labels r) i;
       let '(bs, reader) := read reader 1 [l] in
       Ok (reader, set_labels r (<[i := byte_at bs 0]> (labels r)))
     else Ok (reader, r));
  Ok (mkBody reader r color).

(** [for (size_t i = 0; i < count; i++)] with [n] turns left. *)
Fixpoint for_records {T : Type} (step : nat -> body_state T -> outcome (body_state T))
  (n : nat) (i : nat) (s : body_state T) : outcome (body_state T) :=
  match n with
  | O => Ok s
  | S n' => s ← step i s; for_records step n' (S i) s
  end.

(** The formatted extraction [reader >> x] of the standard library on a
    stream that is good, used by the ASCII branch only: the value stored
    in the operand, if one is stored, and the stream afterwards.  A
    conversion that fails stores 0; a sentry that fails, as at the end of
    the input, stores nothing. *)
Class FormattedInput : Type := {
  extract_float : istream -> option float_repr * istream;
  extract_uint16 : istream -> option Z * istream
}.

Section Reader.
Context `{FormattedInput} `{Memory}.

(** The sentry of a formatted extraction fails on a stream that is not
    good: [failbit] is set and nothing is extracted. *)
Definition sentry_failed (reader : istream) : istream :=
  mkIstream (buf reader) (eofbit reader) true.

(** [reader >> x] for a [float] element of a column. *)
Definition read_float (reader : istream) (x : float_repr) : float_repr * istream :=
  if good reader then
    let '(v, reader) := extract_float reader in
    (match v with Some y => y | None => x end, reader)
  else (x, sentry_failed reader).

(** [reader >> buf] for the local [uint16_t buf], which is not
    initialised: [None] as long as no extraction has stored a value. *)
Definition read_uint16 (reader : istream) (buf : option Z) : option Z * istream :=
  if good reader then
    let '(v, reader) := extract_uint16 reader in
    (match v with Some z => Some z | None => buf end, reader)
  else (buf, sentry_failed reader).

(** [static_cast<uint8_t>(buf)]: reading [buf] while its value is
    indeterminate is undefined. *)
Definition buf_value (buf : option Z) : outcome byte :=
  match buf with
  | Some z => Ok (to_uint8 z)
  | None => UB
  end.

Definition extract_xyz (reader : istream) (p : array3 float_repr)
  : array3 float_repr * istream :=
  let '(x, y, z) := p in
  let '(x, reader) := read_float reader x in
  let '(y, reader) := read_float reader y in
  let '(z, reader) := read_float reader z in
  ((x, y, z), reader).

(** One turn of the ASCII loop, lines 236 to 259. *)
Definition read_ascii_record (h : schema) (i : nat) (s : body_state (option Z))
  : outcome (body_state (option Z)) :=
  let '(mkBody reader r buf) := s in
  p ← at_ (points r) i;
  let '(p, reader) := extract_xyz reader p in
  let r := set_points r (<[i := p]> (points r)) in
  '(reader, r) ←
    (if sNormals h then
       n ← at_ (normals r) i;
       let '(n, reader) := extract_xyz reader n in
       Ok (reader, set_normals r (<[i := n]> (normals r)))
     else Ok (reader, r));
  '(reader, r, buf) ←
    (if sColors h then
       e ← at_ (colors r) i;
       let '(buf, reader) := read_uint16 reader buf in
       v ← buf_value buf;
       e ← array3_set e (sRed h) v;
       let '(buf, reader) := read_uint16 reader buf in
       v ← buf_value buf;
       e ← array3_set e (sGreen h) v;
       let '(buf, reader) := read_uint16 reader buf in
       v ← buf_value buf;
       e ← array3_set e (sBlue h) v;
       Ok (reader, set_colors r (<[i := e]> (colors r)), buf)
     else Ok (reader, r, buf));
  '(reader, r, buf) ←
    (if sViews h then
       _ ← at_ (views r) i;
       let '(buf, reader) := read_uint16 reader buf in
       v ← buf_value buf;
       Ok (reader, set_views r (<[i := v]> (views r)), buf)
     else Ok (reader, r, buf));
  '(reader, r, buf) ←
    (if sLabels h then
       _ ← at_ (labels r) i;
       let '(buf, reader) := read_uint16 reader buf in
       v ← buf_value buf;
       Ok (reader, set_labels r (<[i := v]> (labels r)), buf)
     else Ok (reader, r, buf));
  Ok (mkBody reader r buf).

(** Lines 232 to 289.  [color0] are the bytes of the uninitialised local
    [color], which the binary loop copies as bytes; the local [buf] of the
    ASCII loop starts without a value. *)
Definition read_body (color0 : array3 byte) (h : schema)
  (reader : istream) (r : PointSet) : outcome PointSet :=
  let n := Z.to_nat (vertexCount h) in
  if ascii h then
    s ← for_records (read_ascii_record h) n 0 (mkBody reader r None); Ok (bSet s)
  else
    s ← for_records (read_binary_record h) n 0 (mkBody reader r color0); Ok (bSet s).

(** The stream of the ASCII loop when the positions of the first record,
    and its normals if the header declares them, have been extracted. *)
Definition after_first_floats (h : schema) (reader : istream) : istream :=
  let reader := snd (extract_xyz reader xyz_zero) in
  if sNormals h then snd (extract_xyz reader xyz_zero) else reader.

(** The files of the file system, by name. *)
Definition filesystem : Type := gmap string (list byte).

Definition fastPlyReadPointSet (color0 : array3 byte)
  (fs : filesystem) (filename : string) : outcome PointSet :=
  match fs !! filename with
  | None => Throw (runtime_error ("Cannot open file " +:+ filename))
  | Some content =>
      let reader := open_stream content in
      let r := new_PointSet in
      '(h, reader) ← read_header reader;
      r ← allocate h r;
      read_body color0 h reader r
  end.
End Reader.

(** ** [fastPlySavePointSet] and [savePointSet] *)

(** [o << s << std::endl] *)
Definition endl : list byte := [x0a].
Definition put_line (s : string) : list byte := str s ++ endl.

(** Lines 523 to 553. *)
Definition ply_header (pSet : PointSet) : list byte :=
  put_line "ply" ++
  put_line "format binary_little_endian 1.0" ++
  put_line "comment Generated by OpenPointClass" ++
  (str "element vertex " ++ put_size_t (count pSet) ++ endl) ++
  put_line "property float x" ++
  put_line "property float y" ++
  put_line "property float z" ++
  (if hasNormals pSet
   then put_line "property float nx" ++ put_line "property float ny" ++
        put_line "property float nz"
   else []) ++
  (if hasColors pSet
   then put_line "property uchar red" ++ put_line "property uchar green" ++
        put_line "property uchar blue"
   else []) ++
  (if hasViews pSet then put_line "property uchar views" else []) ++
  (if hasLabels pSet then put_line "property uchar classification" else []) ++
  put_line "end_header".

(** One turn of the loop of lines 555 to 561: the bytes of record [i]. *)
Definition write_record (pSet : PointSet) (i : nat) : outcome (list byte) :=
  p ← at_ (points pSet) i;
  n ← (if hasNormals pSet then n ← at_ (normals pSet) i; Ok (bytes_of_xyz n) else Ok []);
  c ← (if hasColors pSet then c ← at_ (colors pSet) i; Ok (bytes_of_rgb c) else Ok []);
  v ← (if hasViews pSet then v ← at_ (views pSet) i; Ok [v] else Ok []);
  l ← (if hasLabels pSet then l ← at_ (labels pSet) i; Ok [l] else Ok []);
  Ok (bytes_of_xyz p ++ n ++ c ++ v ++ l).

Fixpoint write_records (pSet : PointSet) (n : nat) (i : nat) (o : list byte)
  : outcome (list byte) :=
  match n with
  | O => Ok o
  | S n' => rec ← write_record pSet i; write_records pSet n' (S i) (o ++ rec)
  end.

(** The bytes [fastPlySavePointSet] sends to the output stream. *)
Definition ply_bytes (pSet : PointSet) : outcome (list byte) :=
  write_records pSet (length (points pSet)) 0 (ply_header pSet).

(** What [std::ofstream o(filename, std::ios::binary)] leaves in the file
    system when the bytes [o] have been sent to it: [None] when the stream
    does not open, and no file is then created or changed; otherwise what
    the file holds, which is all the bytes unless a write fails. *)
Class Storage : Type := {
  written : filesystem -> string -> list byte -> option (list byte)
}.

(** The storage that opens every name and takes every byte: the one meant
    where a statement names no other. *)
#[global] Instance open_storage : Storage | 100 := {|
  written := fun _ _ o => Some o
|}.

(** [fastPlySavePointSet] never tests its stream: when the stream has
    failed the insertions do nothing and the call returns as usual. *)
Definition fastPlySavePointSet `{Storage} (pSet : PointSet) (fs : filesystem)
  (filename : string) : outcome filesystem :=
  o ← ply_bytes pSet;
  Ok (match written fs filename o with
      | Some content => <[filename := content]> fs
      | None => fs
      end).

(** ** Paths ([std::filesystem::path], POSIX separators) *)

Definition path_dir_and_filename (p : list byte) : list byte * list byte :=
  fold_left (fun '(dir, name) b =>
               if decide (b = "/"%byte) then (dir ++ name ++ [b], [])
               else (dir, name ++ [b]))
            p ([], []).

(** The stem and the extension of a file name: the extension starts at the
    last dot that is not the first character; [.] and [..] have none. *)
Definition split_extension (name : list byte) : list byte * list byte :=
  if bool_decide (name = str ".") || bool_decide (name = str "..") then (name, [])
  else
    match name with
    | [] => ([], [])
    | b0 :: rest =>
        fold_left (fun '(stem, ext) b =>
                     if decide (b = "."%byte) then (stem ++ ext, [b])
                     else match ext with
                          | [] => (stem ++ [b], [])
                          | _ => (stem, ext ++ [b])
                          end)
                  rest ([b0], [])
    end.

(** [fs::path(filename).extension().string()] *)
Definition extension (filename : string) : list byte :=
  snd (split_extension (snd (path_dir_and_filename (str filename)))).

(** [p.replace_filename(p.filename().replace_extension(".json"))] *)
Definition json_sibling (filename : string) : list byte :=
  let '(dir, name) := path_dir_and_filename (str filename) in
  dir ++ fst (split_extension name) ++ str ".json".

(** The code compiled under [WITH_PDAL], which belongs to the PDAL library. *)
Class Pdal : Type := {
  pdalReadPointSet : filesystem -> string -> outcome PointSet;
  pdalSavePointSet : PointSet -> filesystem -> string -> outcome filesystem
}.

(** [savePointSet]: the loop of lines 460 to 462 reads [pSet.labels[idx]]
    for every point, then the call is dispatched on the extension. *)
Fixpoint read_labels (pSet : PointSet) (n : nat) (idx : nat) : outcome unit :=
  match n with
  | O => Ok tt
  | S n' => _ ← at_ (labels pSet) idx; read_labels pSet n' (S idx)
  end.

Definition savePointSet `{Pdal} `{Storage} (pSet : PointSet) (fs : filesystem)
  (filename : string) : outcome filesystem :=
  _ ← read_labels pSet (length (points pSet)) 0;
  if bool_decide (extension filename = str ".ply")
  then fastPlySavePointSet pSet fs filename
  else pdalSavePointSet pSet fs filename.

(** ** [getClassMappings] and [readPointSet] *)

(** [fileExists] *)
Definition fileExists (fs : filesystem) (path : list byte) : bool :=
  bool_decide (is_Some (fs !! string_of_list_byte path)).

(** [json::parse] of the vendored JSON library followed by the walk over
    the [classification] object: [None] when the key is absent, else the
    (key, value) pairs in iteration order. *)
Class Json : Type := {
  parse_classification : list byte -> outcome (option (list (list byte * string)))
}.

(** [res[std::stoi(it.key())] = it.value()] for each entry. *)
Fixpoint collect_mappings (entries : list (list byte * string)) (res : gmap Z string)
  : outcome (gmap Z string) :=
  match entries with
  | [] => Ok res
  | (key, value) :: entries' =>
      k ← stoi key;
      collect_mappings entries' (<[k := value]> res)
  end.

Definition getClassMappings `{Json} (fs : filesystem) (filename : string)
  : outcome (gmap Z string) :=
  let fname := str filename in
  let jsonFile := json_sibling filename in
  suffix ← substr fname (Z.of_nat (length fname) - 5 - 4) 5;
  jsonFile ← (if bool_decide (suffix = str "_eval") && negb (fileExists fs jsonFile)
              then stem ← substr fname 0 (Z.of_nat (length fname) - 5 - 4);
                   Ok (stem ++ str ".json")
              else Ok jsonFile);
  let jsonFile :=
    if negb (fileExists fs jsonFile) then
      let mappingJson := fst (path_dir_and_filename (json_sibling filename))
                         ++ str "mappings.json" in
      if fileExists fs mappingJson then mappingJson else jsonFile
    else jsonFile in
  match fs !! string_of_list_byte jsonFile with
  | Some content =>
      data ← parse_classification content;
      match data with
      | Some entries => collect_mappings entries ∅
      | None => Ok ∅
      end
  | None => Ok ∅
  end.

(** The two tables of [labels.hpp], which is not among the files at hand.
    Modelled from the spec: a dictionary from semantic class name to
    training code, and a fixed table from the codes of the external
    standard to training codes, a pure lookup. *)
Class Labels : Type := {
  getTrainingCodes : gmap string Z;
  getAsprs2TrainCodes : Z -> Z
}.

(** [m[key]] on a [std::unordered_map<std::string, int>]: a missing key
    reads as the value-initialised [0]. *)
Definition map_index (m : gmap string Z) (key : string) : Z :=
  default 0 (m !! key).

(** The new label of lines 122 to 129. *)
Definition mapped_label (mappings : gmap Z string) (trainingCodes : gmap string Z)
  (label : Z) : Z :=
  match mappings !! label with
  | Some name => map_index trainingCodes name
  | None => map_index trainingCodes "unassigned"
  end.

(** [for (size_t idx = 0; idx < r->count(); idx++)] with
    [r->labels[idx] = f(r->labels[idx])] as body; the assignment narrows
    the [int] to [uint8_t]. *)
Fixpoint relabel_loop (f : Z -> Z) (n : nat) (idx : nat) (r : PointSet)
  : outcome PointSet :=
  match n with
  | O => Ok r
  | S n' =>
      l ← at_ (labels r) idx;
      let label := f (of_uint8 l) in
      relabel_loop f n' (S idx) (set_labels r (<[idx := to_uint8 label]> (labels r)))
  end.

(** Lines 114 to 141. *)
Definition remap_labels `{Json} `{Labels} (fs : filesystem) (filename : string)
  (r : PointSet) : outcome PointSet :=
  if hasLabels r then
    mappings ← getClassMappings fs filename;
    let hasMappings := negb (bool_decide (mappings = ∅)) in
    if hasMappings then
      relabel_loop (mapped_label mappings getTrainingCodes) (length (points r)) 0 r
    else
      relabel_loop getAsprs2TrainCodes (length (points r)) 0 r
  else Ok r.

Definition readPointSet `{FormattedInput} `{Pdal} `{Json} `{Labels} `{Memory}
  (color0 : array3 byte) (fs : filesystem) (filename : string)
  : outcome PointSet :=
  r ← (if bool_decide (extension filename = str ".ply")
       then fastPlyReadPointSet color0 fs filename
       else pdalReadPointSet fs filename);
  remap_labels fs filename r.

(** ** [PointSet::spacing] *)

(** binary32 values: the [float] of the arithmetic. *)
Definition float : Type := spec_float.
Definition float_of_Z (z : Z) : float := binary_normalize 24 128 z 0 false.
Definition float_add : float -> float -> float := SFadd 24 128.
Definition float_mul : float -> float -> float := SFmul 24 128.
Definition float_div : float -> float -> float := SFdiv 24 128.
Definition float_sqrt : float -> float := SFsqrt 24 128.

(** [std::ceil] on a [float]: a finite number with a negative exponent is
    below 2^24, so its ceiling is representable. *)
Definition float_ceil (x : float) : float :=
  match x with
  | S754_finite s m e =>
      if e <? 0 then
        let sm := if s then Z.neg m else Z.pos m in
        binary_normalize 24 128 (- ((- sm) / 2 ^ (- e))) 0 s
      else x
  | _ => x
  end.

(** [static_cast<size_t>(x)]: truncation towards zero, undefined when the
    truncated value is not a [size_t]. *)
Definition size_t_of_float (x : float) : outcome Z :=
  match x with
  | S754_zero _ => Ok 0
  | S754_finite s m e =>
      let a := if e <? 0 then Z.pos m / 2 ^ (- e) else Z.pos m * 2 ^ e in
      let z := if s then - a else a in
      if (0 <=? z) && (z <=? SIZE_MAX) then Ok z else UB
  | _ => UB
  end.

(** Lines 36 to 40: the loop [for (size_t j = 1; j < kNeighbors; ++j)],
    whose bound is [kNeighbors] converted to [size_t], and the division.
    The loop leaves the vector after [length sqr_dists] turns at most. *)
Fixpoint sum_loop (fuel : nat) (j : Z) (bound : Z) (sqr_dists : list float)
  (sum : float) : outcome float :=
  if j <? bound then
    match fuel with
    | O => UB
    | S fuel' =>
        d ← at_ sqr_dists (Z.to_nat j);
        sum_loop fuel' (j + 1) bound sqr_dists (float_add sum (float_sqrt d))
    end
  else Ok sum.

Definition sample_statistic (sqr_dists : list float) (kNeighbors : Z) : outcome float :=
  sum ← sum_loop (length sqr_dists) 1 (to_size_t kNeighbors) sqr_dists (S754_zero false);
  Ok (float_div sum (float_of_Z kNeighbors)).

(** Line 42. *)
Definition bucket_key (sum : float) : outcome Z :=
  size_t_of_float (float_ceil (float_mul sum (float_of_Z 100))).

(** Lines 51 to 56 on the [std::unordered_map<size_t, size_t>]. *)
Definition bump (dist_map : gmap Z Z) (k : Z) : gmap Z Z :=
  match dist_map !! k with
  | None => <[k := 1]> dist_map
  | Some n => <[k := to_size_t (n + 1)]> dist_map
  end.

(** What [spacing] takes from outside the two files: the construction of
    the nanoflann index over the points, the values drawn from the random
    generator, the squared distances [knnSearch] of nanoflann stores for a
    query (given the points, the query, the number asked for and the
    previous content of the output vector), and the order in which an
    unordered map is traversed. *)
Class SpacingEnv : Type := {
  buildIndex : list (array3 float_repr) -> outcome unit;
  randomDis : nat -> Z;
  knnSearch : list (array3 float_repr) -> array3 float_repr -> Z -> list float -> list float;
  traverse : gmap Z Z -> list (Z * Z);
  traverse_perm : forall m, traverse m ≡ₚ map_to_list m
}.

Section Spacing.
Context `{SpacingEnv} `{Memory}.

(** The sampling loop, lines 31 to 57, with [n] turns left. *)
Fixpoint sample_loop (pts : list (array3 float_repr)) (kNeighbors cnt : Z)
  (n : nat) (i : nat) (sqr_dists : list float) (dist_map : gmap Z Z)
  : outcome (gmap Z Z) :=
  match n with
  | O => Ok dist_map
  | S n' =>
      let idx := randomDis i in
      p ← at_ pts (Z.to_nat idx);
      let sqr_dists := knnSearch pts p cnt sqr_dists in
      sum ← sample_statistic sqr_dists kNeighbors;
      k ← bucket_key sum;
      sample_loop pts kNeighbors cnt n' (S i) sqr_dists (bump dist_map k)
  end.

(** Lines 60 to 67. *)
Definition most_frequent (entries : list (Z * Z)) : Z :=
  fst (fold_left (fun '(d, max_val) '(k, v) =>
                    if max_val <? v then (k, v) else (d, max_val))
                 entries (0, 0)).

(** [std::max(0.01, x)] *)
Definition max_0_01 (x : double) : double :=
  if double_ltb double_0_01 x then x else double_0_01.

(** [getIndex<KdTree>()]: the index is built on first use. *)
Definition getIndex (pSet : PointSet) : outcome PointSet :=
  if kdTree pSet then Ok pSet
  else _ ← buildIndex (points pSet); Ok (set_kdTree pSet true).

(** [PointSet::spacing].  [kNeighbors + 1] overflows an [int] at
    [INT_MAX]; the vectors [indices] and [sqr_dists] of lines 27 and 28
    hold that many elements of 8 and of 4 bytes: a negative number, once
    converted to their size, exceeds [max_size()], and a number of
    elements for which there is no memory throws [std::bad_alloc]. *)
Definition spacing (pSet : PointSet) (kNeighbors : Z) : outcome (double * PointSet) :=
  if negb (double_eqb (m_spacing pSet) double_minus_1)
  then Ok (m_spacing pSet, pSet)
  else
    pSet ← getIndex pSet;
    let np := count pSet in
    let SAMPLES := Z.min np 10000 in
    if INT_MAX <? kNeighbors + 1 then UB
    else
      let cnt := kNeighbors + 1 in
      if (2 ^ 63 - 1) / 8 <? to_size_t cnt
      then Throw (length_error "cannot create std::vector larger than max_size()")
      else if (0 <? to_size_t cnt)
              && negb (allocates (8 * to_size_t cnt) && allocates (4 * to_size_t cnt))
      then Throw bad_alloc
      else
        let sqr_dists := replicate (Z.to_nat cnt) (S754_zero false) in
        dist_map ← sample_loop (points pSet) kNeighbors cnt
                               (Z.to_nat SAMPLES) 0 sqr_dists ∅;
        let d := most_frequent (traverse dist_map) in
        let s := max_0_01 (double_div (double_of_Z d) double_100) in
        Ok (s, set_m_spacing pSet s).
End Spacing.


(** The statistic as the comment of line 35 and the specification name it:
    the root mean square of the distances at ranks 1 to [kNeighbors - 1]. *)
Definition root_mean_square (sqr_dists : list float) (kNeighbors : Z) : float :=
  let ds := map float_sqrt (take (Z.to_nat (kNeighbors - 1)) (drop 1 sqr_dists)) in
  float_sqrt (float_div (fold_left float_add (map (fun d => float_mul d d) ds)
                                   (S754_zero false))
                        (float_of_Z (Z.of_nat (length ds)))).

(** ** Operations on a data set

    The data sets a program can hold: a new one, a loaded one, and what
    label remapping, [spacing] and [appendPoint] make of them.  [appendPoint]
    copies the position and the colour only, and is applied to data sets
    that carry exactly these two columns. *)

Definition colours_only (d : PointSet) : Prop :=
  length (colors d) = length (points d) /\
  normals d = [] /\ views d = [] /\ labels d = [].

Inductive operation (r : PointSet) : PointSet -> Prop :=
| op_remap (J : Json) (L : Labels) fs filename r' :
    remap_labels fs filename r = Ok r' -> operation r r'
| op_spacing (E : SpacingEnv) (M : Memory) kNeighbors v r' :
    spacing r kNeighbors = Ok (v, r') -> operation r r'
| op_append src idx r' :
    colours_only r -> appendPoint r src idx = Ok r' -> operation r r'.

Inductive dataset : PointSet -> Prop :=
| ds_new : dataset new_PointSet
| ds_load (F : FormattedInput) (M : Memory) color0 fs filename r :
    fastPlyReadPointSet color0 fs filename = Ok r -> dataset r
| ds_op r r' : dataset r -> operation r r' -> dataset r'.

(** Two data sets whose columns have the same lengths. *)
Definition same_lengths (r r' : PointSet) : Prop :=
  length (points r') = length (points r) /\
  length (colors r') = length (colors r) /\
  length (normals r') = length (normals r) /\
  length (views r') = length (views r) /\
  length (labels r') = length (labels r).

(** ** The written file and the reloaded data set *)

(** The bytes of record [i] of a data set that satisfies its invariant. *)
Definition record_bytes (pSet : PointSet) (i : nat) : list byte :=
  bytes_of_xyz (nth i (points pSet) xyz_zero) ++
  (if hasNormals pSet then bytes_of_xyz (nth i (normals pSet) xyz_zero) else []) ++
  (if hasColors pSet then bytes_of_rgb (nth i (colors pSet) rgb_zero) else []) ++
  (if hasViews pSet then [nth i (views pSet) x00] else []) ++
  (if hasLabels pSet then [nth i (labels pSet) x00] else []).

(** The records [i] to [i + n - 1]. *)
Definition body_bytes (pSet : PointSet) (i n : nat) : list byte :=
  flat_map (record_bytes pSet) (seq i n).

(** The schema the reader finds in the header [ply_header] writes. *)
Definition schema_of (pSet : PointSet) : schema :=
  mkSchema false (count pSet) (hasNormals pSet) (hasColors pSet) (hasViews pSet)
           (hasLabels pSet) 0 1 2.

(** A column of which the first [i] elements have been read. *)
Definition partial_column {A : Type} (present : bool) (zero : A) (col : list A)
  (i n : nat) : list A :=
  if present then take i col ++ replicate (n - i) zero else [].

(** The data set under construction when [i] records have been read. *)
Definition partially_read (pSet : PointSet) (i : nat) : PointSet :=
  let n := length (points pSet) in
  mkPointSet (partial_column true xyz_zero (points pSet) i n)
             (partial_column (hasColors pSet) rgb_zero (colors pSet) i n)
             (partial_column (hasNormals pSet) xyz_zero (normals pSet) i n)
             (partial_column (hasLabels pSet) x00 (labels pSet) i n)
             (partial_column (hasViews pSet) x00 (views pSet) i n)
             [] false double_minus_1.

(** The bytes [fastPlySavePointSet] sends to its stream for a data set
    whose optional columns, when present, are as long as [points] or
    longer: the header and the first [points.size()] elements of each. *)
Definition saved_bytes (pSet : PointSet) : list byte :=
  ply_header pSet ++ body_bytes pSet 0 (length (points pSet)).

(** The five columns of a data set in a new [PointSet]: what the file
    format carries. *)
Definition reloaded (pSet : PointSet) : PointSet :=
  mkPointSet (points pSet) (colors pSet) (normals pSet) (labels pSet) (views pSet)
             [] false double_minus_1.

(** The digits of a decimal number as characters, and the value a run of
    digits adds to what has been read before. *)
Definition decimal_digits (d : uint) : list byte := str (NilEmpty.string_of_uint d).

Definition uint_value_from (d : uint) (a : N) : N :=
  match a with
  | N0 => Pos.of_uint d
  | Npos p => Npos (Pos.of_uint_acc d p)
  end.

(** The optional property lines of [ply_header] and the end of the header. *)
Definition property_lines (bn bc bv bl : bool) : list byte :=
  (if bn
   then put_line "property float nx" ++ put_line "property float ny" ++
        put_line "property float nz"
   else []) ++
  (if bc
   then put_line "property uchar red" ++ put_line "property uchar green" ++
        put_line "property uchar blue"
   else []) ++
  (if bv then put_line "property uchar views" else []) ++
  (if bl then put_line "property uchar classification" else []) ++
  put_line "end_header".

(** The scratch variable [color] after [n] records read from record [i]. *)
Definition scratch_after (pSet : PointSet) (color : array3 byte) (i n : nat)
  : array3 byte :=
  match n with
  | O => color
  | S n' => if hasColors pSet then nth (i + n') (colors pSet) rgb_zero else color
  end.

(** The stream after a [read] that found no input. *)
Definition after_failed_read (s : istream) : istream :=
  if good s then mkIstream [] true true else mkIstream (buf s) (eofbit s) true.

(** The data set when [k] records have been read and [j] more turns have
    found the input exhausted: these turns leave positions, normals, views
    and labels as allocated and store the scratch colour [stale]. *)
Definition cut_read (pSet : PointSet) (k j : nat) (stale : array3 byte) : PointSet :=
  let n := length (points pSet) in
  mkPointSet (partial_column true xyz_zero (points pSet) k n)
             (if hasColors pSet
              then take k (colors pSet) ++ replicate j stale
                   ++ replicate (n - k - j) rgb_zero
              else [])
             (partial_column (hasNormals pSet) xyz_zero (normals pSet) k n)
             (partial_column (hasLabels pSet) x00 (labels pSet) k n)
             (partial_column (hasViews pSet) x00 (views pSet) k n)
             [] false double_minus_1.

(** ** Record sizes *)

(** The bytes of one record under a schema. *)
Definition record_size (h : schema) : Z :=
  12 + (if sNormals h then 12 else 0) + (if sColors h then 3 else 0)
     + (if sViews h then 1 else 0) + (if sLabels h then 1 else 0).

(** The colour offsets address the three elements of a colour. *)
Definition offsets_ok (h : schema) : Prop :=
  0 <= sRed h < 3 /\ 0 <= sGreen h < 3 /\ 0 <= sBlue h < 3.

(** The requests for memory of lines 219 to 223 are granted: 12 bytes an
    element for the positions and the normals, 3 for the colours, 1 for the
    views and for the labels.  A count of zero asks for nothing. *)
Definition columns_allocate `{Memory} (h : schema) : Prop :=
  0 < vertexCount h ->
  allocates (12 * vertexCount h) = true /\
  (sColors h = true -> allocates (3 * vertexCount h) = true) /\
  (sViews h = true \/ sLabels h = true -> allocates (1 * vertexCount h) = true).

(** The columns a schema declares hold [n] elements. *)
Definition sized (h : schema) (r : PointSet) (n : nat) : Prop :=
  length (points r) = n /\
  (sNormals h = true -> length (normals r) = n) /\
  (sColors h = true -> length (colors r) = n) /\
  (sViews h = true -> length (views r) = n) /\
  (sLabels h = true -> length (labels r) = n).

(** ** Builds and inputs used in the examples *)

(** The program built without [WITH_PDAL]: lines 437-438 and 515-516. *)
Definition unsupported (filename : string) : exception :=
  runtime_error ("Unsupported file extension " +:+ string_of_list_byte (extension filename)
                 +:+ ", build program with PDAL support for additional file types support.").

#[local] Instance without_pdal : Pdal := {|
  pdalReadPointSet := fun _ filename => Throw (unsupported filename);
  pdalSavePointSet := fun _ _ filename => Throw (unsupported filename)
|}.

(** A formatted extraction that never finds a number: it stores zero and
    sets [failbit]. *)
#[local] Instance failing_input : FormattedInput := {|
  extract_float := fun s => (Some float_zero, mkIstream (buf s) (eofbit s) true);
  extract_uint16 := fun s => (Some 0, mkIstream (buf s) (eofbit s) true)
|}.

(** A classification file that maps the source label 5 to [ground]. *)
#[local] Instance json_ground : Json := {|
  parse_classification := fun _ => Ok (Some [(str "5", "ground"%string)])
|}.

#[local] Instance codes_ground : Labels := {|
  getTrainingCodes := {[ "ground"%string := 2; "unassigned"%string := 0 ]};
  getAsprs2TrainCodes := fun z => z
|}.

(** An index whose every query reports the squared distances 0, 1, 1, 1. *)
#[local] Instance unit_grid : SpacingEnv := {|
  buildIndex := fun _ => Ok tt;
  randomDis := fun _ => 0;
  knnSearch := fun _ _ _ _ => map float_of_Z [0; 1; 1; 1];
  traverse := map_to_list;
  traverse_perm := fun m => Permutation_refl (map_to_list m)
|}.

Definition one_float : float_repr := (x00, x00, "128"%byte, "063"%byte).
Definition p1 : array3 float_repr := (one_float, float_zero, float_zero).
Definition p2 : array3 float_repr := (float_zero, one_float, float_zero).
Definition p3 : array3 float_repr := (float_zero, float_zero, one_float).
Definition grey : array3 byte := ("128"%byte, "128"%byte, "128"%byte).

(** Points only. *)
Definition one_point : PointSet := set_points new_PointSet [p1].

(** Three labelled points with the labels 5, 7, 5. *)
Definition labelled : PointSet :=
  set_labels (set_points new_PointSet [p1; p2; p3]) [to_uint8 5; to_uint8 7; to_uint8 5].

(** A point with colour and label, as a derived data set might hold. *)
Definition coloured_labelled : PointSet :=
  set_labels (set_colors (set_points new_PointSet [p1]) [grey]) [to_uint8 2].

(** A point with its colour. *)
Definition coloured : PointSet := set_colors (set_points new_PointSet [p1]) [grey].

(** Two points with all four optional columns. *)
Definition full : PointSet :=
  mkPointSet [p1; p2] [grey; rgb_zero] [p3; p3] [to_uint8 2; to_uint8 6]
             [to_uint8 1; to_uint8 4] [] false double_minus_1.

(** [n] points at the origin. *)
Definition origin_points (n : Z) : PointSet :=
  set_points new_PointSet (replicate (Z.to_nat n) xyz_zero).

(** 2^31 points: one more than an [int] counts. *)
Definition huge : PointSet := origin_points 2147483648.

(** A data set whose spacing has been computed. *)
Definition measured : PointSet := set_m_spacing one_point double_0_01.

Definition on_disk (pSet : PointSet) (filename : string) : filesystem :=
  match fastPlySavePointSet pSet ∅ filename with
  | Ok fs => fs
  | _ => ∅
  end.

(** The labelled points in [cloud_set.ply], next to a classification file. *)
Definition survey_files : filesystem :=
  <["cloud_set.json"%string := []]> (on_disk labelled "cloud_set.ply").

Definition header_lines (lines : list string) : list byte :=
  flat_map put_line lines.

(** A header with [green] in slot 0, [blue] in slot 3 and no [red]. *)
Definition green_blue_file : list byte :=
  header_lines ["ply"; "format binary_little_endian 1.0"; "element vertex 1";
                "property float x"; "property float y"; "property float z";
                "property uchar green"; "property uchar alpha";
                "property uchar intensity"; "property uchar blue";
                "end_header"]%string
  ++ bytes_of_xyz p1 ++ [x01; x02; x03; x04].

(** The header of the spec's example: [red] in slot 0, [blue] in slot 1,
    [green] in slot 3. *)
Definition red_blue_gap_green_file : list byte :=
  header_lines ["ply"; "format binary_little_endian 1.0"; "element vertex 1";
                "property float x"; "property float y"; "property float z";
                "property uchar red"; "property uchar blue";
                "property uchar alpha"; "property uchar green";
                "end_header"]%string
  ++ bytes_of_xyz p1 ++ [x01; x02; x03; x04].

(** A file whose element line names faces. *)
Definition face_file : list byte :=
  header_lines ["ply"; "format binary_little_endian 1.0"; "element face 2";
                "property float x"; "property float y"; "property float z";
                "end_header"]%string
  ++ bytes_of_xyz p1 ++ bytes_of_xyz p2.

(** Two records declared, one present. *)
Definition truncated_file : list byte :=
  header_lines ["ply"; "format binary_little_endian 1.0"; "element vertex 2";
                "property float x"; "property float y"; "property float z";
                "end_header"]%string
  ++ bytes_of_xyz p1.


(** ** [trackPoint] *)

Definition set_pointMap (r : PointSet) v : PointSet :=
  mkPointSet (points r) (colors r) (normals r) (labels r) (views r) v (kdTree r) (m_spacing r).

(** [dst.trackPoint(src, idx)]: [src.pointMap[idx] = points.size() - 1], an
    unchecked write of a [size_t] difference. *)
Definition trackPoint (dst src : PointSet) (idx : nat) : outcome PointSet :=
  _ ← at_ (pointMap src) idx;
  Ok (set_pointMap src (<[idx := to_size_t (count dst - 1)]> (pointMap src))).

(** ** Texts for the header functions *)

(** Lines, each ended by a line feed. *)
Definition lines_of (ls : list (list byte)) : list byte :=
  flat_map (fun l => l ++ [x0a]) ls.

(** A line of the header that [getVertexLine] skips. *)
Definition comment_line (l : list byte) : Prop :=
  (x0a ∉ l) /\ starts_with (str "comment") l = true.

(** Tokens separated by single spaces. *)
Definition join_tokens (ts : list (list byte)) : list byte :=
  match ts with
  | [] => []
  | t :: ts' => t ++ flat_map (fun u => x20 :: u) ts'
  end.

(** The locals of the property loop when [n] lines that declare none of
    the optional columns have been scanned. *)
Definition scan_at (n : Z) : header_scan := mkScan n false false false [] 0 1 2.

(** The header [ply_header] writes, with the line ends CR LF. *)
Definition put_line_crlf (s : string) : list byte := str s ++ [x0d; x0a].

Definition property_lines_crlf (bn bc bv bl : bool) : list byte :=
  (if bn
   then put_line_crlf "property float nx" ++ put_line_crlf "property float ny" ++
        put_line_crlf "property float nz"
   else []) ++
  (if bc
   then put_line_crlf "property uchar red" ++ put_line_crlf "property uchar green" ++
        put_line_crlf "property uchar blue"
   else []) ++
  (if bv then put_line_crlf "property uchar views" else []) ++
  (if bl then put_line_crlf "property uchar classification" else []) ++
  put_line_crlf "end_header".

Definition ply_header_crlf (pSet : PointSet) : list byte :=
  put_line_crlf "ply" ++
  put_line_crlf "format binary_little_endian 1.0" ++
  put_line_crlf "comment Generated by OpenPointClass" ++
  (str "element vertex " ++ put_size_t (count pSet) ++ [x0d; x0a]) ++
  put_line_crlf "property float x" ++
  put_line_crlf "property float y" ++
  put_line_crlf "property float z" ++
  property_lines_crlf (hasNormals pSet) (hasColors pSet) (hasViews pSet) (hasLabels pSet).

(** ** Columns, caches and histograms *)

(** A column that is present holds at least as many elements as [points]. *)
Definition long_enough {A B : Type} (pts : list A) (col : list B) : Prop :=
  length col = 0%nat \/ (length pts <= length col)%nat.

Definition columns_long_enough (pSet : PointSet) : Prop :=
  long_enough (points pSet) (normals pSet) /\ long_enough (points pSet) (colors pSet) /\
  long_enough (points pSet) (views pSet) /\ long_enough (points pSet) (labels pSet).

(** What a data set holds besides its columns. *)
Definition same_cache (r r' : PointSet) : Prop :=
  pointMap r = pointMap r' /\ kdTree r = kdTree r' /\ m_spacing r = m_spacing r'.

(** The table of the fallback branch of [readPointSet] applied to a label. *)
Definition asprs_label `{Labels} (l : byte) : byte :=
  to_uint8 (getAsprs2TrainCodes (of_uint8 l)).

(** The file system after [fastPlySavePointSet] on a data set that
    satisfies the column invariant. *)
Definition saved_files (pSet : PointSet) (fs : filesystem) (filename : string)
  : filesystem :=
  <[filename := ply_header pSet ++ body_bytes pSet 0 (length (points pSet))]> fs.

(** The number of samples a histogram has counted. *)
Definition total_count (dist_map : gmap Z Z) : Z :=
  map_fold (fun _ v acc => v + acc) 0 dist_map.

(** ** Further inputs used in the examples *)

(** A table of the external codes that sends 5 to 2 and the others to 0. *)
#[local] Instance codes_five : Labels := {|
  getTrainingCodes := {[ "ground"%string := 2; "unassigned"%string := 0 ]};
  getAsprs2TrainCodes := fun z => if z =? 5 then 2 else 0
|}.

(** A header that declares the count -3. *)
Definition negative_count_file : list byte :=
  header_lines ["ply"; "format binary_little_endian 1.0"; "element vertex -3";
                "property float x"; "property float y"; "property float z";
                "end_header"]%string
  ++ bytes_of_xyz p1.

(** An ASCII file that declares two coloured points and holds text. *)
Definition ascii_file : list byte :=
  header_lines ["ply"; "format ascii 1.0"; "element vertex 2";
                "property float x"; "property float y"; "property float z";
                "property uchar red"; "property uchar green"; "property uchar blue";
                "end_header"; "1 0 0 128 128 128"; "0 1 0 128 128"]%string.

(** * Properties *)

(** ** Memory *)

Lemma bind_ret_l {A B : Type} (a : A) (k : A -> outcome B) : (Ok a ≫= k) = k a.
Proof. reflexivity. Qed.

Lemma resize_new `{Memory} {A : Type} (elt_size : Z) (zero : A) (n : nat) :
  0 < elt_size <= 12 -> Z.of_nat n <= INT_MAX ->
  (0 < Z.of_nat n -> allocates (elt_size * Z.of_nat n) = true) ->
  resize elt_size zero [] (Z.of_nat n) = Ok (replicate n zero).
Proof.
  intros He Hn Hmem. unfold resize.
  assert ((2 ^ 63 - 1) / 12 <= (2 ^ 63 - 1) / elt_size) as Hmax
    by (apply Z.div_le_compat_l; lia).
  change ((2 ^ 63 - 1) / 12) with 768614336404564650 in Hmax.
  unfold INT_MAX in Hn.
  assert (((2 ^ 63 - 1) / elt_size <? Z.of_nat n) = false) as ->
    by (apply Z.ltb_ge; lia).
  assert (((Z.of_nat (length (@nil A)) <? Z.of_nat n)
           && negb (allocates (elt_size
                               * grown_capacity elt_size (Z.of_nat (length (@nil A)))
                                   (Z.of_nat n)))) = false) as ->.
  { cbn [length]. destruct (Z.ltb_spec (Z.of_nat 0) (Z.of_nat n)) as [Hpos | Hz];
      [ | reflexivity ].
    unfold grown_capacity.
    replace (Z.min ((2 ^ 63 - 1) / elt_size)
               (Z.of_nat 0 + Z.max (Z.of_nat 0) (Z.of_nat n - Z.of_nat 0)))
      with (Z.of_nat n) by lia.
    rewrite Hmem by lia. reflexivity. }
  rewrite take_nil, Nat2Z.id. simpl. rewrite Nat.sub_0_r. reflexivity.
Qed.

(** The machine that grants every request allocates every column. *)
Lemma ample_columns_allocate (h : schema) : columns_allocate (H := ample_memory) h.
Proof. intros _. repeat split; intros; reflexivity. Qed.

(** The condition of [resize_new] from the one on the columns. *)
Ltac granted Hmem :=
  let Hpos := fresh in
  intros Hpos; destruct (Hmem Hpos) as (? & ? & ?); auto.

(** With the columns granted, the allocation of lines 219 to 223 gives
    what it gives on the machine that grants every request. *)
Lemma allocate_granted `{Memory} (h : schema) :
  0 <= vertexCount h <= INT_MAX ->
  columns_allocate h ->
  allocate h new_PointSet = allocate (H := ample_memory) h new_PointSet.
Proof.
  intros Hn Hmem. unfold columns_allocate in Hmem. unfold allocate.
  set (n := Z.to_nat (vertexCount h)).
  assert (vertexCount h = Z.of_nat n) as E by lia.
  clearbody n. rewrite E in *.
  unfold new_PointSet. cbn [points set_points].
  rewrite (resize_new (H := ample_memory)) by (lia || (intros; reflexivity)).
  rewrite resize_new by (lia || granted Hmem). rewrite !bind_ret_l.
  cbn [points colors normals views labels set_points set_normals set_colors
       set_views set_labels pointMap kdTree m_spacing].
  destruct (sNormals h), (sColors h), (sViews h), (sLabels h);
    repeat first
      [ rewrite (resize_new (H := ample_memory)) by (lia || (intros; reflexivity))
      | rewrite resize_new by (lia || granted Hmem)
      | rewrite bind_ret_l
      | progress cbn [points colors normals views labels set_points set_normals
                      set_colors set_views set_labels pointMap kdTree m_spacing] ];
    reflexivity.
Qed.

Lemma fastPlyReadPointSet_granted `{FormattedInput} `{Memory} color0
  (fs : filesystem) (filename : string) (content : list byte) (h : schema)
  (reader : istream) :
  fs !! filename = Some content ->
  read_header (open_stream content) = Ok (h, reader) ->
  0 <= vertexCount h <= INT_MAX ->
  columns_allocate h ->
  fastPlyReadPointSet color0 fs filename
  = fastPlyReadPointSet (H0 := ample_memory) color0 fs filename.
Proof.
  intros Hfs Hh Hn Hmem. unfold fastPlyReadPointSet.
  rewrite Hfs, Hh, !bind_ret_l. cbv beta iota.
  rewrite allocate_granted by assumption. reflexivity.
Qed.

(** ** The element line *)

(** C6: the element line [element face 10] is accepted and read as a
    count of 10: the test of line 102 throws only when both the first and
    the second token differ from what is expected.  A file with such a
    line loads as if it declared vertices, on any machine that grants the
    vector of its two points. *)
Theorem getVertexCount_accepts_face_element :
  getVertexCount (str "element face 10") = Ok 10 /\
  forall (F : FormattedInput) (M : Memory) color0,
    allocates (12 * 2) = true ->
    fastPlyReadPointSet color0 {[ "f.ply"%string := face_file ]} "f.ply"
    = Ok (set_points new_PointSet [p1; p2]).
Proof.
  split; [ vm_compute; reflexivity | ].
  intros F M color0 Hmem.
  rewrite (fastPlyReadPointSet_granted color0 _ _ face_file
             (mkSchema false 2 false false false false 0 1 2)
             (open_stream (bytes_of_xyz p1 ++ bytes_of_xyz p2))).
  - vm_compute. reflexivity.
  - apply lookup_singleton_eq.
  - vm_compute. reflexivity.
  - vm_compute. split; discriminate.
  - intros _. cbn [vertexCount sColors sViews sLabels].
    split; [ exact Hmem | split; [ discriminate | intros [E | E]; discriminate E ] ].
Qed.

Lemma getVertexCount_accepts_face_element_witness :
  fastPlyReadPointSet (H := failing_input) (H0 := ample_memory) rgb_zero
    {[ "f.ply"%string := face_file ]} "f.ply"
  = Ok (set_points new_PointSet [p1; p2]).
Proof.
  apply (proj2 getVertexCount_accepts_face_element failing_input ample_memory rgb_zero).
  reflexivity.
Defined.

(** Once the stream is no longer good, [getline] leaves the line as it is:
    on a comment line the loop of [getVertexLine] then never ends. *)
Lemma getVertexLine_loop_stuck (line : list byte) :
  starts_with (str "element") line = false ->
  starts_with (str "comment") line = true ->
  forall (fuel : nat) (reader : istream),
    good reader = false -> getVertexLine_loop fuel reader line = Diverges.
Proof.
  intros He Hc. induction fuel as [|fuel IH]; intros reader Hg; [ reflexivity | ].
  cbn [getVertexLine_loop]. unfold getline, getline_delim. rewrite Hg, He, Hc.
  apply IH. unfold good. cbn [failbit]. apply andb_false_r.
Qed.

(** A header that ends inside a comment, without a line feed. *)
Lemma getVertexLine_unterminated_comment :
  getVertexLine (open_stream (str "comment no line feed")) = Diverges.
Proof. vm_compute. reflexivity. Qed.

Lemma getVertexCount_negative_count :
  getVertexCount (str "element vertex -3") = Ok (2 ^ 64 - 3).
Proof. vm_compute. reflexivity. Qed.

(** ** [savePointSet] *)

Lemma read_labels_absent (pSet : PointSet) (n idx : nat) :
  labels pSet = [] -> read_labels pSet (S n) idx = UB.
Proof.
  intros Hl. simpl. unfold at_. rewrite Hl, lookup_nil. reflexivity.
Qed.

Lemma savePointSet_unlabelled `{Pdal} `{Storage} (pSet : PointSet) fs filename :
  points pSet <> [] -> labels pSet = [] -> savePointSet pSet fs filename = UB.
Proof.
  intros Hp Hl. unfold savePointSet.
  destruct (points pSet) as [|p ps] eqn:E; [ congruence | ].
  cbn [length]. rewrite read_labels_absent by assumption. reflexivity.
Qed.

(** C10: on a data set with one point and no labels, the loop of
    [savePointSet] reads [labels[0]] of an empty vector: the call has
    undefined behaviour before any file is written, whatever the file
    system would do with it. *)
Theorem savePointSet_one_point_reads_out_of_bounds :
  columns_ok one_point /\
  forall (P : Pdal) (S : Storage) fs filename, savePointSet one_point fs filename = UB.
Proof.
  split.
  - unfold columns_ok, column_ok; simpl; tauto.
  - intros. apply savePointSet_unlabelled; [ discriminate | reflexivity ].
Qed.

(** ** Colour offsets *)

(** C5: a header with [green] in slot 0, [blue] in slot 3 and no [red]
    resolves to the offsets 0, 0, 3, whose sum is 3: the test of line 215
    lets it pass, and the record loop then writes [colors[0][3]], on any
    machine that grants the two columns of one element. *)
Theorem green_blue_header_is_accepted :
  read_header (open_stream green_blue_file)
  = Ok (mkSchema false 1 false true false false 0 0 3,
        open_stream (bytes_of_xyz p1 ++ [x01; x02; x03; x04])) /\
  forall (F : FormattedInput) (M : Memory) color0,
    columns_allocate (mkSchema false 1 false true false false 0 0 3) ->
    fastPlyReadPointSet color0 {[ "f.ply"%string := green_blue_file ]} "f.ply" = UB.
Proof.
  split; [ vm_compute; reflexivity | ].
  intros F M [[a b] d] Hmem.
  rewrite (fastPlyReadPointSet_granted _ _ _ green_blue_file
             (mkSchema false 1 false true false false 0 0 3)
             (open_stream (bytes_of_xyz p1 ++ [x01; x02; x03; x04]))).
  - vm_compute. reflexivity.
  - apply lookup_singleton_eq.
  - vm_compute. reflexivity.
  - vm_compute. split; discriminate.
  - exact Hmem.
Qed.

Lemma green_blue_header_is_accepted_witness :
  fastPlyReadPointSet (H := failing_input) (H0 := ample_memory) rgb_zero
    {[ "f.ply"%string := green_blue_file ]} "f.ply" = UB.
Proof.
  apply (proj2 green_blue_header_is_accepted failing_input ample_memory rgb_zero).
  apply ample_columns_allocate.
Defined.

(** When the three colours are declared, on three different lines, the
    test on the sum is exact: the offsets are accepted if and only if each
    is below 3, and they are then 0, 1, 2 in some order. *)
Lemma resolve_colors_distinct_slots (st : header_scan) :
  0 <= redIdx st < 2 ^ 32 -> 0 <= greenIdx st < 2 ^ 32 -> 0 <= blueIdx st < 2 ^ 32 ->
  redIdx st <> greenIdx st -> greenIdx st <> blueIdx st -> redIdx st <> blueIdx st ->
  let m := Z.min (Z.min (redIdx st) (greenIdx st)) (blueIdx st) in
  (resolve_colors st = Ok (redIdx st - m, greenIdx st - m, blueIdx st - m) /\
   redIdx st - m < 3 /\ greenIdx st - m < 3 /\ blueIdx st - m < 3) \/
  (resolve_colors st = Throw not_contiguous /\
   (3 <= redIdx st - m \/ 3 <= greenIdx st - m \/ 3 <= blueIdx st - m)).
Proof.
  intros Hr Hg Hb Hrg Hgb Hrb m. unfold resolve_colors. fold m.
  assert (to_size_t (redIdx st - m) = redIdx st - m) as ->
    by (apply Z.mod_small; lia).
  assert (to_size_t (greenIdx st - m) = greenIdx st - m) as ->
    by (apply Z.mod_small; lia).
  assert (to_size_t (blueIdx st - m) = blueIdx st - m) as ->
    by (apply Z.mod_small; lia).
  assert (to_size_t (redIdx st - m + (greenIdx st - m) + (blueIdx st - m))
          = redIdx st - m + (greenIdx st - m) + (blueIdx st - m)) as ->
    by (apply Z.mod_small; lia).
  destruct (bool_decide _) eqn:E.
  - apply bool_decide_eq_true in E. right. split; [ reflexivity | lia ].
  - apply bool_decide_eq_false in E. left. split; [ reflexivity | lia ].
Qed.

(** The header of the specification's example is rejected. *)
Lemma red_blue_gap_green_is_rejected (F : FormattedInput) color0 :
  fastPlyReadPointSet color0 {[ "f.ply"%string := red_blue_gap_green_file ]} "f.ply"
  = Throw not_contiguous.
Proof. vm_compute. reflexivity. Qed.

(** ** The statistic of a sample *)

(** C4: with the squared distances 0, 1, 1, 1 and three neighbours the
    code computes (1 + 1) / 3, the sum of the distances at ranks 1 and 2
    divided by [kNeighbors], where the root mean square of these two
    distances is 1. *)
Theorem sample_statistic_is_not_root_mean_square :
  sample_statistic (map float_of_Z [0; 1; 1; 1]) 3
  = Ok (float_div (float_of_Z 2) (float_of_Z 3)) /\
  root_mean_square (map float_of_Z [0; 1; 1; 1]) 3 = float_of_Z 1 /\
  SFeqb (float_div (float_of_Z 2) (float_of_Z 3)) (float_of_Z 1) = false.
Proof. vm_compute. auto. Qed.

(** The statistic in closed form: the distances at ranks 1 to
    [kNeighbors - 1] are added up and the sum is divided by [kNeighbors]. *)
Lemma sum_loop_window (ds : list float) (bound : Z) :
  forall (n fuel : nat) (j : Z) (sum : float),
    0 <= j -> j + Z.of_nat n = bound -> bound <= Z.of_nat (length ds) ->
    (n <= fuel)%nat ->
    sum_loop fuel j bound ds sum
    = Ok (fold_left (fun s d => float_add s (float_sqrt d))
                    (take n (drop (Z.to_nat j) ds)) sum).
Proof.
  induction n as [|n IH]; intros fuel j sum Hj Hn Hb Hf.
  - assert ((j <? bound) = false) as E by (apply Z.ltb_ge; lia).
    destruct fuel; simpl; rewrite E; reflexivity.
  - destruct fuel as [|fuel]; [ lia | ].
    assert ((j <? bound) = true) as E by (apply Z.ltb_lt; lia).
    simpl. rewrite E.
    destruct (lookup_lt_is_Some_2 ds (Z.to_nat j)) as [d Hd]; [ lia | ].
    unfold at_. rewrite Hd. simpl.
    rewrite IH by lia.
    rewrite (drop_S ds d (Z.to_nat j) Hd). simpl.
    replace (Z.to_nat (j + 1)) with (S (Z.to_nat j)) by lia.
    reflexivity.
Qed.

Lemma sample_statistic_window (sqr_dists : list float) (kNeighbors : Z) :
  1 <= kNeighbors <= INT_MAX -> kNeighbors < Z.of_nat (length sqr_dists) ->
  sample_statistic sqr_dists kNeighbors
  = Ok (float_div
          (fold_left (fun s d => float_add s (float_sqrt d))
                     (take (Z.to_nat (kNeighbors - 1)) (drop 1 sqr_dists))
                     (S754_zero false))
          (float_of_Z kNeighbors)).
Proof.
  intros Hk Hlen. unfold sample_statistic.
  assert (to_size_t kNeighbors = kNeighbors) as ->.
  { unfold to_size_t. apply Z.mod_small. unfold INT_MAX in Hk. lia. }
  rewrite (sum_loop_window sqr_dists kNeighbors (Z.to_nat (kNeighbors - 1))) by lia.
  reflexivity.
Qed.

(** ** The spacing cache *)

Lemma bind_Ok {A B : Type} (m : outcome A) (k : A -> outcome B) (b : B) :
  (m ≫= k) = Ok b -> exists a, m = Ok a /\ k a = Ok b.
Proof.
  destruct m; simpl; try discriminate. intros Hk. eauto.
Qed.

(** The literal 0.01 is the quotient of 1 by 100 rounded to nearest. *)
Lemma double_0_01_nearest : double_0_01 = double_div (double_of_Z 1) double_100.
Proof. vm_compute. reflexivity. Qed.

Lemma max_0_01_ge (x : double) : double_leb double_0_01 (max_0_01 x) = true.
Proof.
  unfold max_0_01.
  destruct (double_ltb double_0_01 x) eqn:E; [ | reflexivity ].
  unfold double_ltb, SFltb in E. unfold double_leb, SFleb.
  destruct (SFcompare double_0_01 x) as [[ | | ]|]; congruence.
Qed.

Lemma ge_0_01_not_sentinel (v : double) :
  double_leb double_0_01 v = true -> double_eqb v double_minus_1 = false.
Proof.
  destruct v as [s|s| |s m e]; try destruct s; simpl; intros Hv;
    try discriminate; reflexivity.
Qed.

Lemma cached_spacing_returned `{SpacingEnv} `{Memory} (pSet : PointSet)
  (kNeighbors : Z) :
  double_eqb (m_spacing pSet) double_minus_1 = false ->
  spacing pSet kNeighbors = Ok (m_spacing pSet, pSet).
Proof.
  intros Hs. unfold spacing. rewrite Hs. reflexivity.
Qed.

Lemma first_spacing_inv `{SpacingEnv} `{Memory} (pSet : PointSet) (kNeighbors : Z)
  v pSet' :
  double_eqb (m_spacing pSet) double_minus_1 = true ->
  spacing pSet kNeighbors = Ok (v, pSet') ->
  exists x pSet1, getIndex pSet = Ok pSet1 /\ v = max_0_01 x /\
                  pSet' = set_m_spacing pSet1 v.
Proof.
  intros Hs. unfold spacing. rewrite Hs. simpl.
  intros Hr. apply bind_Ok in Hr as (pSet1 & Hidx & Hr).
  destruct (INT_MAX <? kNeighbors + 1); [ discriminate | ].
  destruct ((2 ^ 63 - 1) / 8 <? to_size_t (kNeighbors + 1)); [ discriminate | ].
  destruct (_ && _); [ discriminate | ].
  apply bind_Ok in Hr as (dist_map & _ & Hr).
  injection Hr as <- <-. eauto.
Qed.

(** C8: a first call that returns caches a value of at least 0.01, which
    is not the sentinel -1, and every later call, with any neighbour count
    and whatever the generator and the index would answer, returns that
    value and leaves the data set as it is. *)
Theorem spacing_computed_once `{SpacingEnv} `{Memory} (pSet : PointSet)
  (kNeighbors : Z) (v : double) (pSet' : PointSet) :
  double_eqb (m_spacing pSet) double_minus_1 = true ->
  spacing pSet kNeighbors = Ok (v, pSet') ->
  double_leb double_0_01 v = true /\
  double_eqb v double_minus_1 = false /\
  m_spacing pSet' = v /\
  forall (E : SpacingEnv) (M : Memory) (k : Z), @spacing E M pSet' k = Ok (v, pSet').
Proof.
  intros Hs Hr.
  destruct (first_spacing_inv pSet kNeighbors v pSet' Hs Hr) as (x & pSet1 & _ & -> & ->).
  pose proof (max_0_01_ge x) as Hge.
  pose proof (ge_0_01_not_sentinel _ Hge) as Hne.
  repeat split; try assumption.
  intros E M k. apply (@cached_spacing_returned E M). exact Hne.
Qed.

Lemma spacing_computed_once_witness :
  double_leb double_0_01 (max_0_01 (double_div (double_of_Z 67) double_100)) = true /\
  double_eqb (max_0_01 (double_div (double_of_Z 67) double_100)) double_minus_1 = false /\
  m_spacing (set_m_spacing (set_kdTree one_point true)
               (max_0_01 (double_div (double_of_Z 67) double_100)))
  = max_0_01 (double_div (double_of_Z 67) double_100) /\
  forall (E : SpacingEnv) (M : Memory) (k : Z),
    @spacing E M (set_m_spacing (set_kdTree one_point true)
                    (max_0_01 (double_div (double_of_Z 67) double_100))) k
    = Ok (max_0_01 (double_div (double_of_Z 67) double_100),
          set_m_spacing (set_kdTree one_point true)
            (max_0_01 (double_div (double_of_Z 67) double_100))).
Proof.
  apply (@spacing_computed_once unit_grid ample_memory one_point 3);
    vm_compute; reflexivity.
Defined.

(** ** The empty data set *)

Lemma traverse_empty `{SpacingEnv} : traverse ∅ = [].
Proof.
  apply Permutation_nil_r. rewrite (traverse_perm ∅), map_to_list_empty. reflexivity.
Qed.




(** ** The column invariant *)

Lemma same_lengths_refl (r : PointSet) : same_lengths r r.
Proof. unfold same_lengths; tauto. Qed.

Lemma same_lengths_trans (r1 r2 r3 : PointSet) :
  same_lengths r1 r2 -> same_lengths r2 r3 -> same_lengths r1 r3.
Proof. unfold same_lengths; intuition congruence. Qed.

Lemma columns_ok_same_lengths (r r' : PointSet) :
  same_lengths r r' -> columns_ok r -> columns_ok r'.
Proof.
  unfold same_lengths, columns_ok, column_ok.
  intros (-> & -> & -> & -> & ->). tauto.
Qed.

Lemma read_binary_record_lengths (h : schema) (i : nat) s s' :
  read_binary_record h i s = Ok s' -> same_lengths (bSet s) (bSet s').
Proof.
  destruct s as [reader r color]. unfold read_binary_record.
  intros Hr.
  apply bind_Ok in Hr as (p & _ & Hr).
  destruct (read reader 12 (bytes_of_xyz p)) as [bs reader1].
  apply bind_Ok in Hr as ([reader2 r2] & H2 & Hr).
  apply bind_Ok in Hr as ([[reader3 r3] color3] & H3 & Hr).
  apply bind_Ok in Hr as ([reader4 r4] & H4 & Hr).
  apply bind_Ok in Hr as ([reader5 r5] & H5 & Hr).
  injection Hr as <-. simpl.
  assert (same_lengths r r2) as S2.
  { destruct (sNormals h).
    - apply bind_Ok in H2 as (n & _ & H2).
      destruct (read reader1 12 (bytes_of_xyz n)). injection H2 as <- <-.
      unfold same_lengths; simpl. rewrite !length_insert. tauto.
    - injection H2 as <- <-.
      unfold same_lengths; simpl. rewrite !length_insert. tauto. }
  assert (same_lengths r2 r3) as S3.
  { destruct (sColors h).
    - destruct (read reader2 3 (bytes_of_rgb color)) as [bs3 rd3].
      apply bind_Ok in H3 as (e0 & _ & H3).
      apply bind_Ok in H3 as (e1 & _ & H3).
      apply bind_Ok in H3 as (e2 & _ & H3).
      apply bind_Ok in H3 as (e3 & _ & H3).
      injection H3 as <- <- <-.
      unfold same_lengths; simpl. rewrite !length_insert. tauto.
    - injection H3 as <- <- <-. apply same_lengths_refl. }
  assert (same_lengths r3 r4) as S4.
  { destruct (sViews h).
    - apply bind_Ok in H4 as (v & _ & H4).
      destruct (read reader3 1 [v]). injection H4 as <- <-.
      unfold same_lengths; simpl. rewrite !length_insert. tauto.
    - injection H4 as <- <-. apply same_lengths_refl. }
  assert (same_lengths r4 r5) as S5.
  { destruct (sLabels h).
    - apply bind_Ok in H5 as (v & _ & H5).
      destruct (read reader4 1 [v]). injection H5 as <- <-.
      unfold same_lengths; simpl. rewrite !length_insert. tauto.
    - injection H5 as <- <-. apply same_lengths_refl. }
  eauto using same_lengths_trans.
Qed.

Lemma read_ascii_record_lengths `{FormattedInput} (h : schema) (i : nat) s s' :
  read_ascii_record h i s = Ok s' -> same_lengths (bSet s) (bSet s').
Proof.
  destruct s as [reader r b]. unfold read_ascii_record.
  intros Hr.
  apply bind_Ok in Hr as (p & _ & Hr).
  destruct (extract_xyz reader p) as [p' reader1].
  apply bind_Ok in Hr as ([reader2 r2] & H2 & Hr).
  apply bind_Ok in Hr as ([[reader3 r3] b3] & H3 & Hr).
  apply bind_Ok in Hr as ([[reader4 r4] b4] & H4 & Hr).
  apply bind_Ok in Hr as ([[reader5 r5] b5] & H5 & Hr).
  injection Hr as <-. simpl.
  assert (same_lengths r r2) as S2.
  { destruct (sNormals h).
    - apply bind_Ok in H2 as (n & _ & H2).
      destruct (extract_xyz reader1 n). injection H2 as <- <-.
      unfold same_lengths; simpl. rewrite !length_insert. tauto.
    - injection H2 as <- <-.
      unfold same_lengths; simpl. rewrite !length_insert. tauto. }
  assert (same_lengths r2 r3) as S3.
  { destruct (sColors h).
    - apply bind_Ok in H3 as (e0 & _ & H3).
      destruct (read_uint16 reader2 b) as [b1 rd1].
      apply bind_Ok in H3 as (v1 & _ & H3).
      apply bind_Ok in H3 as (e1 & _ & H3).
      destruct (read_uint16 rd1 b1) as [b2 rd2].
      apply bind_Ok in H3 as (v2 & _ & H3).
      apply bind_Ok in H3 as (e2 & _ & H3).
      destruct (read_uint16 rd2 b2) as [b6 rd3].
      apply bind_Ok in H3 as (v3 & _ & H3).
      apply bind_Ok in H3 as (e3 & _ & H3).
      injection H3 as <- <- <-.
      unfold same_lengths; simpl. rewrite !length_insert. tauto.
    - injection H3 as <- <- <-. apply same_lengths_refl. }
  assert (same_lengths r3 r4) as S4.
  { destruct (sViews h).
    - apply bind_Ok in H4 as (v & _ & H4).
      destruct (read_uint16 reader3 b3).
      apply bind_Ok in H4 as (v4 & _ & H4). injection H4 as <- <- <-.
      unfold same_lengths; simpl. rewrite !length_insert. tauto.
    - injection H4 as <- <- <-. apply same_lengths_refl. }
  assert (same_lengths r4 r5) as S5.
  { destruct (sLabels h).
    - apply bind_Ok in H5 as (v & _ & H5).
      destruct (read_uint16 reader4 b4).
      apply bind_Ok in H5 as (v5 & _ & H5). injection H5 as <- <- <-.
      unfold same_lengths; simpl. rewrite !length_insert. tauto.
    - injection H5 as <- <- <-. apply same_lengths_refl. }
  eauto using same_lengths_trans.
Qed.

Lemma for_records_lengths {T : Type}
  (step : nat -> body_state T -> outcome (body_state T)) :
  (forall i s s', step i s = Ok s' -> same_lengths (bSet s) (bSet s')) ->
  forall n i s s', for_records step n i s = Ok s' -> same_lengths (bSet s) (bSet s').
Proof.
  intros Hstep. induction n as [|n IH]; intros i s s' Hr; simpl in Hr.
  - injection Hr as <-. apply same_lengths_refl.
  - apply bind_Ok in Hr as (s1 & H1 & Hr).
    eauto using same_lengths_trans.
Qed.

Lemma read_body_lengths `{FormattedInput} color0 h reader r r' :
  read_body color0 h reader r = Ok r' -> same_lengths r r'.
Proof.
  unfold read_body. destruct (ascii h); intros Hr;
    apply bind_Ok in Hr as (s & Hs & Hr); injection Hr as <-.
  - apply (for_records_lengths _ (read_ascii_record_lengths h)) in Hs. exact Hs.
  - apply (for_records_lengths _ (read_binary_record_lengths h)) in Hs. exact Hs.
Qed.

Lemma resize_empty `{Memory} {A : Type} (elt_size : Z) (zero : A) (n : Z) v :
  resize elt_size zero [] n = Ok v -> v = replicate (Z.to_nat n) zero.
Proof.
  unfold resize. destruct (_ <? n); [ discriminate | ].
  destruct (_ && _); [ discriminate | ].
  intros [= <-]. rewrite take_nil. simpl. rewrite Nat.sub_0_r. reflexivity.
Qed.

Lemma allocate_columns_ok `{Memory} (h : schema) (r : PointSet) :
  allocate h new_PointSet = Ok r -> columns_ok r.
Proof.
  unfold allocate. intros Hr.
  apply bind_Ok in Hr as (p & Hp & Hr). apply resize_empty in Hp. subst p.
  apply bind_Ok in Hr as (r1 & H1 & Hr).
  apply bind_Ok in Hr as (r2 & H2 & Hr).
  apply bind_Ok in Hr as (r3 & H3 & Hr).
  destruct (sNormals h), (sColors h), (sViews h), (sLabels h);
    repeat match goal with
    | H : (resize _ _ _ _ ≫= _) = Ok _ |- _ =>
        let v := fresh "v" in let Hv := fresh "Hv" in
        apply bind_Ok in H as (v & Hv & H); apply resize_empty in Hv; subst v
    | H : Ok _ = Ok _ |- _ => injection H as H; subst
    end;
    unfold columns_ok, column_ok; simpl; rewrite ?length_replicate; tauto.
Qed.

Lemma fastPlyReadPointSet_columns_ok `{FormattedInput} `{Memory} color0 fs filename r :
  fastPlyReadPointSet color0 fs filename = Ok r -> columns_ok r.
Proof.
  unfold fastPlyReadPointSet. destruct (fs !! filename); [ | discriminate ].
  intros Hr.
  apply bind_Ok in Hr as ([h reader] & _ & Hr).
  apply bind_Ok in Hr as (r0 & Ha & Hr).
  apply read_body_lengths in Hr. apply allocate_columns_ok in Ha.
  eauto using columns_ok_same_lengths.
Qed.

Lemma relabel_loop_lengths (f : Z -> Z) :
  forall n idx r r', relabel_loop f n idx r = Ok r' -> same_lengths r r'.
Proof.
  induction n as [|n IH]; intros idx r r' Hr; simpl in Hr.
  - injection Hr as <-. apply same_lengths_refl.
  - apply bind_Ok in Hr as (l & _ & Hr). apply IH in Hr.
    eapply same_lengths_trans; [ | exact Hr ].
    unfold same_lengths; simpl. rewrite length_insert. tauto.
Qed.

Lemma remap_labels_lengths `{Json} `{Labels} fs filename r r' :
  remap_labels fs filename r = Ok r' -> same_lengths r r'.
Proof.
  unfold remap_labels. destruct (hasLabels r).
  - intros Hr. apply bind_Ok in Hr as (m & _ & Hr).
    destruct (negb _); eauto using relabel_loop_lengths.
  - intros [= <-]. apply same_lengths_refl.
Qed.

Lemma spacing_lengths `{SpacingEnv} `{Memory} pSet kNeighbors v pSet' :
  spacing pSet kNeighbors = Ok (v, pSet') -> same_lengths pSet pSet'.
Proof.
  destruct (double_eqb (m_spacing pSet) double_minus_1) eqn:Hs.
  - intros Hr.
    destruct (first_spacing_inv pSet kNeighbors v pSet' Hs Hr)
      as (x & pSet1 & Hidx & -> & ->).
    unfold getIndex in Hidx. destruct (kdTree pSet).
    + injection Hidx as <-. unfold same_lengths. simpl. tauto.
    + apply bind_Ok in Hidx as (u & _ & Hidx). injection Hidx as <-.
      unfold same_lengths. simpl. tauto.
  - rewrite (cached_spacing_returned pSet kNeighbors Hs).
    intros [= _ <-]. apply same_lengths_refl.
Qed.

Lemma appendPoint_colours_only (dst src : PointSet) (idx : nat) dst' :
  colours_only dst -> appendPoint dst src idx = Ok dst' ->
  colours_only dst' /\ length (points dst') = S (length (points dst)).
Proof.
  intros (Hc & Hn & Hv & Hl) Hr. unfold appendPoint in Hr.
  apply bind_Ok in Hr as (p & _ & Hr).
  apply bind_Ok in Hr as (c & _ & Hr).
  injection Hr as <-. unfold colours_only. simpl.
  rewrite !length_app. simpl. repeat split; try assumption; lia.
Qed.

Lemma colours_only_columns_ok (d : PointSet) : colours_only d -> columns_ok d.
Proof.
  intros (Hc & Hn & Hv & Hl). unfold columns_ok, column_ok.
  rewrite Hn, Hv, Hl. simpl. tauto.
Qed.

Lemma operation_columns_ok (r r' : PointSet) :
  columns_ok r -> operation r r' -> columns_ok r'.
Proof.
  intros Hr [J L fs filename r1 Hop | E M k v r1 Hop | src idx r1 Hc Hop].
  - eauto using columns_ok_same_lengths, remap_labels_lengths.
  - eauto using columns_ok_same_lengths, spacing_lengths.
  - apply colours_only_columns_ok.
    apply (appendPoint_colours_only r src idx r1 Hc Hop).
Qed.

(** C9, as the code has it: every data set obtained from a new or a loaded
    one by label remapping, by [spacing] and by [appendPoint] applied to
    data sets that hold positions and colours only, has each optional
    column empty or as long as the positions. *)
Theorem dataset_columns_ok (r : PointSet) : dataset r -> columns_ok r.
Proof.
  induction 1 as [ | F M color0 fs filename r Hload | r r' _ IH Hop ].
  - unfold columns_ok, column_ok. simpl. tauto.
  - exact (fastPlyReadPointSet_columns_ok color0 fs filename r Hload).
  - exact (operation_columns_ok r r' IH Hop).
Qed.

(** C9 fails on a derived data set that holds labels: [appendPoint]
    lengthens the positions and the colours and leaves the labels behind. *)
Lemma appendPoint_leaves_labels_behind :
  columns_ok coloured_labelled /\
  exists dst', appendPoint coloured_labelled coloured_labelled 0 = Ok dst' /\
               ~ columns_ok dst'.
Proof.
  split.
  - unfold columns_ok, column_ok. simpl. tauto.
  - eexists. split; [ reflexivity | ].
    unfold columns_ok, column_ok. simpl. intros (_ & _ & _ & [E | E]); discriminate E.
Qed.

Lemma dataset_columns_ok_witness :
  columns_ok (set_colors (set_points new_PointSet [p1; p1]) [grey; grey]).
Proof.
  apply dataset_columns_ok.
  apply (ds_op coloured).
  - apply (ds_load failing_input ample_memory rgb_zero (on_disk coloured "c.ply")
             "c.ply").
    vm_compute. reflexivity.
  - apply (op_append coloured coloured 0%nat).
    + unfold colours_only. simpl. tauto.
    + reflexivity.
Defined.

(** ** Label remapping *)

Lemma of_to_uint8 (z : Z) : 0 <= z < 256 -> of_uint8 (to_uint8 z) = z.
Proof.
  intros Hz. unfold of_uint8, to_uint8. rewrite Z.mod_small by lia.
  destruct (Byte.of_N (Z.to_N z)) eqn:E.
  - apply Byte.to_of_N in E. rewrite E. lia.
  - apply Byte.of_N_None_iff in E. lia.
Qed.

Lemma set_labels_twice (r : PointSet) a b : set_labels (set_labels r a) b = set_labels r b.
Proof. reflexivity. Qed.

Lemma set_labels_same (r : PointSet) : set_labels r (labels r) = r.
Proof. destruct r; reflexivity. Qed.

(** The loop rewrites the labels from [idx] on and leaves the others. *)
Lemma relabel_loop_map (f : Z -> Z) :
  forall n idx r,
    (idx + n)%nat = length (labels r) ->
    relabel_loop f n idx r
    = Ok (set_labels r (take idx (labels r) ++
                        map (fun l => to_uint8 (f (of_uint8 l))) (drop idx (labels r)))).
Proof.
  induction n as [|n IH]; intros idx r Hn.
  - simpl. rewrite drop_ge by lia. rewrite take_ge by lia. simpl.
    rewrite app_nil_r, set_labels_same. reflexivity.
  - simpl.
    destruct (lookup_lt_is_Some_2 (labels r) idx) as [l Hl]; [ lia | ].
    unfold at_. rewrite Hl. simpl.
    rewrite IH by (simpl; rewrite length_insert; lia).
    rewrite set_labels_twice. f_equal. f_equal. simpl.
    rewrite (drop_S (labels r) l idx Hl). simpl.
    rewrite drop_insert_lt by lia.
    rewrite (take_S_r _ idx (to_uint8 (f (of_uint8 l)))).
    + rewrite take_insert_ge by lia. rewrite <- app_assoc. reflexivity.
    + apply list_lookup_insert_eq. apply lookup_lt_Some in Hl. exact Hl.
Qed.

Lemma map_index_range (codes : gmap string Z) (name : string) :
  map_Forall (fun _ code => 0 <= code < 256) codes -> 0 <= map_index codes name < 256.
Proof.
  intros Hc. unfold map_index. destruct (codes !! name) as [code|] eqn:E; simpl.
  - exact (Hc name code E).
  - lia.
Qed.

(** C7: with a non-empty mapping for the file, [readPointSet] returns the
    loaded data set with every label replaced: a label with an entry in
    the mapping by the training code that [getTrainingCodes] holds for
    the name it is mapped to, any other label by the training code held
    for [unassigned]; a name without a training code gives 0. *)
Theorem explicit_mapping_replaces_every_label
  `{FormattedInput} `{Pdal} `{Json} `{Labels} `{Memory}
  color0 (fs : filesystem) (filename : string) (r : PointSet)
  (mappings : gmap Z string) :
  (if bool_decide (extension filename = str ".ply")
   then fastPlyReadPointSet color0 fs filename
   else pdalReadPointSet fs filename) = Ok r ->
  columns_ok r ->
  hasLabels r = true ->
  getClassMappings fs filename = Ok mappings ->
  mappings <> ∅ ->
  map_Forall (fun _ code => 0 <= code < 256) getTrainingCodes ->
  exists new_labels : list byte,
    readPointSet color0 fs filename = Ok (set_labels r new_labels) /\
    length new_labels = length (labels r) /\
    forall (i : nat) (l : byte),
      labels r !! i = Some l ->
      exists l' : byte,
        new_labels !! i = Some l' /\
        match mappings !! of_uint8 l with
        | Some name => of_uint8 l' = default 0 (getTrainingCodes !! name)
        | None => of_uint8 l' = default 0 (getTrainingCodes !! "unassigned"%string)
        end.
Proof.
  intros Hload Hcols Hlab Hmap Hne Hcodes.
  exists (map (fun l => to_uint8 (mapped_label mappings getTrainingCodes (of_uint8 l)))
              (labels r)).
  assert (length (labels r) = length (points r)) as Hlen.
  { destruct Hcols as (_ & _ & _ & [E | E]); [ | exact E ].
    unfold hasLabels in Hlab. rewrite E in Hlab. discriminate Hlab. }
  split; [ | split ].
  - unfold readPointSet. rewrite Hload. simpl.
    unfold remap_labels. rewrite Hlab, Hmap. simpl.
    rewrite bool_decide_false by exact Hne. simpl.
    rewrite relabel_loop_map by (simpl; lia).
    rewrite take_0, drop_0. reflexivity.
  - apply length_map.
  - intros i l Hl. eexists. split.
    + rewrite list_lookup_fmap, Hl. reflexivity.
    + unfold mapped_label.
      destruct (mappings !! of_uint8 l) as [name|];
        (rewrite of_to_uint8 by (apply map_index_range, Hcodes)); reflexivity.
Qed.

Lemma explicit_mapping_replaces_every_label_witness :
  (exists new_labels : list byte,
     readPointSet (H := failing_input) (H0 := without_pdal) (H1 := json_ground)
                  (H2 := codes_ground) (H3 := ample_memory) rgb_zero survey_files
                  "cloud_set.ply"
     = Ok (set_labels labelled new_labels) /\
     length new_labels = length (labels labelled) /\
     forall (i : nat) (l : byte),
       labels labelled !! i = Some l ->
       exists l' : byte,
         new_labels !! i = Some l' /\
         match (<[5 := "ground"%string]> ∅ : gmap Z string) !! of_uint8 l with
         | Some name =>
             of_uint8 l' = default 0 (getTrainingCodes (Labels := codes_ground) !! name)
         | None =>
             of_uint8 l'
             = default 0 (getTrainingCodes (Labels := codes_ground) !! "unassigned"%string)
         end) /\
  readPointSet (H := failing_input) (H0 := without_pdal) (H1 := json_ground)
               (H2 := codes_ground) (H3 := ample_memory) rgb_zero survey_files
               "cloud_set.ply"
  = Ok (set_labels labelled [to_uint8 2; to_uint8 0; to_uint8 2]).
Proof.
  split; [ | vm_compute; reflexivity ].
  apply (@explicit_mapping_replaces_every_label failing_input without_pdal json_ground
           codes_ground ample_memory rgb_zero survey_files "cloud_set.ply" labelled
           (<[5 := "ground"%string]> ∅)).
  - vm_compute. reflexivity.
  - unfold columns_ok, column_ok. simpl. tauto.
  - reflexivity.
  - vm_compute. reflexivity.
  - apply insert_non_empty.
  - apply map_Forall_insert_2; [ lia | ].
    apply map_Forall_insert_2; [ lia | ].
    apply map_Forall_empty.
Defined.

(** [getClassMappings] looks for the suffix [_eval] nine characters before
    the end of the file name: a shorter name makes [substr] throw. *)
Lemma getClassMappings_short_name (J : Json) (fs : filesystem) :
  getClassMappings fs "a.ply" = Throw (out_of_range "basic_string::substr").
Proof. reflexivity. Qed.

(** The example of the specification: the labels 5, 7, 5 become 2, 0, 2. *)
Lemma labels_5_7_5_become_2_0_2 :
  readPointSet (H := failing_input) (H0 := without_pdal) (H1 := json_ground)
               (H2 := codes_ground) rgb_zero survey_files "cloud_set.ply"
  = Ok (set_labels labelled [to_uint8 2; to_uint8 0; to_uint8 2]).
Proof. vm_compute. reflexivity. Qed.

(** ** Writing *)

Lemma at_nth {A : Type} (v : list A) (i : nat) (d : A) :
  (i < length v)%nat -> at_ v i = Ok (nth i v d).
Proof.
  intros Hi. unfold at_.
  destruct (lookup_lt_is_Some_2 v i Hi) as [x Hx]. rewrite Hx.
  f_equal. symmetry. apply nth_lookup_Some with (d := d) in Hx. exact Hx.
Qed.

Lemma column_present {A B : Type} (pts : list A) (col : list B) :
  column_ok pts col -> (0 <? Z.of_nat (length col)) = true -> length col = length pts.
Proof.
  intros [E | E] Hc; [ | exact E ]. rewrite E in Hc. discriminate Hc.
Qed.

Lemma column_absent {B : Type} (col : list B) :
  (0 <? Z.of_nat (length col)) = false -> col = [].
Proof.
  intros Hc. destruct col; [ reflexivity | ]. simpl in Hc. discriminate Hc.
Qed.

Lemma write_record_ok (pSet : PointSet) (i : nat) :
  columns_ok pSet -> (i < length (points pSet))%nat ->
  write_record pSet i = Ok (record_bytes pSet i).
Proof.
  intros (Hc & Hn & Hv & Hl) Hi. unfold write_record, record_bytes.
  rewrite (at_nth (points pSet) i xyz_zero Hi). simpl.
  unfold hasNormals, hasColors, hasViews, hasLabels.
  destruct (0 <? Z.of_nat (length (normals pSet))) eqn:En;
    [ rewrite (at_nth (normals pSet) i xyz_zero)
        by (rewrite (column_present _ _ Hn En); exact Hi) | ]; simpl;
  (destruct (0 <? Z.of_nat (length (colors pSet))) eqn:Ec;
    [ rewrite (at_nth (colors pSet) i rgb_zero)
        by (rewrite (column_present _ _ Hc Ec); exact Hi) | ]); simpl;
  (destruct (0 <? Z.of_nat (length (views pSet))) eqn:Ev;
    [ rewrite (at_nth (views pSet) i x00)
        by (rewrite (column_present _ _ Hv Ev); exact Hi) | ]); simpl;
  (destruct (0 <? Z.of_nat (length (labels pSet))) eqn:El;
    [ rewrite (at_nth (labels pSet) i x00)
        by (rewrite (column_present _ _ Hl El); exact Hi) | ]); simpl;
  reflexivity.
Qed.

Lemma write_records_ok (pSet : PointSet) :
  columns_ok pSet ->
  forall n i o, (i + n <= length (points pSet))%nat ->
    write_records pSet n i o = Ok (o ++ body_bytes pSet i n).
Proof.
  intros Hok. induction n as [|n IH]; intros i o Hi; simpl.
  - unfold body_bytes. simpl. rewrite app_nil_r. reflexivity.
  - rewrite write_record_ok by (assumption || lia). simpl.
    rewrite IH by lia. unfold body_bytes. simpl. rewrite <- app_assoc. reflexivity.
Qed.

Lemma ply_bytes_ok (pSet : PointSet) :
  columns_ok pSet ->
  ply_bytes pSet = Ok (ply_header pSet ++ body_bytes pSet 0 (length (points pSet))).
Proof.
  intros Hok. unfold ply_bytes. apply write_records_ok; [ assumption | lia ].
Qed.

(** ** Reading the records back *)

Lemma split_at_delim_app (d : byte) (l rest : list byte) :
  d ∉ l -> split_at_delim d (l ++ d :: rest) = (l, Some rest).
Proof.
  induction l as [|b l IH]; intros Hd; simpl.
  - rewrite decide_True by reflexivity. reflexivity.
  - apply not_elem_of_cons in Hd as [Hb Hl].
    rewrite decide_False by congruence. rewrite IH by assumption. reflexivity.
Qed.

Lemma getline_delim_line (d : byte) (l rest old : list byte) :
  d ∉ l ->
  getline_delim d (open_stream (l ++ d :: rest)) old = (l, open_stream rest).
Proof.
  intros Hd. unfold getline_delim. simpl. rewrite split_at_delim_app by assumption.
  reflexivity.
Qed.

Lemma getline_line (l rest old : list byte) :
  x0a ∉ l -> getline (open_stream (l ++ x0a :: rest)) old = (l, open_stream rest).
Proof. apply getline_delim_line. Qed.

Lemma read_exact (bs rest old : list byte) (n : nat) :
  length bs = n -> read (open_stream (bs ++ rest)) n old = (bs, open_stream rest).
Proof.
  intros Hn. unfold read. simpl.
  rewrite take_app_length' by (symmetry; exact Hn).
  rewrite decide_True by exact Hn.
  rewrite drop_app_length' by (symmetry; exact Hn). reflexivity.
Qed.

Lemma xyz_of_bytes_of_xyz (p : array3 float_repr) : xyz_of_bytes (bytes_of_xyz p) = p.
Proof. destruct p as [[[[[a b] c] d] [[[e f] g] h]] [[[i j] k] l]]. reflexivity. Qed.

Lemma rgb_of_bytes_of_rgb (c : array3 byte) : rgb_of_bytes (bytes_of_rgb c) = c.
Proof. destruct c as [[r g] b]. reflexivity. Qed.

Lemma length_bytes_of_xyz (p : array3 float_repr) : length (bytes_of_xyz p) = 12%nat.
Proof. destruct p as [[[[[a b] c] d] [[[e f] g] h]] [[[i j] k] l]]. reflexivity. Qed.

Lemma length_bytes_of_rgb (c : array3 byte) : length (bytes_of_rgb c) = 3%nat.
Proof. destruct c as [[r g] b]. reflexivity. Qed.

(** The next element of a partly read column, and the column once it has
    been stored. *)
Lemma partial_column_lookup {A : Type} (zero : A) (col : list A) (i n : nat) :
  length col = n -> (i < n)%nat ->
  partial_column true zero col i n !! i = Some zero.
Proof.
  intros Hn Hi. unfold partial_column.
  rewrite lookup_app_r by (rewrite length_take; lia).
  rewrite length_take. apply lookup_replicate_2. lia.
Qed.

Lemma partial_column_insert {A : Type} (zero : A) (col : list A) (i n : nat) :
  length col = n -> (i < n)%nat ->
  <[i := nth i col zero]> (partial_column true zero col i n)
  = partial_column true zero col (S i) n.
Proof.
  intros Hn Hi. unfold partial_column.
  assert (length (take i col) = i) as Ht by (rewrite length_take; lia).
  rewrite <- (Nat.add_0_r i) at 1.
  rewrite <- Ht at 1. rewrite insert_app_r.
  replace (n - i)%nat with (S (n - S i)) by lia. simpl.
  destruct (lookup_lt_is_Some_2 col i) as [x Hx]; [ lia | ].
  rewrite (take_S_r col i x Hx).
  rewrite (nth_lookup_Some col i zero x Hx).
  rewrite <- app_assoc. reflexivity.
Qed.

Lemma partial_column_full {A : Type} (present : bool) (zero : A) (col : list A) (n : nat) :
  (if present then length col = n else col = []) ->
  partial_column present zero col n n = col.
Proof.
  unfold partial_column. destruct present; intros Hc.
  - rewrite take_ge by lia. rewrite Nat.sub_diag. simpl. apply app_nil_r.
  - symmetry. exact Hc.
Qed.

Lemma at_partial_column {A : Type} (zero : A) (col : list A) (i n : nat) :
  length col = n -> (i < n)%nat -> at_ (partial_column true zero col i n) i = Ok zero.
Proof.
  intros Hn Hi. unfold at_. rewrite partial_column_lookup by assumption. reflexivity.
Qed.

Lemma array3_set_rgb {B : Type} (e c : array3 byte) (k : array3 byte -> outcome B) :
  (array3_set e 0 (el0 c) ≫= fun e0 =>
   array3_set e0 1 (el1 c) ≫= fun e1 =>
   array3_set e1 2 (el2 c) ≫= k) = k c.
Proof. destruct e as [[e0 e1] e2], c as [[c0 c1] c2]. reflexivity. Qed.

Lemma read_one (b : byte) (rest old : list byte) :
  read (open_stream (b :: rest)) 1 old = ([b], open_stream rest).
Proof. apply (read_exact [b] rest old 1). reflexivity. Qed.

Lemma read_binary_record_back (pSet : PointSet) (i : nat) (rest : list byte)
  (color : array3 byte) :
  columns_ok pSet -> (i < length (points pSet))%nat ->
  read_binary_record (schema_of pSet) i
    (mkBody (open_stream (record_bytes pSet i ++ rest)) (partially_read pSet i) color)
  = Ok (mkBody (open_stream rest) (partially_read pSet (S i))
               (scratch_after pSet color i 1)).
Proof.
  intros (Hc & Hn & Hv & Hl) Hi.
  unfold read_binary_record, schema_of, record_bytes, partially_read, scratch_after.
  rewrite Nat.add_0_r.
  cbn [sNormals sColors sViews sLabels sRed sGreen sBlue points colors normals
       views labels set_points set_normals set_colors set_views set_labels
       pointMap kdTree m_spacing].
  destruct (hasNormals pSet) eqn:En, (hasColors pSet) eqn:Ec,
           (hasViews pSet) eqn:Ev, (hasLabels pSet) eqn:El;
    pose proof (fun E => column_present _ _ Hn E) as Ln;
    pose proof (fun E => column_present _ _ Hc E) as Lc;
    pose proof (fun E => column_present _ _ Hv E) as Lv;
    pose proof (fun E => column_present _ _ Hl E) as Ll;
    cbn [app];
    rewrite <- ?app_assoc;
    repeat first
      [ rewrite at_partial_column by (auto || exact Hi || reflexivity)
      | rewrite bind_ret_l
      | rewrite read_exact by (apply length_bytes_of_xyz || apply length_bytes_of_rgb
                               || reflexivity)
      | rewrite read_one
      | rewrite xyz_of_bytes_of_xyz
      | rewrite rgb_of_bytes_of_rgb
      | rewrite array3_set_rgb
      | rewrite partial_column_insert by (auto || exact Hi || reflexivity)
      | progress cbv beta iota
      | progress cbn [colors normals views labels points set_points set_normals
                      set_colors set_views set_labels byte_at nth app] ];
    reflexivity.
Qed.

Lemma scratch_after_step (pSet : PointSet) (color : array3 byte) (i n : nat) :
  scratch_after pSet (scratch_after pSet color i 1) (S i) n
  = scratch_after pSet color i (S n).
Proof.
  unfold scratch_after. rewrite Nat.add_0_r.
  destruct n as [|n]; [ rewrite Nat.add_0_r; reflexivity | ].
  replace (S i + n)%nat with (i + S n)%nat by lia.
  destruct (hasColors pSet); reflexivity.
Qed.

Lemma read_records_back (pSet : PointSet) (rest : list byte) :
  columns_ok pSet ->
  forall (n i : nat) (color : array3 byte),
    (i + n <= length (points pSet))%nat ->
    for_records (read_binary_record (schema_of pSet)) n i
      (mkBody (open_stream (body_bytes pSet i n ++ rest)) (partially_read pSet i) color)
    = Ok (mkBody (open_stream rest) (partially_read pSet (i + n))
                 (scratch_after pSet color i n)).
Proof.
  intros Hok. induction n as [|n IH]; intros i color Hi.
  - simpl. rewrite Nat.add_0_r. reflexivity.
  - unfold body_bytes. cbn [for_records flat_map seq]. rewrite <- app_assoc.
    rewrite read_binary_record_back by (assumption || lia).
    rewrite bind_ret_l.
    pose proof (IH (S i) (scratch_after pSet color i 1)) as H2.
    unfold body_bytes in H2. rewrite H2 by lia.
    rewrite scratch_after_step.
    replace (i + S n)%nat with (S i + n)%nat by lia. reflexivity.
Qed.

Lemma partially_read_all (pSet : PointSet) :
  columns_ok pSet -> partially_read pSet (length (points pSet)) = reloaded pSet.
Proof.
  intros (Hc & Hn & Hv & Hl). unfold partially_read, reloaded.
  rewrite !partial_column_full; [ reflexivity | .. ]; try reflexivity.
  - unfold hasViews. destruct (0 <? _) eqn:E;
      [ exact (column_present _ _ Hv E) | exact (column_absent _ E) ].
  - unfold hasLabels. destruct (0 <? _) eqn:E;
      [ exact (column_present _ _ Hl E) | exact (column_absent _ E) ].
  - unfold hasNormals. destruct (0 <? _) eqn:E;
      [ exact (column_present _ _ Hn E) | exact (column_absent _ E) ].
  - unfold hasColors. destruct (0 <? _) eqn:E;
      [ exact (column_present _ _ Hc E) | exact (column_absent _ E) ].
Qed.

Lemma allocate_schema_of `{Memory} (pSet : PointSet) :
  count pSet <= INT_MAX ->
  columns_allocate (schema_of pSet) ->
  allocate (schema_of pSet) new_PointSet = Ok (partially_read pSet 0).
Proof.
  intros Hn Hmem. unfold count in Hn.
  unfold columns_allocate, schema_of, count in Hmem.
  cbn [vertexCount sNormals sColors sViews sLabels] in Hmem.
  unfold allocate, schema_of, partially_read, count.
  cbn [vertexCount sNormals sColors sViews sLabels].
  unfold new_PointSet.
  cbn [points colors normals views labels set_points].
  rewrite resize_new by (assumption || lia || granted Hmem). rewrite bind_ret_l.
  cbn [points colors normals views labels set_points set_normals set_colors
       set_views set_labels pointMap kdTree m_spacing].
  unfold partial_column. rewrite !take_0, Nat.sub_0_r. cbn [app].
  destruct (hasNormals pSet), (hasColors pSet), (hasViews pSet), (hasLabels pSet);
    repeat first
      [ rewrite resize_new by (assumption || lia || granted Hmem)
      | rewrite bind_ret_l
      | progress cbn [points colors normals views labels set_points set_normals
                      set_colors set_views set_labels pointMap kdTree m_spacing] ];
    reflexivity.
Qed.

Lemma read_body_back `{FormattedInput} (pSet : PointSet) color0 :
  columns_ok pSet ->
  read_body color0 (schema_of pSet)
            (open_stream (body_bytes pSet 0 (length (points pSet))))
            (partially_read pSet 0)
  = Ok (reloaded pSet).
Proof.
  intros Hok. unfold read_body. cbn [ascii schema_of vertexCount].
  unfold count. rewrite Nat2Z.id.
  pose proof (read_records_back pSet [] Hok (length (points pSet)) 0 color0) as Hr.
  rewrite app_nil_r in Hr. rewrite Hr by lia. rewrite bind_ret_l.
  cbn [bSet]. rewrite Nat.add_0_l. rewrite partially_read_all by assumption.
  reflexivity.
Qed.

(** ** Decimal counts *)

Lemma strtol_digits_cons (b : byte) (s : list byte) (acc k : Z) :
  digit_of b = Some k -> strtol_digits (b :: s) acc = strtol_digits s (10 * acc + k).
Proof. intros Hb. simpl. rewrite Hb. reflexivity. Qed.

Lemma strtol_digits_decimal (d : uint) :
  forall a : N,
    strtol_digits (decimal_digits d) (Z.of_N a) = Z.of_N (uint_value_from d a).
Proof.
  induction d as [ | d IH | d IH | d IH | d IH | d IH | d IH | d IH | d IH | d IH | d IH ];
    intros a;
    [ destruct a; reflexivity | .. ];
    match goal with
    | |- context [decimal_digits (?D d)] =>
        change (decimal_digits (D d))
          with (hd x00 (decimal_digits (D Nil)) :: decimal_digits d)
    end;
    cbn [hd decimal_digits NilEmpty.string_of_uint str list_byte_of_string
         list_ascii_of_string List.map byte_of_ascii];
    erewrite strtol_digits_cons by (vm_compute; reflexivity);
    match goal with
    | |- strtol_digits _ ?z = _ =>
        replace z with (Z.of_N (Z.to_N z)) by (rewrite Z2N.id; lia)
    end;
    rewrite IH; f_equal;
    destruct a as [|p]; cbn [uint_value_from Pos.of_uint Pos.of_uint_acc];
    try reflexivity;
    match goal with
    | |- context [Pos.of_uint_acc d ?q] =>
        replace (Z.to_N (10 * Z.of_N (N.pos p) + _)) with (N.pos q) by lia
    | |- _ => idtac
    end;
    try reflexivity.
Qed.

Lemma decimal_digits_are_digits (d : uint) :
  Forall (fun b => is_Some (digit_of b)) (decimal_digits d).
Proof.
  induction d; [ constructor | .. ];
    constructor; try assumption; eexists; vm_compute; reflexivity.
Qed.

Lemma digit_free (b : byte) (ds : list byte) :
  digit_of b = None -> Forall (fun b => is_Some (digit_of b)) ds -> b ∉ ds.
Proof.
  intros Hb Hds Hin. rewrite Forall_forall in Hds.
  destruct (Hds b Hin) as [k Hk]. congruence.
Qed.

Lemma stoi_digit_first (b : byte) (t : list byte) (k : Z) :
  digit_of b = Some k ->
  stoi (b :: t)
  = (let v := strtol_digits (b :: t) 0 in
     if (INT_MIN <=? v) && (v <=? INT_MAX) then Ok v else Throw (out_of_range "stoi")).
Proof.
  intros Hb. destruct b; vm_compute in Hb; try discriminate Hb; reflexivity.
Qed.

Lemma to_uint_digits (n : N) :
  exists b t k, decimal_digits (N.to_uint n) = b :: t /\ digit_of b = Some k.
Proof.
  pose proof (decimal_digits_are_digits (N.to_uint n)) as Hd.
  destruct (decimal_digits (N.to_uint n)) as [|b t] eqn:E.
  - exfalso. destruct n as [|p]; [ discriminate E | ].
    simpl in E. pose proof (DecimalPos.Unsigned.to_uint_nonnil p) as Hp.
    destruct (Pos.to_uint p); try discriminate E. congruence.
  - inversion Hd as [|? ? [k Hk] _]; subst. eauto.
Qed.

Lemma put_size_t_decimal (n : Z) :
  put_size_t n = decimal_digits (N.to_uint (Z.to_N n)).
Proof.
  unfold put_size_t, decimal_digits, NilZero.string_of_uint.
  destruct (N.to_uint (Z.to_N n)) eqn:E; try reflexivity.
  exfalso. destruct (Z.to_N n) as [|p]; [ discriminate E | ].
  exact (DecimalPos.Unsigned.to_uint_nonnil p E).
Qed.

(** What [std::stoi] makes of a count that [operator<<] has written. *)
Lemma stoi_put_size_t (n : Z) :
  0 <= n ->
  stoi (put_size_t n) = if n <=? INT_MAX then Ok n else Throw (out_of_range "stoi").
Proof.
  intros Hn. rewrite put_size_t_decimal.
  destruct (to_uint_digits (Z.to_N n)) as (b & t & k & E & Hb).
  rewrite E, (stoi_digit_first b t k Hb). rewrite <- E.
  rewrite (strtol_digits_decimal _ 0%N). cbn [uint_value_from].
  change (Pos.of_uint (N.to_uint (Z.to_N n))) with (N.of_uint (N.to_uint (Z.to_N n))).
  rewrite DecimalN.Unsigned.of_to, Z2N.id by assumption. cbv zeta.
  assert ((INT_MIN <=? n) = true) as -> by (apply Z.leb_le; unfold INT_MIN; lia).
  reflexivity.
Qed.

Lemma put_size_t_digits (n : Z) :
  Forall (fun b => is_Some (digit_of b)) (put_size_t n) /\ put_size_t n <> [].
Proof.
  rewrite put_size_t_decimal. split.
  - apply decimal_digits_are_digits.
  - destruct (to_uint_digits (Z.to_N n)) as (b & t & k & E & _). rewrite E. discriminate.
Qed.

(** ** The header read back *)

Lemma split_at_delim_none (d : byte) (l : list byte) :
  d ∉ l -> split_at_delim d l = (l, None).
Proof.
  induction l as [|b l IH]; intros Hd; simpl; [ reflexivity | ].
  apply not_elem_of_cons in Hd as [Hb Hl].
  rewrite decide_False by congruence. rewrite IH by assumption. reflexivity.
Qed.

Lemma tokens_loop_token (fuel : nat) (t rest tok : list byte) acc :
  x20 ∉ t ->
  tokens_loop (S fuel) (open_stream (t ++ x20 :: rest)) tok acc
  = tokens_loop fuel (open_stream rest) t (acc ++ [t]).
Proof.
  intros Ht. cbn [tokens_loop]. rewrite getline_delim_line by assumption. reflexivity.
Qed.

Lemma tokens_loop_last (fuel : nat) (t tok : list byte) acc :
  x20 ∉ t -> t <> [] ->
  tokens_loop (S (S fuel)) (open_stream t) tok acc = acc ++ [t].
Proof.
  intros Ht Hne. cbn [tokens_loop]. unfold getline_delim at 1.
  cbn [good open_stream eofbit failbit buf negb andb].
  rewrite split_at_delim_none by assumption.
  rewrite bool_decide_false by assumption. reflexivity.
Qed.

(** Decidable facts about literals of the source are computed. *)
Ltac by_compute := apply (bool_decide_unpack _); vm_compute; reflexivity.

Lemma getVertexCount_vertex (ds : list byte) :
  x20 ∉ ds -> ds <> [] ->
  getVertexCount (str "element vertex " ++ ds) = (stoi ds ≫= fun n => Ok (to_size_t n)).
Proof.
  intros Hs Hne. unfold getVertexCount, split_tokens.
  change (str "element vertex " ++ ds)
    with (str "element" ++ x20 :: (str "vertex" ++ x20 :: ds)).
  rewrite length_app. cbn [length str list_byte_of_string list_ascii_of_string List.map
                           Nat.add].
  rewrite tokens_loop_token by by_compute.
  rewrite tokens_loop_token by by_compute.
  rewrite tokens_loop_last by assumption.
  reflexivity.
Qed.

Lemma put_line_app (s : string) (rest : list byte) :
  put_line s ++ rest = str s ++ x0a :: rest.
Proof. unfold put_line, endl. rewrite <- app_assoc. reflexivity. Qed.

Lemma getline_put_line (s : string) (rest old : list byte) :
  x0a ∉ str s ->
  getline (open_stream (put_line s ++ rest)) old = (str s, open_stream rest).
Proof. intros Hs. rewrite put_line_app. apply getline_line. exact Hs. Qed.

Lemma checkHeader_put_line (s : string) (prop rest : list byte) :
  x0a ∉ str s ->
  checkHeader (open_stream (put_line s)) prop = Ok (open_stream []) ->
  checkHeader (open_stream (put_line s ++ rest)) prop = Ok (open_stream rest).
Proof.
  intros Hs. rewrite <- (app_nil_r (put_line s)) at 1. unfold checkHeader.
  rewrite !getline_put_line by assumption.
  destruct (substr _ _ _); simpl; try discriminate.
  destruct (bool_decide _); [ discriminate | reflexivity ].
Qed.

(** The property loop and the colour offsets on the lines [ply_header]
    writes, for each of the sixteen combinations of columns. *)
Lemma scan_property_lines (bn bc bv bl : bool) (asc : bool) (n : Z)
  (old rest : list byte) :
  (let '(line, reader) := getline (open_stream (property_lines bn bc bv bl ++ rest)) old in
   let line := remove_cr line in
   scan_loop 102 reader line scan_init ≫= fun '(st, reader, _) =>
   resolve_colors st ≫= fun '(redIdx, greenIdx, blueIdx) =>
   let hasLabels := negb (bool_decide (labelDim st = [])) in
   Ok (mkSchema asc n (scanNormals st) (scanColors st) (scanViews st)
                hasLabels redIdx greenIdx blueIdx, reader))
  = Ok (mkSchema asc n bn bc bv bl 0 1 2, open_stream rest).
Proof.
  destruct bn, bc, bv, bl; vm_compute; reflexivity.
Qed.

Lemma ply_header_shape (pSet : PointSet) (rest : list byte) :
  ply_header pSet ++ rest
  = put_line "ply" ++
    put_line "format binary_little_endian 1.0" ++
    put_line "comment Generated by OpenPointClass" ++
    (str "element vertex " ++ put_size_t (count pSet)) ++ x0a ::
    put_line "property float x" ++
    put_line "property float y" ++
    put_line "property float z" ++
    property_lines (hasNormals pSet) (hasColors pSet) (hasViews pSet) (hasLabels pSet)
    ++ rest.
Proof.
  unfold ply_header, property_lines, endl. rewrite <- !app_assoc. reflexivity.
Qed.

Lemma count_line_no_newline (n : Z) : x0a ∉ str "element vertex " ++ put_size_t n.
Proof.
  intros Hin. apply elem_of_app in Hin as [Hin | Hin].
  - revert Hin. by_compute.
  - revert Hin. apply digit_free; [ reflexivity | apply put_size_t_digits ].
Qed.

Lemma getVertexLine_after_comment (l rest : list byte) :
  x0a ∉ l -> starts_with (str "element") l = true ->
  getVertexLine (open_stream (put_line "comment Generated by OpenPointClass"
                              ++ l ++ x0a :: rest))
  = Ok (l, open_stream rest).
Proof.
  intros Hl He. unfold getVertexLine. cbn [getVertexLine_loop].
  rewrite getline_put_line by by_compute. cbv beta iota.
  change (starts_with (str "element") (str "comment Generated by OpenPointClass"))
    with false.
  change (starts_with (str "comment") (str "comment Generated by OpenPointClass"))
    with true.
  cbv iota.
  destruct (length (buf _)) as [|fuel]; cbn [getVertexLine_loop];
    rewrite getline_line by assumption; cbv beta iota; rewrite He; reflexivity.
Qed.

(** The reader on the header [ply_header] writes: it finds the schema of
    the data set when the count fits an [int], and otherwise [std::stoi]
    throws. *)
Lemma read_header_ply_header (pSet : PointSet) (rest : list byte) :
  read_header (open_stream (ply_header pSet ++ rest))
  = if count pSet <=? INT_MAX then Ok (schema_of pSet, open_stream rest)
    else Throw (out_of_range "stoi").
Proof.
  rewrite ply_header_shape. unfold read_header.
  rewrite getline_put_line by by_compute. cbv beta iota zeta.
  change (remove_cr (str "ply")) with (str "ply").
  rewrite bool_decide_false by (intros E; apply E; reflexivity).
  rewrite getline_put_line by by_compute. cbv beta iota zeta.
  change (bool_decide (remove_cr (str "format binary_little_endian 1.0")
                       = str "format ascii 1.0")) with false.
  rewrite getVertexLine_after_comment
    by (apply count_line_no_newline || reflexivity).
  rewrite bind_ret_l. cbv beta iota.
  destruct (put_size_t_digits (count pSet)) as [Hd Hne].
  rewrite getVertexCount_vertex
    by (assumption || (apply digit_free; [ reflexivity | assumption ])).
  rewrite stoi_put_size_t by (unfold count; lia).
  destruct (count pSet <=? INT_MAX) eqn:Hc; [ | reflexivity ].
  rewrite !bind_ret_l.
  assert (to_size_t (count pSet) = count pSet) as ->.
  { apply Z.leb_le in Hc. unfold to_size_t, count, INT_MAX in *.
    apply Z.mod_small. lia. }
  rewrite checkHeader_put_line by (by_compute || (vm_compute; reflexivity)).
  rewrite bind_ret_l.
  rewrite checkHeader_put_line by (by_compute || (vm_compute; reflexivity)).
  rewrite bind_ret_l.
  rewrite checkHeader_put_line by (by_compute || (vm_compute; reflexivity)).
  rewrite bind_ret_l.
  exact (scan_property_lines (hasNormals pSet) (hasColors pSet) (hasViews pSet)
           (hasLabels pSet) false (count pSet) _ rest).
Qed.

(** ** The round trip *)

Lemma fastPlySavePointSet_ok `{Storage} (pSet : PointSet) (fs : filesystem)
  (filename : string) :
  columns_ok pSet ->
  fastPlySavePointSet pSet fs filename
  = Ok (match written fs filename (saved_bytes pSet) with
        | Some content => <[filename := content]> fs
        | None => fs
        end).
Proof.
  intros Hok. unfold fastPlySavePointSet. rewrite ply_bytes_ok by assumption. reflexivity.
Qed.

Lemma fastPlyReadPointSet_saved `{FormattedInput} `{Memory} (pSet : PointSet)
  (fs : filesystem) (filename : string) color0 :
  columns_ok pSet ->
  (count pSet <= INT_MAX -> columns_allocate (schema_of pSet)) ->
  fastPlyReadPointSet color0
    (<[filename := ply_header pSet ++ body_bytes pSet 0 (length (points pSet))]> fs)
    filename
  = if count pSet <=? INT_MAX then Ok (reloaded pSet) else Throw (out_of_range "stoi").
Proof.
  intros Hok Hmem. unfold fastPlyReadPointSet, filesystem in *.
  rewrite lookup_insert_eq.
  rewrite read_header_ply_header.
  destruct (count pSet <=? INT_MAX) eqn:Hc; [ | reflexivity ].
  apply Z.leb_le in Hc. rewrite bind_ret_l. cbv beta iota.
  rewrite allocate_schema_of by auto. rewrite bind_ret_l.
  apply read_body_back. assumption.
Qed.

(** When the output stream does not open, the call returns all the same,
    the file system is as before, and a load of a name that was not there
    cannot open it. *)
Lemma unopened_stream_writes_nothing `{FormattedInput} `{Memory} `{Storage}
  (pSet : PointSet) (fs : filesystem) (filename : string) color0 :
  columns_ok pSet ->
  written fs filename (saved_bytes pSet) = None ->
  fs !! filename = None ->
  fastPlySavePointSet pSet fs filename = Ok fs /\
  fastPlyReadPointSet color0 fs filename
  = Throw (runtime_error ("Cannot open file " +:+ filename)).
Proof.
  intros Hok Hw Hfs. split.
  - rewrite fastPlySavePointSet_ok by assumption. rewrite Hw. reflexivity.
  - unfold fastPlyReadPointSet. rewrite Hfs. reflexivity.
Qed.

(** A data set that holds nothing but its columns is its own reload. *)
Lemma reloaded_fresh (pSet : PointSet) :
  pointMap pSet = [] -> kdTree pSet = false -> m_spacing pSet = double_minus_1 ->
  reloaded pSet = pSet.
Proof.
  destruct pSet; simpl; intros -> -> ->; reflexivity.
Qed.

(** C1, as the code has it: a data set that satisfies the column invariant
    and has at most 2^31 - 1 points is saved when the output stream opens
    under the file name and takes the bytes, and loading the written file,
    when the columns can be allocated, returns its five columns unchanged
    in a new data set, which is the data set itself when it holds no point
    map, no index and no cached spacing. *)
Theorem fastPly_round_trip `{FormattedInput} `{Memory} `{Storage} (pSet : PointSet)
  (fs : filesystem) (filename : string) color0 :
  columns_ok pSet ->
  count pSet <= INT_MAX ->
  written fs filename (saved_bytes pSet) = Some (saved_bytes pSet) ->
  columns_allocate (schema_of pSet) ->
  exists fs' : filesystem,
    fastPlySavePointSet pSet fs filename = Ok fs' /\
    fastPlyReadPointSet color0 fs' filename = Ok (reloaded pSet) /\
    (pointMap pSet = [] -> kdTree pSet = false -> m_spacing pSet = double_minus_1 ->
     reloaded pSet = pSet).
Proof.
  intros Hok Hn Hw Hmem. eexists. split; [ | split ].
  - rewrite fastPlySavePointSet_ok by assumption. rewrite Hw. reflexivity.
  - unfold saved_bytes. rewrite fastPlyReadPointSet_saved by auto.
    apply Z.leb_le in Hn. rewrite Hn. reflexivity.
  - apply reloaded_fresh.
Qed.

Lemma fastPly_round_trip_witness :
  exists fs' : filesystem,
    fastPlySavePointSet (H := open_storage) full ∅ "full.ply" = Ok fs' /\
    fastPlyReadPointSet (H := failing_input) (H0 := ample_memory) rgb_zero fs' "full.ply"
    = Ok (reloaded full) /\
    (pointMap full = [] -> kdTree full = false -> m_spacing full = double_minus_1 ->
     reloaded full = full).
Proof.
  apply (@fastPly_round_trip failing_input ample_memory open_storage full ∅ "full.ply"
           rgb_zero).
  - unfold columns_ok, column_ok. simpl. tauto.
  - vm_compute. discriminate.
  - reflexivity.
  - apply ample_columns_allocate.
Defined.

Lemma origin_points_columns_ok (n : Z) : columns_ok (origin_points n).
Proof. unfold columns_ok, column_ok, origin_points. cbn [colors normals views labels
  set_points new_PointSet length]. tauto. Qed.

Lemma origin_points_count (n : Z) : 0 <= n -> count (origin_points n) = n.
Proof.
  intros Hn. unfold count, origin_points. cbn [points set_points].
  rewrite length_replicate. apply Z2Nat.id. exact Hn.
Qed.

(** C1 fails in two ways: the spacing cache of a data set does not come
    back from the file, and a file of 2^31 points cannot be loaded, because
    [getVertexCount] reads the count with [std::stoi]. *)
Lemma round_trip_counterexamples :
  (exists fs' r,
     fastPlySavePointSet measured ∅ "m.ply" = Ok fs' /\
     fastPlyReadPointSet (H := failing_input) rgb_zero fs' "m.ply" = Ok r /\
     r <> measured) /\
  (exists fs',
     fastPlySavePointSet huge ∅ "h.ply" = Ok fs' /\
     fastPlyReadPointSet (H := failing_input) rgb_zero fs' "h.ply"
     = Throw (out_of_range "stoi")).
Proof.
  split.
  - eexists. eexists. split; [ | split ].
    + vm_compute. reflexivity.
    + vm_compute. reflexivity.
    + intros E. apply (f_equal m_spacing) in E. vm_compute in E. discriminate E.
  - eexists. split.
    + apply fastPlySavePointSet_ok. apply origin_points_columns_ok.
    + cbn [written open_storage]. unfold saved_bytes.
      rewrite fastPlyReadPointSet_saved
        by (intros; apply origin_points_columns_ok || apply ample_columns_allocate).
      unfold huge. rewrite origin_points_count by discriminate. reflexivity.
Qed.

(** ** Short files *)

Lemma at_ok {A : Type} (v : list A) (i : nat) :
  (i < length v)%nat -> exists x, at_ v i = Ok x.
Proof.
  intros Hi. destruct (lookup_lt_is_Some_2 v i Hi) as [x Hx].
  exists x. unfold at_. rewrite Hx. reflexivity.
Qed.

Lemma array3_set_ok (e : array3 byte) (i : Z) (v : byte) :
  0 <= i < 3 -> exists e', array3_set e i v = Ok e'.
Proof.
  intros Hi. destruct e as [[x y] z]. unfold array3_set.
  destruct (i =? 0) eqn:E0; [ eauto | ].
  destruct (i =? 1) eqn:E1; [ eauto | ].
  destruct (i =? 2) eqn:E2; [ eauto | ]. lia.
Qed.

(** A turn of the binary loop returns whatever the stream holds. *)
Lemma read_binary_record_total (h : schema) (i n : nat) (s : body_state (array3 byte)) :
  offsets_ok h -> sized h (bSet s) n -> (i < n)%nat ->
  exists s', read_binary_record h i s = Ok s'.
Proof.
  intros (Hr & Hg & Hb) (Lp & Ln & Lc & Lv & Ll) Hi.
  destruct s as [reader r color]. cbn [bSet] in *. unfold read_binary_record.
  destruct (at_ok (points r) i) as [p ->]; [ lia | ]. rewrite bind_ret_l.
  destruct (read reader 12 (bytes_of_xyz p)) as [bs reader1].
  set (r1 := set_points r _).
  assert (exists reader2 r2,
            (if sNormals h
             then at_ (normals r1) i ≫= fun n0 =>
                  let '(bs0, reader0) := read reader1 12 (bytes_of_xyz n0) in
                  Ok (reader0, set_normals r1 (<[i := xyz_of_bytes bs0]> (normals r1)))
             else Ok (reader1, r1)) = Ok (reader2, r2) /\
            same_lengths r r2) as (reader2 & r2 & -> & S2).
  { destruct (sNormals h).
    - destruct (at_ok (normals r1) i) as [x ->]; [ simpl; rewrite Ln by reflexivity; lia | ].
      rewrite bind_ret_l. destruct (read reader1 12 (bytes_of_xyz x)) as [bs0 rd0].
      do 2 eexists. split; [ reflexivity | ].
      unfold same_lengths. simpl. rewrite !length_insert. tauto.
    - do 2 eexists. split; [ reflexivity | ].
      unfold same_lengths. simpl. rewrite !length_insert. tauto. }
  rewrite bind_ret_l. cbv beta iota.
  destruct S2 as (P2 & C2 & N2 & V2 & L2).
  assert (exists reader3 r3 color3,
            (if sColors h
             then let '(bs0, reader0) := read reader2 3 (bytes_of_rgb color) in
                  at_ (colors r2) i ≫= fun e =>
                  array3_set e (sRed h) (el0 (rgb_of_bytes bs0)) ≫= fun e0 =>
                  array3_set e0 (sGreen h) (el1 (rgb_of_bytes bs0)) ≫= fun e1 =>
                  array3_set e1 (sBlue h) (el2 (rgb_of_bytes bs0)) ≫= fun e2 =>
                  Ok (reader0, set_colors r2 (<[i := e2]> (colors r2)),
                      rgb_of_bytes bs0)
             else Ok (reader2, r2, color)) = Ok (reader3, r3, color3) /\
            same_lengths r2 r3) as (reader3 & r3 & color3 & -> & S3).
  { destruct (sColors h).
    - destruct (read reader2 3 (bytes_of_rgb color)) as [bs0 rd0].
      destruct (at_ok (colors r2) i) as [e ->]; [ rewrite C2, Lc by reflexivity; lia | ].
      rewrite bind_ret_l.
      destruct (array3_set_ok e (sRed h) (el0 (rgb_of_bytes bs0)) Hr) as [e0 ->].
      rewrite bind_ret_l.
      destruct (array3_set_ok e0 (sGreen h) (el1 (rgb_of_bytes bs0)) Hg) as [e1 ->].
      rewrite bind_ret_l.
      destruct (array3_set_ok e1 (sBlue h) (el2 (rgb_of_bytes bs0)) Hb) as [e2 ->].
      rewrite bind_ret_l.
      do 3 eexists. split; [ reflexivity | ].
      unfold same_lengths. simpl. rewrite !length_insert. tauto.
    - do 3 eexists. split; [ reflexivity | apply same_lengths_refl ]. }
  rewrite bind_ret_l. cbv beta iota.
  destruct S3 as (P3 & C3 & N3 & V3 & L3).
  assert (exists reader4 r4,
            (if sViews h
             then at_ (views r3) i ≫= fun v =>
                  let '(bs0, reader0) := read reader3 1 [v] in
                  Ok (reader0, set_views r3 (<[i := byte_at bs0 0]> (views r3)))
             else Ok (reader3, r3)) = Ok (reader4, r4) /\
            same_lengths r3 r4) as (reader4 & r4 & -> & S4).
  { destruct (sViews h).
    - destruct (at_ok (views r3) i) as [x ->];
        [ rewrite V3, V2, Lv by reflexivity; lia | ].
      rewrite bind_ret_l. destruct (read reader3 1 [x]) as [bs0 rd0].
      do 2 eexists. split; [ reflexivity | ].
      unfold same_lengths. simpl. rewrite !length_insert. tauto.
    - do 2 eexists. split; [ reflexivity | apply same_lengths_refl ]. }
  rewrite bind_ret_l. cbv beta iota.
  destruct S4 as (P4 & C4 & N4 & V4 & L4).
  destruct (sLabels h).
  - destruct (at_ok (labels r4) i) as [x ->];
      [ rewrite L4, L3, L2, Ll by reflexivity; lia | ].
    rewrite bind_ret_l. destruct (read reader4 1 [x]) as [bs0 rd0].
    rewrite bind_ret_l. cbv beta iota. eauto.
  - rewrite bind_ret_l. cbv beta iota. eauto.
Qed.

Lemma sized_same_lengths (h : schema) (r r' : PointSet) (n : nat) :
  same_lengths r r' -> sized h r n -> sized h r' n.
Proof.
  unfold same_lengths, sized. intros (-> & -> & -> & -> & ->). tauto.
Qed.

Lemma read_binary_records_total (h : schema) (m : nat) :
  offsets_ok h ->
  forall (n i : nat) (s : body_state (array3 byte)),
    sized h (bSet s) m -> (i + n <= m)%nat ->
    exists s', for_records (read_binary_record h) n i s = Ok s' /\
               same_lengths (bSet s) (bSet s').
Proof.
  intros Hoff. induction n as [|n IH]; intros i s Hs Hi.
  - exists s. split; [ reflexivity | apply same_lengths_refl ].
  - cbn [for_records].
    destruct (read_binary_record_total h i m s Hoff Hs) as [s1 H1]; [ lia | ].
    rewrite H1, bind_ret_l.
    pose proof (read_binary_record_lengths h i s s1 H1) as L1.
    destruct (IH (S i) s1) as (s' & H' & L'); [ | lia | ].
    + eapply sized_same_lengths; eassumption.
    + exists s'. split; [ exact H' | eapply same_lengths_trans; eassumption ].
Qed.

Lemma allocate_sized `{Memory} (h : schema) :
  0 <= vertexCount h <= INT_MAX ->
  columns_allocate h ->
  exists r, allocate h new_PointSet = Ok r /\ sized h r (Z.to_nat (vertexCount h)).
Proof.
  intros Hn Hmem. unfold columns_allocate in Hmem. unfold allocate, sized.
  set (n := Z.to_nat (vertexCount h)).
  assert (vertexCount h = Z.of_nat n) as E by lia.
  clearbody n. rewrite E in *.
  unfold new_PointSet. cbn [points set_points].
  rewrite resize_new by (lia || granted Hmem). rewrite bind_ret_l.
  cbn [points colors normals views labels set_points set_normals set_colors
       set_views set_labels pointMap kdTree m_spacing].
  destruct (sNormals h), (sColors h), (sViews h), (sLabels h);
    repeat first
      [ rewrite resize_new by (lia || granted Hmem)
      | rewrite bind_ret_l
      | progress cbn [points colors normals views labels set_points set_normals
                      set_colors set_views set_labels pointMap kdTree m_spacing] ];
    eexists; (split; [ reflexivity | ]);
    unfold sized; simpl;
    rewrite ?length_replicate, ?Nat2Z.id; repeat split; intros; congruence.
Qed.

(** Once the header is accepted, the binary record loop returns a data
    set of the declared size whatever the rest of the file holds. *)
Lemma binary_body_loads `{FormattedInput} `{Memory} color0 (fs : filesystem)
  (filename : string) (content : list byte) (h : schema) (reader : istream) :
  fs !! filename = Some content ->
  read_header (open_stream content) = Ok (h, reader) ->
  ascii h = false ->
  0 <= vertexCount h <= INT_MAX ->
  offsets_ok h ->
  columns_allocate h ->
  exists r : PointSet,
    fastPlyReadPointSet color0 fs filename = Ok r /\
    sized h r (Z.to_nat (vertexCount h)) /\
    columns_ok r.
Proof.
  intros Hfs Hh Hbin Hn Hoff Hmem.
  assert (exists r, fastPlyReadPointSet color0 fs filename = Ok r /\
                    sized h r (Z.to_nat (vertexCount h))) as (r & Hr & Hs).
  { unfold fastPlyReadPointSet. rewrite Hfs, Hh, bind_ret_l. cbv beta iota.
    destruct (allocate_sized h Hn Hmem) as (r0 & -> & S0). rewrite bind_ret_l.
    unfold read_body. rewrite Hbin.
    destruct (read_binary_records_total h (Z.to_nat (vertexCount h)) Hoff
                (Z.to_nat (vertexCount h)) 0 (mkBody reader r0 color0) S0)
      as (s' & -> & L'); [ lia | ].
    rewrite bind_ret_l. exists (bSet s'). split; [ reflexivity | ].
    eapply sized_same_lengths; [ exact L' | exact S0 ]. }
  exists r. split; [ exact Hr | split; [ exact Hs | ] ].
  exact (fastPlyReadPointSet_columns_ok color0 fs filename r Hr).
Qed.

(** C2, as the code has it: when the header of a binary file is accepted,
    declares a count that fits an [int] and colour offsets within 0..2,
    and the columns of that size are allocated, a body shorter than the
    records declared does not make loading fail: the reads are not
    checked, and the data set returned has the declared number of points
    in every column the header declares. *)
Theorem short_body_still_loads `{FormattedInput} `{Memory} color0 (fs : filesystem)
  (filename : string) (content : list byte) (h : schema) (reader : istream) :
  fs !! filename = Some content ->
  read_header (open_stream content) = Ok (h, reader) ->
  ascii h = false ->
  0 <= vertexCount h <= INT_MAX ->
  offsets_ok h ->
  columns_allocate h ->
  Z.of_nat (length (buf reader)) < vertexCount h * record_size h ->
  exists r : PointSet,
    fastPlyReadPointSet color0 fs filename = Ok r /\
    sized h r (Z.to_nat (vertexCount h)) /\
    columns_ok r.
Proof.
  intros Hfs Hh Hbin Hn Hoff Hmem _.
  exact (binary_body_loads color0 fs filename content h reader Hfs Hh Hbin Hn Hoff Hmem).
Qed.

(** A saved file cut anywhere in its records still loads, with as many
    points as the header says. *)
Lemma cut_file_loads `{FormattedInput} `{Memory} color0 (pSet : PointSet)
  (fs : filesystem) (filename : string) (m : nat) :
  columns_ok pSet -> count pSet <= INT_MAX -> columns_allocate (schema_of pSet) ->
  exists r : PointSet,
    fastPlyReadPointSet color0
      (<[filename := ply_header pSet
                     ++ take m (body_bytes pSet 0 (length (points pSet)))]> fs)
      filename = Ok r /\
    length (points r) = length (points pSet) /\
    columns_ok r.
Proof.
  intros Hok Hn Hmem.
  destruct (binary_body_loads color0
              (<[filename := ply_header pSet
                             ++ take m (body_bytes pSet 0 (length (points pSet)))]> fs)
              filename
              (ply_header pSet ++ take m (body_bytes pSet 0 (length (points pSet))))
              (schema_of pSet)
              (open_stream (take m (body_bytes pSet 0 (length (points pSet))))))
    as (r & Hr & (Hp & _) & Hc).
  - unfold filesystem in *. apply lookup_insert_eq.
  - rewrite read_header_ply_header. apply Z.leb_le in Hn. rewrite Hn. reflexivity.
  - reflexivity.
  - cbn [schema_of vertexCount]. unfold count in *. lia.
  - unfold offsets_ok. cbn [schema_of sRed sGreen sBlue]. lia.
  - exact Hmem.
  - exists r. split; [ exact Hr | split; [ | exact Hc ] ].
    rewrite Hp. cbn [schema_of vertexCount]. unfold count. apply Nat2Z.id.
Qed.

(** *** A file cut after [k] whole records *)

Lemma read_exhausted (s : istream) (n : nat) (old : list byte) :
  buf s = [] -> n <> 0%nat -> read s n old = (old, after_failed_read s).
Proof.
  intros Hb Hn. unfold read, after_failed_read.
  destruct (good s); [ | reflexivity ].
  rewrite Hb, take_nil. rewrite decide_False by (simpl; congruence). reflexivity.
Qed.

Lemma buf_after_failed_read (s : istream) :
  buf s = [] -> buf (after_failed_read s) = [].
Proof. intros Hb. unfold after_failed_read. destruct (good s); [ reflexivity | exact Hb ]. Qed.

Lemma partial_column_lookup_ge {A : Type} (zero : A) (col : list A) (k i n : nat) :
  length col = n -> (k <= i < n)%nat ->
  partial_column true zero col k n !! i = Some zero.
Proof.
  intros Hn Hi. unfold partial_column.
  rewrite lookup_app_r by (rewrite length_take; lia).
  apply lookup_replicate_2. rewrite length_take. lia.
Qed.

Lemma at_partial_column_ge {A : Type} (zero : A) (col : list A) (k i n : nat) :
  length col = n -> (k <= i < n)%nat ->
  at_ (partial_column true zero col k n) i = Ok zero.
Proof.
  intros Hn Hi. unfold at_. rewrite partial_column_lookup_ge by assumption. reflexivity.
Qed.

Lemma partial_column_insert_ge {A : Type} (zero : A) (col : list A) (k i n : nat) :
  length col = n -> (k <= i < n)%nat ->
  <[i := zero]> (partial_column true zero col k n) = partial_column true zero col k n.
Proof.
  intros Hn Hi. apply list_insert_id. apply partial_column_lookup_ge; assumption.
Qed.

Lemma at_cut_colours (col : list (array3 byte)) (k j n : nat) (stale : array3 byte) :
  length col = n -> (k + j < n)%nat ->
  at_ (take k col ++ replicate j stale ++ replicate (n - k - j) rgb_zero) (k + j)%nat
  = Ok rgb_zero.
Proof.
  intros Hn Hi. unfold at_.
  rewrite lookup_app_r by (rewrite length_take; lia).
  rewrite lookup_app_r by (rewrite length_take, length_replicate; lia).
  rewrite lookup_replicate_2 by (rewrite length_take, length_replicate; lia).
  reflexivity.
Qed.

Lemma insert_cut_colours (col : list (array3 byte)) (k j n : nat) (stale : array3 byte) :
  length col = n -> (k + j < n)%nat ->
  <[(k + j)%nat := stale]> (take k col ++ replicate j stale ++ replicate (n - k - j) rgb_zero)
  = take k col ++ replicate (S j) stale ++ replicate (n - k - S j) rgb_zero.
Proof.
  intros Hn Hi.
  assert (length (take k col) = k) as Hk by (rewrite length_take; lia).
  rewrite <- Hk at 1. rewrite insert_app_r. f_equal.
  rewrite <- (Nat.add_0_r j) at 1.
  rewrite <- (length_replicate j stale) at 1. rewrite insert_app_r.
  replace (n - k - j)%nat with (S (n - k - S j)) by lia. simpl.
  generalize (replicate (n - k - S j) rgb_zero) as tl. clear.
  induction j as [|j IH]; intros tl; simpl; [ reflexivity | ].
  rewrite IH. reflexivity.
Qed.

(** A turn of the record loop on exhausted input. *)
Lemma exhausted_record (pSet : PointSet) (k j : nat) (rd : istream)
  (stale : array3 byte) :
  columns_ok pSet -> (k + j < length (points pSet))%nat -> buf rd = [] ->
  exists rd',
    read_binary_record (schema_of pSet) (k + j)%nat
      (mkBody rd (cut_read pSet k j stale) stale)
    = Ok (mkBody rd' (cut_read pSet k (S j) stale) stale) /\
    buf rd' = [].
Proof.
  intros (Hc & Hn & Hv & Hl) Hi Hrd.
  unfold read_binary_record, schema_of, cut_read.
  cbn [sNormals sColors sViews sLabels sRed sGreen sBlue points colors normals
       views labels set_points set_normals set_colors set_views set_labels
       pointMap kdTree m_spacing].
  destruct (hasNormals pSet) eqn:En, (hasColors pSet) eqn:Ec,
           (hasViews pSet) eqn:Ev, (hasLabels pSet) eqn:El;
    pose proof (fun E => column_present _ _ Hn E) as Ln;
    pose proof (fun E => column_present _ _ Hc E) as Lc;
    pose proof (fun E => column_present _ _ Hv E) as Lv;
    pose proof (fun E => column_present _ _ Hl E) as Ll;
    repeat first
      [ rewrite at_partial_column_ge by (auto || lia)
      | rewrite at_cut_colours by (auto || lia)
      | rewrite bind_ret_l
      | rewrite read_exhausted
          by (repeat apply buf_after_failed_read; assumption || discriminate)
      | rewrite xyz_of_bytes_of_xyz
      | rewrite rgb_of_bytes_of_rgb
      | rewrite array3_set_rgb
      | rewrite partial_column_insert_ge by (auto || lia)
      | rewrite insert_cut_colours by (auto || lia)
      | progress cbv beta iota
      | progress cbn [colors normals views labels points set_points set_normals
                      set_colors set_views set_labels byte_at nth] ];
    eexists; (split; [ reflexivity | ]);
    repeat apply buf_after_failed_read; assumption.
Qed.

Lemma exhausted_records (pSet : PointSet) (k : nat) (stale : array3 byte) :
  columns_ok pSet ->
  forall (n j : nat) (rd : istream),
    (k + j + n <= length (points pSet))%nat -> buf rd = [] ->
    exists rd',
      for_records (read_binary_record (schema_of pSet)) n (k + j)%nat
        (mkBody rd (cut_read pSet k j stale) stale)
      = Ok (mkBody rd' (cut_read pSet k (j + n)%nat stale) stale) /\
      buf rd' = [].
Proof.
  intros Hok. induction n as [|n IH]; intros j rd Hn Hrd.
  - exists rd. rewrite Nat.add_0_r. split; [ reflexivity | exact Hrd ].
  - cbn [for_records].
    destruct (exhausted_record pSet k j rd stale Hok) as (rd1 & -> & H1);
      [ lia | exact Hrd | ].
    rewrite bind_ret_l.
    destruct (IH (S j) rd1) as (rd2 & H2 & Hb2); [ lia | exact H1 | ].
    exists rd2. replace (S (k + j)) with (k + S j)%nat by lia.
    rewrite H2. replace (j + S n)%nat with (S j + n)%nat by lia.
    split; [ reflexivity | exact Hb2 ].
Qed.

Lemma for_records_app {T : Type}
  (step : nat -> body_state T -> outcome (body_state T)) (n1 n2 : nat) :
  forall (i : nat) (s : body_state T),
    for_records step (n1 + n2)%nat i s
    = (for_records step n1 i s ≫= for_records step n2 (i + n1)%nat).
Proof.
  induction n1 as [|n1 IH]; intros i s.
  - simpl. rewrite Nat.add_0_r. reflexivity.
  - cbn [for_records Nat.add]. destruct (step i s) as [s1| | |]; try reflexivity.
    rewrite !bind_ret_l. rewrite IH.
    replace (S i + n1)%nat with (i + S n1)%nat by lia. reflexivity.
Qed.

Lemma cut_read_start (pSet : PointSet) (k : nat) (stale : array3 byte) :
  cut_read pSet k 0 stale = partially_read pSet k.
Proof.
  unfold cut_read, partially_read, partial_column.
  destruct (hasColors pSet); cbn [replicate app]; rewrite ?Nat.sub_0_r; reflexivity.
Qed.

(** What loading makes of a saved file that holds its first [k] records
    only: these records, then positions, normals, views and labels left at
    zero, and for every missing colour the last colour that was read. *)
Lemma file_cut_after_records `{FormattedInput} `{Memory} color0 (pSet : PointSet)
  (fs : filesystem) (filename : string) (k : nat) :
  columns_ok pSet -> count pSet <= INT_MAX -> (k <= length (points pSet))%nat ->
  columns_allocate (schema_of pSet) ->
  fastPlyReadPointSet color0
    (<[filename := ply_header pSet ++ body_bytes pSet 0 k]> fs) filename
  = Ok (cut_read pSet k (length (points pSet) - k)%nat (scratch_after pSet color0 0 k)).
Proof.
  intros Hok Hn Hk Hmem. unfold fastPlyReadPointSet, filesystem in *.
  rewrite lookup_insert_eq, read_header_ply_header.
  apply Z.leb_le in Hn. rewrite Hn. apply Z.leb_le in Hn.
  rewrite bind_ret_l. cbv beta iota.
  rewrite allocate_schema_of by assumption. rewrite bind_ret_l.
  unfold read_body. cbn [ascii schema_of vertexCount]. unfold count. rewrite Nat2Z.id.
  replace (length (points pSet)) with (k + (length (points pSet) - k))%nat at 1 by lia.
  rewrite for_records_app.
  pose proof (read_records_back pSet [] Hok k 0 color0) as Hr.
  rewrite app_nil_r in Hr. rewrite Hr by lia. rewrite bind_ret_l.
  cbn [Nat.add]. rewrite <- (cut_read_start pSet k (scratch_after pSet color0 0 k)).
  destruct (exhausted_records pSet k (scratch_after pSet color0 0 k) Hok
              (length (points pSet) - k) 0 (open_stream []))
    as (rd' & Hx & _); [ lia | reflexivity | ].
  rewrite Nat.add_0_r in Hx. rewrite Hx. reflexivity.
Qed.

Lemma short_body_still_loads_witness :
  exists r : PointSet,
    fastPlyReadPointSet (H := failing_input) (H0 := ample_memory) rgb_zero
      {[ "t.ply"%string := truncated_file ]} "t.ply" = Ok r /\
    sized (mkSchema false 2 false false false false 0 1 2) r (Z.to_nat 2) /\
    columns_ok r.
Proof.
  apply (@short_body_still_loads failing_input ample_memory rgb_zero
           {[ "t.ply"%string := truncated_file ]} "t.ply" truncated_file
           (mkSchema false 2 false false false false 0 1 2)
           (open_stream (bytes_of_xyz p1))).
  - reflexivity.
  - vm_compute. reflexivity.
  - reflexivity.
  - simpl. unfold INT_MAX. lia.
  - unfold offsets_ok. simpl. lia.
  - apply ample_columns_allocate.
  - vm_compute. reflexivity.
Defined.

(** C2 fails on a file that declares two records and holds one: loading
    returns two points, the second left at zero. *)
Lemma truncated_file_loads :
  fastPlyReadPointSet (H := failing_input) rgb_zero
    {[ "t.ply"%string := truncated_file ]} "t.ply"
  = Ok (set_points new_PointSet [p1; xyz_zero]).
Proof. vm_compute. reflexivity. Qed.

(** * Further properties

    ** The header functions *)

Lemma comment_not_element (l : list byte) :
  starts_with (str "comment") l = true -> starts_with (str "element") l = false.
Proof.
  destruct l as [|b l]; [ discriminate | ].
  cbn. destruct (decide ("c"%byte = b)) as [<-|]; [ reflexivity | discriminate ].
Qed.

Lemma length_lines_of (ls : list (list byte)) : (length ls <= length (lines_of ls))%nat.
Proof.
  induction ls as [|l ls IH]; [ simpl; lia | ].
  change (lines_of (l :: ls)) with ((l ++ [x0a]) ++ lines_of ls).
  rewrite !length_app. cbn [length]. lia.
Qed.

Lemma lines_of_cons (l : list byte) (ls : list (list byte)) (tail : list byte) :
  lines_of (l :: ls) ++ tail = l ++ x0a :: (lines_of ls ++ tail).
Proof. unfold lines_of. simpl. rewrite <- !app_assoc. reflexivity. Qed.

Lemma getVertexLine_loop_comments (cs : list (list byte)) (tail : list byte) :
  Forall comment_line cs ->
  forall (fuel : nat) (old : list byte),
  exists old',
    getVertexLine_loop (length cs + fuel) (open_stream (lines_of cs ++ tail)) old
    = getVertexLine_loop fuel (open_stream tail) old'.
Proof.
  induction 1 as [|c cs [Hn Hc] _ IH]; intros fuel old.
  - exists old. reflexivity.
  - rewrite lines_of_cons. cbn [length Nat.add getVertexLine_loop].
    rewrite getline_line by assumption. cbv beta iota.
    rewrite (comment_not_element c Hc), Hc. apply IH.
Qed.

Lemma getVertexLine_fuel (cs : list (list byte)) (tail : list byte) :
  exists fuel,
    S (S (length (buf (open_stream (lines_of cs ++ tail))))) = (length cs + S fuel)%nat.
Proof.
  cbn [buf open_stream]. rewrite length_app.
  pose proof (length_lines_of cs).
  exists (S (length (lines_of cs) + length tail) - length cs)%nat. lia.
Qed.

(** X1 ([getVertexLine]): whatever the number of comment lines before it,
    the first line that starts with [element] is returned and the stream is
    left just behind it. *)
Theorem getVertexLine_skips_comments (cs : list (list byte)) (l rest : list byte) :
  Forall comment_line cs ->
  x0a ∉ l -> starts_with (str "element") l = true ->
  getVertexLine (open_stream (lines_of cs ++ l ++ x0a :: rest))
  = Ok (l, open_stream rest).
Proof.
  intros Hcs Hl He. unfold getVertexLine.
  destruct (getVertexLine_fuel cs (l ++ x0a :: rest)) as [fuel ->].
  destruct (getVertexLine_loop_comments cs (l ++ x0a :: rest) Hcs (S fuel) []) as [old ->].
  cbn [getVertexLine_loop]. rewrite getline_line by assumption. cbv beta iota.
  rewrite He. reflexivity.
Qed.

Lemma getVertexLine_skips_comments_witness :
  getVertexLine (open_stream (lines_of [str "comment made by a"; str "comment b"]
                              ++ str "element vertex 2" ++ x0a :: str "property"))
  = Ok (str "element vertex 2", open_stream (str "property")).
Proof.
  apply getVertexLine_skips_comments;
    [ unfold comment_line; by_compute | by_compute | reflexivity ].
Defined.

(** X2 ([getVertexLine]): after any number of comment lines, a line that
    starts neither with [element] nor with [comment] is refused with
    "Invalid PLY file", and so is the end of the input. *)
Theorem getVertexLine_rejects_other_lines (cs : list (list byte)) (l rest : list byte) :
  Forall comment_line cs ->
  x0a ∉ l ->
  starts_with (str "element") l = false -> starts_with (str "comment") l = false ->
  getVertexLine (open_stream (lines_of cs ++ l ++ x0a :: rest)) = Throw invalid_ply
  /\ getVertexLine (open_stream (lines_of cs)) = Throw invalid_ply.
Proof.
  intros Hcs Hl He Hc. unfold getVertexLine. split.
  - destruct (getVertexLine_fuel cs (l ++ x0a :: rest)) as [fuel ->].
    destruct (getVertexLine_loop_comments cs (l ++ x0a :: rest) Hcs (S fuel) [])
      as [old ->].
    cbn [getVertexLine_loop]. rewrite getline_line by assumption. cbv beta iota.
    rewrite He, Hc. reflexivity.
  - rewrite <- (app_nil_r (lines_of cs)).
    destruct (getVertexLine_fuel cs []) as [fuel ->].
    destruct (getVertexLine_loop_comments cs [] Hcs (S fuel) []) as [old ->].
    reflexivity.
Qed.

Lemma getVertexLine_rejects_other_lines_witness :
  getVertexLine (open_stream (lines_of [str "comment a"] ++ str "obj_info b" ++ x0a
                              :: str "element vertex 2"))
  = Throw invalid_ply
  /\ getVertexLine (open_stream (lines_of [str "comment a"])) = Throw invalid_ply.
Proof.
  apply getVertexLine_rejects_other_lines;
    [ unfold comment_line; by_compute | by_compute | reflexivity | reflexivity ].
Defined.

(** X3 ([getVertexLine]): when the input ends inside a comment line (no
    line feed after it), no number of turns of the loop gives a result:
    the stream is no longer good, [getline] leaves the comment in [line],
    and the loop continues for ever. *)
Theorem getVertexLine_never_returns_on_open_comment (cs : list (list byte))
  (l : list byte) :
  Forall comment_line cs ->
  comment_line l ->
  forall (fuel : nat) (old : list byte),
    getVertexLine_loop fuel (open_stream (lines_of cs ++ l)) old = Diverges.
Proof.
  intros Hcs [Hl Hc].
  induction Hcs as [|c cs [Hn Hcc] _ IH]; intros [|fuel] old; try reflexivity.
  - cbn [lines_of flat_map app getVertexLine_loop]. unfold getline, getline_delim.
    cbn [good open_stream eofbit failbit buf negb andb].
    rewrite split_at_delim_none by assumption.
    rewrite (comment_not_element l Hc), Hc.
    apply getVertexLine_loop_stuck;
      [ apply comment_not_element | | ]; (assumption || reflexivity).
  - rewrite lines_of_cons. cbn [getVertexLine_loop].
    rewrite getline_line by assumption. cbv beta iota.
    rewrite (comment_not_element c Hcc), Hcc. apply IH.
Qed.

Lemma getVertexLine_never_returns_on_open_comment_witness :
  getVertexLine (open_stream (lines_of [str "comment a"] ++ str "comment b")) = Diverges.
Proof.
  unfold getVertexLine.
  apply getVertexLine_never_returns_on_open_comment; unfold comment_line; by_compute.
Defined.

(** X4 ([getVertexCount], [fastPlySavePointSet]): the count line the
    writer produces for [n] points is read back as [n] exactly when [n]
    fits an [int]; beyond that [std::stoi] throws [out_of_range]. *)
Theorem getVertexCount_of_written_line (n : Z) :
  0 <= n ->
  getVertexCount (str "element vertex " ++ put_size_t n)
  = if n <=? INT_MAX then Ok n else Throw (out_of_range "stoi").
Proof.
  intros Hn. destruct (put_size_t_digits n) as [Hd Hne].
  rewrite getVertexCount_vertex
    by (assumption || (apply digit_free; [ reflexivity | assumption ])).
  rewrite stoi_put_size_t by assumption.
  destruct (n <=? INT_MAX) eqn:Hc; [ | reflexivity ].
  rewrite bind_ret_l. f_equal.
  apply Z.leb_le in Hc. unfold to_size_t, INT_MAX in *. apply Z.mod_small. lia.
Qed.

Lemma getVertexCount_of_written_line_witness :
  getVertexCount (str "element vertex " ++ put_size_t 2147483647) = Ok 2147483647
  /\ getVertexCount (str "element vertex " ++ put_size_t 2147483648)
     = Throw (out_of_range "stoi").
Proof.
  split.
  - apply (getVertexCount_of_written_line 2147483647). lia.
  - apply (getVertexCount_of_written_line 2147483648). lia.
Defined.

Lemma length_join_tokens (t : list byte) (ts : list (list byte)) :
  (length ts <= length (flat_map (fun u => x20 :: u) ts))%nat.
Proof.
  induction ts as [|u ts IH]; [ simpl; lia | ].
  cbn [flat_map]. rewrite length_app. cbn [length]. lia.
Qed.

Lemma tokens_loop_join (ts : list (list byte)) :
  Forall (fun t => x20 ∉ t) ts ->
  last ts <> Some [] ->
  forall (fuel : nat) (tok : list byte) (acc : list (list byte)),
    tokens_loop (length ts + S fuel) (open_stream (join_tokens ts)) tok acc = acc ++ ts.
Proof.
  induction 1 as [|t ts Ht Hts IH]; intros Hlast fuel tok acc.
  - rewrite app_nil_r. reflexivity.
  - destruct ts as [|u ts].
    + cbn [join_tokens flat_map]. rewrite app_nil_r.
      apply tokens_loop_last; [ assumption | ].
      intros ->. apply Hlast. reflexivity.
    + change (join_tokens (t :: u :: ts)) with (t ++ x20 :: join_tokens (u :: ts)).
      cbn [length Nat.add]. rewrite tokens_loop_token by assumption.
      change (S (length ts + S fuel))%nat with (length (u :: ts) + S fuel)%nat.
      rewrite IH by exact Hlast. rewrite <- app_assoc. reflexivity.
Qed.

(** X5 ([getVertexCount], the token loop): tokens that hold no space, the
    last of them not empty, are recovered from the line that joins them
    with single spaces; an empty token in the middle (two spaces in a row)
    is a token of its own. *)
Theorem split_tokens_join_tokens (ts : list (list byte)) :
  Forall (fun t => x20 ∉ t) ts ->
  last ts <> Some [] ->
  split_tokens (join_tokens ts) = ts.
Proof.
  intros Hts Hlast. unfold split_tokens.
  assert (exists fuel, S (S (length (join_tokens ts))) = (length ts + S fuel)%nat)
    as [fuel ->].
  { destruct ts as [|t ts]; [ exists 1%nat; reflexivity | ].
    cbn [join_tokens]. rewrite length_app. pose proof (length_join_tokens t ts).
    cbn [length].
    exists (length t + length (flat_map (fun u => x20 :: u) ts) - length ts)%nat. lia. }
  apply (tokens_loop_join ts Hts Hlast fuel [] []).
Qed.

Lemma split_tokens_join_tokens_witness :
  split_tokens (str "element  vertex 5") = [str "element"; []; str "vertex"; str "5"].
Proof.
  apply (split_tokens_join_tokens [str "element"; []; str "vertex"; str "5"]);
    [ by_compute | discriminate ].
Defined.

Lemma substr_prefix (line : list byte) : substr line 0 8 = Ok (take 8 line).
Proof.
  unfold substr. change (to_size_t 0) with 0. change (to_size_t 8) with 8.
  destruct (Z.ltb_spec (Z.of_nat (length line)) 0); [ lia | reflexivity ].
Qed.

Lemma substr_suffix (line prop : list byte) :
  Z.of_nat (length line) < 2 ^ 64 -> Z.of_nat (length prop) < 2 ^ 64 ->
  substr line (Z.of_nat (length line) - Z.of_nat (length prop)) (Z.of_nat (length prop))
  = if Z.of_nat (length line) <? Z.of_nat (length prop)
    then Throw (out_of_range "basic_string::substr")
    else Ok (drop (length line - length prop) line).
Proof.
  intros Hl Hp. unfold substr, to_size_t.
  destruct (Z.ltb_spec (Z.of_nat (length line)) (Z.of_nat (length prop))) as [Hlt | Hge].
  - assert ((Z.of_nat (length line) - Z.of_nat (length prop)) mod 2 ^ 64
            = Z.of_nat (length line) - Z.of_nat (length prop) + 2 ^ 64) as ->.
    { symmetry. apply (Z.mod_unique _ _ (-1)); lia. }
    destruct (Z.ltb_spec (Z.of_nat (length line))
                (Z.of_nat (length line) - Z.of_nat (length prop) + 2 ^ 64));
      [ reflexivity | lia ].
  - rewrite !Z.mod_small by lia.
    destruct (Z.ltb_spec (Z.of_nat (length line))
                (Z.of_nat (length line) - Z.of_nat (length prop))); [ lia | ].
    f_equal.
    replace (Z.to_nat (Z.of_nat (length line) - Z.of_nat (length prop)))
      with (length line - length prop)%nat by lia.
    rewrite Nat2Z.id. apply take_ge. rewrite length_drop. lia.
Qed.

Lemma take_8_property (line : list byte) :
  take 8 line = str "property" <-> str "property" `prefix_of` line.
Proof.
  split.
  - intros E. exists (drop 8 line). rewrite <- E. symmetry. apply take_drop.
  - intros [k ->]. reflexivity.
Qed.

Lemma drop_suffix (line prop : list byte) :
  (length prop <= length line)%nat ->
  drop (length line - length prop) line = prop <-> prop `suffix_of` line.
Proof.
  intros Hle. split.
  - intros E. exists (take (length line - length prop) line).
    rewrite <- E at 2. symmetry. apply take_drop.
  - intros [k ->]. rewrite length_app.
    replace (length k + length prop - length prop)%nat with (length k) by lia.
    apply drop_app_length.
Qed.

(** [hasHeader] on a line that starts with [property]. *)
Lemma hasHeader_property (line prop : list byte) :
  Z.of_nat (length line) < 2 ^ 64 -> Z.of_nat (length prop) < 2 ^ 64 ->
  str "property" `prefix_of` line ->
  hasHeader line prop
  = if Z.of_nat (length line) <? Z.of_nat (length prop)
    then Throw (out_of_range "basic_string::substr")
    else Ok (bool_decide (drop (length line - length prop) line = prop)).
Proof.
  intros Hl Hp Hpre. unfold hasHeader. rewrite substr_prefix, bind_ret_l.
  rewrite bool_decide_true by (apply take_8_property; exact Hpre).
  rewrite substr_suffix by assumption.
  destruct (Z.of_nat (length line) <? Z.of_nat (length prop)); reflexivity.
Qed.

(** X6 ([hasHeader]): the test succeeds exactly on the lines that start
    with [property] and end with the name: the name is not compared as a
    word, so a property called [infrared] counts as [red]. *)
Theorem hasHeader_true_iff (line prop : list byte) :
  Z.of_nat (length line) < 2 ^ 64 -> Z.of_nat (length prop) < 2 ^ 64 ->
  hasHeader line prop = Ok true
  <-> str "property" `prefix_of` line /\ prop `suffix_of` line.
Proof.
  intros Hl Hp. split.
  - intros E. unfold hasHeader in E. rewrite substr_prefix, bind_ret_l in E.
    destruct (bool_decide (take 8 line = str "property")) eqn:Hpre; [ | discriminate ].
    apply bool_decide_eq_true in Hpre. split; [ apply take_8_property; exact Hpre | ].
    rewrite substr_suffix in E by assumption.
    destruct (Z.ltb_spec (Z.of_nat (length line)) (Z.of_nat (length prop)));
      [ discriminate | ].
    rewrite bind_ret_l in E. injection E as E. apply bool_decide_eq_true in E.
    apply drop_suffix; [ lia | exact E ].
  - intros [Hpre Hsuf]. rewrite hasHeader_property by assumption.
    pose proof (suffix_length _ _ Hsuf).
    destruct (Z.ltb_spec (Z.of_nat (length line)) (Z.of_nat (length prop))); [ lia | ].
    f_equal. apply bool_decide_eq_true. apply drop_suffix; assumption.
Qed.

Lemma hasHeader_true_iff_witness :
  hasHeader (str "property float infrared") (str "red") = Ok true.
Proof.
  apply (hasHeader_true_iff (str "property float infrared") (str "red"));
    [ simpl; lia | simpl; lia | ].
  split; [ exists (str " float infrared") | exists (str "property float infra") ];
    reflexivity.
Defined.

Lemma hasHeader_short_name (line prop : list byte) :
  str "property" `prefix_of` line -> (length line < 14)%nat -> (length prop <= 8)%nat ->
  exists b, hasHeader line prop = Ok b.
Proof.
  intros Hpre Hl Hp. rewrite hasHeader_property by (assumption || lia).
  pose proof (prefix_length _ _ Hpre) as Hlen.
  change (length (str "property")) with 8%nat in Hlen.
  destruct (Z.ltb_spec (Z.of_nat (length line)) (Z.of_nat (length prop))); [ lia | ].
  eauto.
Qed.

(** X7 (the property loop of [fastPlyReadPointSet], [hasHeader]): a line
    that starts with [property] and is shorter than 14 bytes, the length of
    [property] and of the name [classification] alike, makes the scan
    throw [std::out_of_range]: [substr] is called with a position that has
    wrapped around. *)
Theorem short_property_line_throws (line : list byte) (st : header_scan) :
  str "property" `prefix_of` line -> (length line < 14)%nat ->
  scan_line line st = Throw (out_of_range "basic_string::substr").
Proof.
  intros Hpre Hl. unfold scan_line.
  destruct (hasHeader_short_name line (str "nx") Hpre Hl ltac:(simpl; lia)) as [b1 ->].
  destruct (hasHeader_short_name line (str "normal_x") Hpre Hl ltac:(simpl; lia))
    as [b2 ->].
  destruct (hasHeader_short_name line (str "normalx") Hpre Hl ltac:(simpl; lia))
    as [b3 ->].
  destruct (hasHeader_short_name line (str "red") Hpre Hl ltac:(simpl; lia)) as [b4 ->].
  destruct (hasHeader_short_name line (str "green") Hpre Hl ltac:(simpl; lia))
    as [b5 ->].
  destruct (hasHeader_short_name line (str "blue") Hpre Hl ltac:(simpl; lia)) as [b6 ->].
  destruct (hasHeader_short_name line (str "views") Hpre Hl ltac:(simpl; lia))
    as [b7 ->].
  destruct (hasHeader_short_name line (str "label") Hpre Hl ltac:(simpl; lia))
    as [b8 ->].
  assert (hasHeader line (str "classification")
          = Throw (out_of_range "basic_string::substr")) as ->.
  { rewrite hasHeader_property by (assumption || (simpl; lia)).
    destruct (Z.ltb_spec (Z.of_nat (length line))
                (Z.of_nat (length (str "classification")))) as [|Hge];
      [ reflexivity | simpl in Hge; lia ]. }
  destruct b1, b2, b3, b4, b5, b6, b7, b8; reflexivity.
Qed.

Lemma short_property_line_throws_witness :
  scan_line (str "property x") scan_init = Throw (out_of_range "basic_string::substr").
Proof.
  apply short_property_line_throws; [ exists (str " x"); reflexivity | simpl; lia ].
Defined.

(** X8 ([checkHeader]): when the input is exhausted, whatever the state of
    the stream, [checkHeader] throws [std::out_of_range] from [substr] on
    the empty line, not its own "Invalid PLY file" error. *)
Theorem checkHeader_at_end_of_input (reader : istream) (prop : list byte) :
  buf reader = [] -> prop <> [] -> Z.of_nat (length prop) < 2 ^ 64 ->
  checkHeader reader prop = Throw (out_of_range "basic_string::substr").
Proof.
  intros Hb Hne Hp. unfold checkHeader, getline, getline_delim. rewrite Hb.
  assert (remove_cr [] = []) as Hcr by reflexivity.
  assert (substr [] (Z.of_nat (length (@nil byte)) - Z.of_nat (length prop))
            (Z.of_nat (length prop))
          = Throw (out_of_range "basic_string::substr")) as Hs.
  { rewrite substr_suffix by (simpl; lia). cbn [length].
    destruct prop; [ congruence | ].
    destruct (Z.ltb_spec (Z.of_nat 0) (Z.of_nat (length (b :: prop))));
      [ reflexivity | simpl in *; lia ]. }
  destruct (good reader); cbn [split_at_delim]; rewrite Hcr, Hs; reflexivity.
Qed.

Lemma checkHeader_at_end_of_input_witness :
  checkHeader (open_stream []) (str "x") = Throw (out_of_range "basic_string::substr").
Proof.
  apply checkHeader_at_end_of_input; [ reflexivity | discriminate | simpl; lia ].
Defined.

Lemma incr_c_scan_at (n : Z) : incr_c (scan_at n) = scan_at (n + 1).
Proof. reflexivity. Qed.

Lemma scan_loop_plain_lines (L rest : list byte) :
  x0a ∉ L -> remove_cr L = L -> L <> str "end_header" ->
  (forall st, scan_line L st = Ok st) ->
  forall (m fuel cc : nat),
    (fuel + cc = 101)%nat ->
    scan_loop (S fuel)
      (open_stream (lines_of (replicate m L) ++ put_line "end_header" ++ rest))
      L (scan_at (Z.of_nat cc))
    = if (cc + m <=? 100)%nat
      then Ok (scan_at (Z.of_nat (cc + m + 1)), open_stream rest, str "end_header")
      else Ok (scan_at 102,
               open_stream (lines_of (replicate (cc + m - 101) L)
                            ++ put_line "end_header" ++ rest), L).
Proof.
  intros Hn Hcr Hne Hscan.
  induction m as [|m IH]; intros fuel cc Hf.
  - cbn [scan_loop]. rewrite bool_decide_false by assumption.
    rewrite Hscan, bind_ret_l, incr_c_scan_at. cbn [c scan_at].
    destruct (Z.ltb_spec 100 (Z.of_nat cc)) as [Hgt | Hle].
    + assert (cc = 101%nat) as -> by lia. reflexivity.
    + destruct (Nat.leb_spec (cc + 0) 100); [ | lia ].
      cbn [replicate lines_of flat_map app].
      rewrite getline_put_line by by_compute.
      change (remove_cr (str "end_header")) with (str "end_header").
      replace (Z.of_nat (cc + 0 + 1)) with (Z.of_nat cc + 1) by lia.
      destruct fuel; cbn [scan_loop]; rewrite bool_decide_true by reflexivity;
        reflexivity.
  - cbn [scan_loop]. rewrite bool_decide_false by assumption.
    rewrite Hscan, bind_ret_l, incr_c_scan_at. cbn [c scan_at].
    destruct (Z.ltb_spec 100 (Z.of_nat cc)) as [Hgt | Hle].
    + assert (cc = 101%nat) as -> by lia.
      destruct (Nat.leb_spec (101 + S m) 100); [ lia | ].
      replace (101 + S m - 101)%nat with (S m) by lia. reflexivity.
    + cbn [replicate]. rewrite lines_of_cons.
      rewrite getline_line by assumption. rewrite Hcr.
      destruct fuel as [|fuel]; [ lia | ].
      replace (Z.of_nat cc + 1) with (Z.of_nat (S cc)) by lia.
      rewrite (IH fuel (S cc)) by lia.
      replace (S cc + m)%nat with (cc + S m)%nat by lia. reflexivity.
Qed.

(** X9 (the property loop of [fastPlyReadPointSet], [if (c++ > 100) break]):
    for a header of [n] property lines that declare no optional column, the
    loop reaches [end_header] when [n <= 101]; a longer header is cut after
    its line 102 and the rest of the header is left in the stream, where
    the record loop takes it for point data. *)
Theorem property_loop_stops_after_102_lines (L rest old : list byte) (n : nat) :
  x0a ∉ L -> remove_cr L = L -> L <> str "end_header" ->
  (forall st, scan_line L st = Ok st) ->
  (let '(line, reader) :=
     getline (open_stream (lines_of (replicate n L) ++ put_line "end_header" ++ rest))
       old in
   scan_loop 102 reader (remove_cr line) scan_init)
  = if (n <=? 101)%nat
    then Ok (scan_at (Z.of_nat n), open_stream rest, str "end_header")
    else Ok (scan_at 102,
             open_stream (lines_of (replicate (n - 102) L)
                          ++ put_line "end_header" ++ rest), L).
Proof.
  intros Hn Hcr Hne Hscan. destruct n as [|n].
  - cbn [replicate lines_of flat_map app].
    rewrite getline_put_line by by_compute. reflexivity.
  - cbn [replicate]. rewrite lines_of_cons.
    rewrite getline_line by assumption. rewrite Hcr.
    change scan_init with (scan_at (Z.of_nat 0)).
    rewrite (scan_loop_plain_lines L rest Hn Hcr Hne Hscan n 101 0) by lia.
    cbn [Nat.add].
    destruct (Nat.leb_spec n 100); destruct (Nat.leb_spec (S n) 101); try lia.
    + replace (n + 1)%nat with (S n) by lia. reflexivity.
    + replace (S n - 102)%nat with (n - 101)%nat by lia. reflexivity.
Qed.

Lemma property_loop_stops_after_102_lines_witness :
  (let '(line, reader) :=
     getline (open_stream (lines_of (replicate 103 (str "property float quality"))
                           ++ put_line "end_header" ++ [])) [] in
   scan_loop 102 reader (remove_cr line) scan_init)
  = Ok (scan_at 102,
        open_stream (lines_of (replicate 1 (str "property float quality"))
                     ++ put_line "end_header" ++ []),
        str "property float quality").
Proof.
  apply (property_loop_stops_after_102_lines (str "property float quality") [] [] 103);
    [ by_compute | reflexivity | discriminate | ].
  intros [? ? ? ? ? ? ? ?]. reflexivity.
Defined.

(** ** Line ends CR LF *)

Lemma strtol_digits_stop (ds rest : list byte) (b : byte) :
  Forall (fun b => is_Some (digit_of b)) ds -> digit_of b = None ->
  forall acc, strtol_digits (ds ++ b :: rest) acc = strtol_digits ds acc.
Proof.
  intros Hds Hb. induction Hds as [|d ds [k Hk] _ IH]; intros acc.
  - cbn [app strtol_digits]. rewrite Hb. reflexivity.
  - cbn [app]. rewrite !(strtol_digits_cons d _ acc k Hk). apply IH.
Qed.

(** [std::stoi] ignores what follows the digits. *)
Lemma stoi_stop (ds rest : list byte) (b : byte) :
  Forall (fun b => is_Some (digit_of b)) ds -> ds <> [] -> digit_of b = None ->
  stoi (ds ++ b :: rest) = stoi ds.
Proof.
  intros Hds Hne Hb. destruct ds as [|d ds]; [ congruence | ].
  inversion Hds as [|? ? [k Hk] Hds']; subst.
  cbn [app]. rewrite !(stoi_digit_first d _ k Hk).
  change (d :: ds ++ b :: rest) with ((d :: ds) ++ b :: rest).
  rewrite strtol_digits_stop by assumption. reflexivity.
Qed.

Lemma put_line_crlf_app (s : string) (rest : list byte) :
  put_line_crlf s ++ rest = (str s ++ [x0d]) ++ x0a :: rest.
Proof. unfold put_line_crlf. rewrite <- !app_assoc. reflexivity. Qed.

Lemma getline_put_line_crlf (s : string) (rest old : list byte) :
  x0a ∉ str s ->
  getline (open_stream (put_line_crlf s ++ rest)) old = (str s ++ [x0d], open_stream rest).
Proof.
  intros Hs. rewrite put_line_crlf_app. apply getline_line.
  intros Hin. apply elem_of_app in Hin as [Hin | Hin]; [ exact (Hs Hin) | ].
  revert Hin. by_compute.
Qed.

Lemma checkHeader_put_line_crlf (s : string) (prop rest : list byte) :
  x0a ∉ str s ->
  checkHeader (open_stream (put_line_crlf s)) prop = Ok (open_stream []) ->
  checkHeader (open_stream (put_line_crlf s ++ rest)) prop = Ok (open_stream rest).
Proof.
  intros Hs. rewrite <- (app_nil_r (put_line_crlf s)) at 1. unfold checkHeader.
  rewrite !getline_put_line_crlf by assumption.
  destruct (substr _ _ _); simpl; try discriminate.
  destruct (bool_decide _); [ discriminate | reflexivity ].
Qed.

Lemma scan_property_lines_crlf (bn bc bv bl : bool) (asc : bool) (n : Z)
  (old rest : list byte) :
  (let '(line, reader) :=
     getline (open_stream (property_lines_crlf bn bc bv bl ++ rest)) old in
   let line := remove_cr line in
   scan_loop 102 reader line scan_init ≫= fun '(st, reader, _) =>
   resolve_colors st ≫= fun '(redIdx, greenIdx, blueIdx) =>
   let hasLabels := negb (bool_decide (labelDim st = [])) in
   Ok (mkSchema asc n (scanNormals st) (scanColors st) (scanViews st)
                hasLabels redIdx greenIdx blueIdx, reader))
  = Ok (mkSchema asc n bn bc bv bl 0 1 2, open_stream rest).
Proof.
  destruct bn, bc, bv, bl; vm_compute; reflexivity.
Qed.

Lemma ply_header_crlf_shape (pSet : PointSet) (rest : list byte) :
  ply_header_crlf pSet ++ rest
  = put_line_crlf "ply" ++
    put_line_crlf "format binary_little_endian 1.0" ++
    lines_of [str "comment Generated by OpenPointClass" ++ [x0d]] ++
    (str "element vertex " ++ put_size_t (count pSet) ++ [x0d]) ++ x0a ::
    put_line_crlf "property float x" ++
    put_line_crlf "property float y" ++
    put_line_crlf "property float z" ++
    property_lines_crlf (hasNormals pSet) (hasColors pSet) (hasViews pSet)
      (hasLabels pSet)
    ++ rest.
Proof.
  unfold ply_header_crlf, property_lines_crlf, put_line_crlf, lines_of.
  cbn [flat_map]. rewrite <- !app_assoc. reflexivity.
Qed.

Lemma read_header_ply_header_crlf (pSet : PointSet) (rest : list byte) :
  read_header (open_stream (ply_header_crlf pSet ++ rest))
  = if count pSet <=? INT_MAX then Ok (schema_of pSet, open_stream rest)
    else Throw (out_of_range "stoi").
Proof.
  rewrite ply_header_crlf_shape. unfold read_header.
  rewrite getline_put_line_crlf by by_compute. cbv beta iota zeta.
  change (remove_cr (str "ply" ++ [x0d])) with (str "ply").
  rewrite bool_decide_false by (intros E; apply E; reflexivity).
  rewrite getline_put_line_crlf by by_compute. cbv beta iota zeta.
  change (bool_decide (remove_cr (str "format binary_little_endian 1.0" ++ [x0d])
                       = str "format ascii 1.0")) with false.
  cbv iota.
  destruct (put_size_t_digits (count pSet)) as [Hd Hne].
  assert (x0a ∉ str "element vertex " ++ put_size_t (count pSet) ++ [x0d]) as Hnl.
  { rewrite app_assoc. intros Hin. apply elem_of_app in Hin as [Hin | Hin].
    - exact (count_line_no_newline _ Hin).
    - revert Hin. by_compute. }
  unfold getVertexLine.
  match goal with
  | |- context [open_stream (lines_of ?cs ++ ?tail)] =>
      destruct (getVertexLine_fuel cs tail) as [fuel ->];
      destruct (getVertexLine_loop_comments cs tail
                  ltac:(unfold comment_line; by_compute) (S fuel) []) as [old' ->]
  end.
  cbn [getVertexLine_loop].
  rewrite getline_line by exact Hnl.
  cbv beta iota.
  change (starts_with (str "element")
            (str "element vertex " ++ put_size_t (count pSet) ++ [x0d])) with true.
  cbv iota. rewrite bind_ret_l. cbv beta iota.
  rewrite getVertexCount_vertex.
  2:{ intros Hin. apply elem_of_app in Hin as [Hin | Hin].
      - revert Hin. apply digit_free; [ reflexivity | assumption ].
      - revert Hin. by_compute. }
  2:{ destruct (put_size_t (count pSet)); [ congruence | discriminate ]. }
  rewrite stoi_stop by (assumption || reflexivity).
  rewrite stoi_put_size_t by (unfold count; lia).
  destruct (count pSet <=? INT_MAX) eqn:Hc; [ | reflexivity ].
  rewrite !bind_ret_l.
  assert (to_size_t (count pSet) = count pSet) as ->.
  { apply Z.leb_le in Hc. unfold to_size_t, count, INT_MAX in *.
    apply Z.mod_small. lia. }
  rewrite checkHeader_put_line_crlf by (by_compute || (vm_compute; reflexivity)).
  rewrite bind_ret_l.
  rewrite checkHeader_put_line_crlf by (by_compute || (vm_compute; reflexivity)).
  rewrite bind_ret_l.
  rewrite checkHeader_put_line_crlf by (by_compute || (vm_compute; reflexivity)).
  rewrite bind_ret_l.
  exact (scan_property_lines_crlf (hasNormals pSet) (hasColors pSet) (hasViews pSet)
           (hasLabels pSet) false (count pSet) _ rest).
Qed.

(** X10 ([fastPlyReadPointSet], [getVertexLine], [getVertexCount],
    [checkHeader]): a file whose header lines end with CR LF instead of LF
    loads as the same data set when its columns are allocated: the
    carriage returns are erased from the lines that are compared, and on
    the count line, where none is erased, [std::stoi] stops at the
    carriage return. *)
Theorem crlf_header_file_loads `{FormattedInput} `{Memory} (pSet : PointSet)
  (fs : filesystem) (filename : string) color0 :
  columns_ok pSet ->
  count pSet <= INT_MAX ->
  columns_allocate (schema_of pSet) ->
  fastPlyReadPointSet color0
    (<[filename := ply_header_crlf pSet ++ body_bytes pSet 0 (length (points pSet))]> fs)
    filename
  = Ok (reloaded pSet).
Proof.
  intros Hok Hn Hmem. unfold fastPlyReadPointSet, filesystem in *.
  rewrite lookup_insert_eq.
  rewrite read_header_ply_header_crlf.
  apply Z.leb_le in Hn. rewrite Hn. apply Z.leb_le in Hn.
  rewrite bind_ret_l. cbv beta iota.
  rewrite allocate_schema_of by assumption.
  rewrite bind_ret_l.
  apply read_body_back. assumption.
Qed.

Lemma crlf_header_file_loads_witness :
  fastPlyReadPointSet (H := failing_input) (H0 := ample_memory) rgb_zero
    (<["full.ply" := ply_header_crlf full ++ body_bytes full 0 (length (points full))]> ∅)
    "full.ply"
  = Ok (reloaded full).
Proof.
  apply (@crlf_header_file_loads failing_input ample_memory full ∅ "full.ply" rgb_zero).
  - unfold columns_ok, column_ok. simpl. tauto.
  - vm_compute. discriminate.
  - apply ample_columns_allocate.
Defined.

(** ** Loading and saving *)

Lemma same_cache_refl (r : PointSet) : same_cache r r.
Proof. unfold same_cache; tauto. Qed.

Lemma same_cache_trans (r1 r2 r3 : PointSet) :
  same_cache r1 r2 -> same_cache r2 r3 -> same_cache r1 r3.
Proof. unfold same_cache; intuition congruence. Qed.

Lemma read_binary_record_cache (h : schema) (i : nat) s s' :
  read_binary_record h i s = Ok s' -> same_cache (bSet s) (bSet s').
Proof.
  destruct s as [reader r color]. unfold read_binary_record.
  intros Hr.
  apply bind_Ok in Hr as (p & _ & Hr).
  destruct (read reader 12 (bytes_of_xyz p)) as [bs reader1].
  apply bind_Ok in Hr as ([reader2 r2] & H2 & Hr).
  apply bind_Ok in Hr as ([[reader3 r3] color3] & H3 & Hr).
  apply bind_Ok in Hr as ([reader4 r4] & H4 & Hr).
  apply bind_Ok in Hr as ([reader5 r5] & H5 & Hr).
  injection Hr as <-. simpl.
  assert (same_cache r r2) as S2.
  { destruct (sNormals h).
    - apply bind_Ok in H2 as (n & _ & H2).
      destruct (read reader1 12 (bytes_of_xyz n)). injection H2 as <- <-.
      unfold same_cache; simpl. tauto.
    - injection H2 as <- <-. unfold same_cache; simpl. tauto. }
  assert (same_cache r2 r3) as S3.
  { destruct (sColors h).
    - destruct (read reader2 3 (bytes_of_rgb color)) as [bs3 rd3].
      apply bind_Ok in H3 as (e0 & _ & H3).
      apply bind_Ok in H3 as (e1 & _ & H3).
      apply bind_Ok in H3 as (e2 & _ & H3).
      apply bind_Ok in H3 as (e3 & _ & H3).
      injection H3 as <- <- <-. unfold same_cache; simpl. tauto.
    - injection H3 as <- <- <-. apply same_cache_refl. }
  assert (same_cache r3 r4) as S4.
  { destruct (sViews h).
    - apply bind_Ok in H4 as (v & _ & H4).
      destruct (read reader3 1 [v]). injection H4 as <- <-.
      unfold same_cache; simpl. tauto.
    - injection H4 as <- <-. apply same_cache_refl. }
  assert (same_cache r4 r5) as S5.
  { destruct (sLabels h).
    - apply bind_Ok in H5 as (v & _ & H5).
      destruct (read reader4 1 [v]). injection H5 as <- <-.
      unfold same_cache; simpl. tauto.
    - injection H5 as <- <-. apply same_cache_refl. }
  eauto using same_cache_trans.
Qed.

Lemma read_ascii_record_cache `{FormattedInput} (h : schema) (i : nat) s s' :
  read_ascii_record h i s = Ok s' -> same_cache (bSet s) (bSet s').
Proof.
  destruct s as [reader r b]. unfold read_ascii_record.
  intros Hr.
  apply bind_Ok in Hr as (p & _ & Hr).
  destruct (extract_xyz reader p) as [p' reader1].
  apply bind_Ok in Hr as ([reader2 r2] & H2 & Hr).
  apply bind_Ok in Hr as ([[reader3 r3] b3] & H3 & Hr).
  apply bind_Ok in Hr as ([[reader4 r4] b4] & H4 & Hr).
  apply bind_Ok in Hr as ([[reader5 r5] b5] & H5 & Hr).
  injection Hr as <-. simpl.
  assert (same_cache r r2) as S2.
  { destruct (sNormals h).
    - apply bind_Ok in H2 as (n & _ & H2).
      destruct (extract_xyz reader1 n). injection H2 as <- <-.
      unfold same_cache; simpl. tauto.
    - injection H2 as <- <-. unfold same_cache; simpl. tauto. }
  assert (same_cache r2 r3) as S3.
  { destruct (sColors h).
    - apply bind_Ok in H3 as (e0 & _ & H3).
      destruct (read_uint16 reader2 b) as [b1 rd1].
      apply bind_Ok in H3 as (v1 & _ & H3).
      apply bind_Ok in H3 as (e1 & _ & H3).
      destruct (read_uint16 rd1 b1) as [b2 rd2].
      apply bind_Ok in H3 as (v2 & _ & H3).
      apply bind_Ok in H3 as (e2 & _ & H3).
      destruct (read_uint16 rd2 b2) as [b6 rd3].
      apply bind_Ok in H3 as (v3 & _ & H3).
      apply bind_Ok in H3 as (e3 & _ & H3).
      injection H3 as <- <- <-. unfold same_cache; simpl. tauto.
    - injection H3 as <- <- <-. apply same_cache_refl. }
  assert (same_cache r3 r4) as S4.
  { destruct (sViews h).
    - apply bind_Ok in H4 as (v & _ & H4).
      destruct (read_uint16 reader3 b3).
      apply bind_Ok in H4 as (v4 & _ & H4). injection H4 as <- <- <-.
      unfold same_cache; simpl. tauto.
    - injection H4 as <- <- <-. apply same_cache_refl. }
  assert (same_cache r4 r5) as S5.
  { destruct (sLabels h).
    - apply bind_Ok in H5 as (v & _ & H5).
      destruct (read_uint16 reader4 b4).
      apply bind_Ok in H5 as (v5 & _ & H5). injection H5 as <- <- <-.
      unfold same_cache; simpl. tauto.
    - injection H5 as <- <- <-. apply same_cache_refl. }
  eauto using same_cache_trans.
Qed.

Lemma for_records_cache {T : Type}
  (step : nat -> body_state T -> outcome (body_state T)) :
  (forall i s s', step i s = Ok s' -> same_cache (bSet s) (bSet s')) ->
  forall n i s s', for_records step n i s = Ok s' -> same_cache (bSet s) (bSet s').
Proof.
  intros Hstep. induction n as [|n IH]; intros i s s' Hr; simpl in Hr.
  - injection Hr as <-. apply same_cache_refl.
  - apply bind_Ok in Hr as (s1 & H1 & Hr).
    eauto using same_cache_trans.
Qed.

Lemma allocate_cache `{Memory} (h : schema) (r r' : PointSet) :
  allocate h r = Ok r' -> same_cache r r'.
Proof.
  unfold allocate. intros Hr.
  apply bind_Ok in Hr as (p & Hp & Hr).
  apply bind_Ok in Hr as (r1 & H1 & Hr).
  apply bind_Ok in Hr as (r2 & H2 & Hr).
  apply bind_Ok in Hr as (r3 & H3 & Hr).
  destruct (sNormals h), (sColors h), (sViews h), (sLabels h);
    repeat match goal with
    | H : (resize _ _ _ _ ≫= _) = Ok _ |- _ =>
        let v := fresh "v" in let Hv := fresh "Hv" in
        apply bind_Ok in H as (v & Hv & H)
    | H : Ok _ = Ok _ |- _ => injection H as H; subst
    end;
    unfold same_cache; simpl; tauto.
Qed.

(** X11 ([fastPlyReadPointSet]): whatever the file, a load that returns
    gives a data set in its constructed state outside the columns: the
    point map is empty, no index is built and no spacing is cached. *)
Theorem loaded_data_set_is_fresh `{FormattedInput} `{Memory} color0
  (fs : filesystem) (filename : string) (r : PointSet) :
  fastPlyReadPointSet color0 fs filename = Ok r ->
  pointMap r = [] /\ kdTree r = false /\ m_spacing r = double_minus_1.
Proof.
  intros Hr.
  unfold fastPlyReadPointSet in Hr. destruct (fs !! filename); [ | discriminate ].
  apply bind_Ok in Hr as ([h reader] & _ & Hr).
  apply bind_Ok in Hr as (r0 & Ha & Hr).
  apply allocate_cache in Ha.
  assert (same_cache r0 r) as Hb.
  { unfold read_body in Hr. destruct (ascii h);
      apply bind_Ok in Hr as (s & Hs & Hr); injection Hr as <-.
    - exact (for_records_cache _ (read_ascii_record_cache h) _ _ _ _ Hs).
    - exact (for_records_cache _ (read_binary_record_cache h) _ _ _ _ Hs). }
  destruct (same_cache_trans _ _ _ Ha Hb) as (<- & <- & <-). repeat split.
Qed.

Lemma loaded_data_set_is_fresh_witness :
  pointMap (reloaded full) = [] /\ kdTree (reloaded full) = false
  /\ m_spacing (reloaded full) = double_minus_1.
Proof.
  apply (@loaded_data_set_is_fresh failing_input ample_memory rgb_zero
           (on_disk full "full.ply") "full.ply" (reloaded full)).
  vm_compute. reflexivity.
Defined.

(** X12 ([fastPlyReadPointSet], the binary record loop): for a data set
    that satisfies the column invariant and has at most 2^31 - 1 points,
    the file [fastPlySavePointSet] sends, cut after [k] whole records,
    still loads when the columns of the declared size are allocated, with
    the declared number of points: the [k] records, then positions,
    normals, views and labels at zero and, in the colour column, the last
    colour that was read (or the bytes of the uninitialised [color] when
    [k = 0]). *)
Theorem cut_file_repeats_last_colour `{FormattedInput} `{Memory} color0
  (pSet : PointSet) (fs : filesystem) (filename : string) (k : nat) :
  columns_ok pSet ->
  count pSet <= INT_MAX ->
  (k <= length (points pSet))%nat ->
  columns_allocate (schema_of pSet) ->
  fastPlyReadPointSet color0
    (<[filename := ply_header pSet ++ body_bytes pSet 0 k]> fs) filename
  = Ok (cut_read pSet k (length (points pSet) - k)%nat (scratch_after pSet color0 0 k)).
Proof. apply file_cut_after_records. Qed.

Lemma cut_file_repeats_last_colour_witness :
  fastPlyReadPointSet (H := failing_input) (H0 := ample_memory) rgb_zero
    (<["full.ply" := ply_header full ++ body_bytes full 0 1]> ∅) "full.ply"
  = Ok (mkPointSet [p1; xyz_zero] [grey; grey] [p3; xyz_zero] [to_uint8 2; x00]
          [to_uint8 1; x00] [] false double_minus_1).
Proof.
  apply (@cut_file_repeats_last_colour failing_input ample_memory rgb_zero full ∅
           "full.ply" 1).
  - unfold columns_ok, column_ok. simpl. tauto.
  - vm_compute. discriminate.
  - simpl. lia.
  - apply ample_columns_allocate.
Defined.

Lemma column_long {A B : Type} (pts : list A) (col : list B) :
  long_enough pts col -> (0 <? Z.of_nat (length col)) = true ->
  (length pts <= length col)%nat.
Proof.
  intros [E | E] Hc; [ | exact E ]. rewrite E in Hc. discriminate Hc.
Qed.

Lemma write_record_long (pSet : PointSet) (i : nat) :
  columns_long_enough pSet -> (i < length (points pSet))%nat ->
  write_record pSet i = Ok (record_bytes pSet i).
Proof.
  intros (Hn & Hc & Hv & Hl) Hi. unfold write_record, record_bytes.
  rewrite (at_nth (points pSet) i xyz_zero Hi). simpl.
  unfold hasNormals, hasColors, hasViews, hasLabels.
  destruct (0 <? Z.of_nat (length (normals pSet))) eqn:En;
    [ rewrite (at_nth (normals pSet) i xyz_zero)
        by (pose proof (column_long _ _ Hn En); lia) | ]; simpl;
  (destruct (0 <? Z.of_nat (length (colors pSet))) eqn:Ec;
    [ rewrite (at_nth (colors pSet) i rgb_zero)
        by (pose proof (column_long _ _ Hc Ec); lia) | ]); simpl;
  (destruct (0 <? Z.of_nat (length (views pSet))) eqn:Ev;
    [ rewrite (at_nth (views pSet) i x00)
        by (pose proof (column_long _ _ Hv Ev); lia) | ]); simpl;
  (destruct (0 <? Z.of_nat (length (labels pSet))) eqn:El;
    [ rewrite (at_nth (labels pSet) i x00)
        by (pose proof (column_long _ _ Hl El); lia) | ]); simpl;
  reflexivity.
Qed.

Lemma write_records_long (pSet : PointSet) :
  columns_long_enough pSet ->
  forall n i o, (i + n <= length (points pSet))%nat ->
    write_records pSet n i o = Ok (o ++ body_bytes pSet i n).
Proof.
  intros Hok. induction n as [|n IH]; intros i o Hi; simpl.
  - unfold body_bytes. simpl. rewrite app_nil_r. reflexivity.
  - rewrite write_record_long by (assumption || lia). simpl.
    rewrite IH by lia. unfold body_bytes. simpl. rewrite <- app_assoc. reflexivity.
Qed.

Lemma length_record_bytes (pSet : PointSet) (i : nat) :
  Z.of_nat (length (record_bytes pSet i)) = record_size (schema_of pSet).
Proof.
  unfold record_bytes, record_size, schema_of. cbn [sNormals sColors sViews sLabels].
  rewrite !length_app, length_bytes_of_xyz.
  destruct (hasNormals pSet), (hasColors pSet), (hasViews pSet), (hasLabels pSet);
    rewrite ?length_bytes_of_xyz, ?length_bytes_of_rgb; simpl; lia.
Qed.

Lemma length_body_bytes (pSet : PointSet) (n i : nat) :
  Z.of_nat (length (body_bytes pSet i n)) = Z.of_nat n * record_size (schema_of pSet).
Proof.
  revert i. induction n as [|n IH]; intros i.
  - reflexivity.
  - unfold body_bytes in *. cbn [seq flat_map]. rewrite length_app, Nat2Z.inj_add.
    rewrite length_record_bytes, IH. lia.
Qed.

(** X13 ([fastPlySavePointSet]): the output is the header followed by one
    record of fixed size for each point: 12 bytes, and 12, 3, 1, 1 more for
    each of normals, colours, views, labels that is present. *)
Theorem written_file_size (pSet : PointSet) :
  columns_long_enough pSet ->
  exists o : list byte,
    ply_bytes pSet = Ok o /\
    Z.of_nat (length o)
    = Z.of_nat (length (ply_header pSet)) + count pSet * record_size (schema_of pSet).
Proof.
  intros Hok. eexists. split.
  - unfold ply_bytes. apply write_records_long; [ assumption | lia ].
  - rewrite length_app, Nat2Z.inj_add, length_body_bytes. reflexivity.
Qed.

Lemma written_file_size_witness :
  exists o : list byte,
    ply_bytes full = Ok o /\
    Z.of_nat (length o) = Z.of_nat (length (ply_header full)) + 2 * 29.
Proof.
  apply (written_file_size full).
  unfold columns_long_enough, long_enough. simpl. repeat split; right; lia.
Defined.

Lemma write_record_inv (pSet : PointSet) (i : nat) :
  match write_record pSet i with
  | Ok _ =>
      (hasNormals pSet = true -> (i < length (normals pSet))%nat) /\
      (hasColors pSet = true -> (i < length (colors pSet))%nat) /\
      (hasViews pSet = true -> (i < length (views pSet))%nat) /\
      (hasLabels pSet = true -> (i < length (labels pSet))%nat)
  | UB => True
  | _ => False
  end.
Proof.
  unfold write_record, at_.
  destruct (points pSet !! i) eqn:Ep; simpl; [ | trivial ].
  destruct (hasNormals pSet);
    [ destruct (normals pSet !! i) eqn:En; simpl; [ | trivial ] | simpl ];
  (destruct (hasColors pSet);
    [ destruct (colors pSet !! i) eqn:Ec; simpl; [ | trivial ] | simpl ]);
  (destruct (hasViews pSet);
    [ destruct (views pSet !! i) eqn:Ev; simpl; [ | trivial ] | simpl ]);
  (destruct (hasLabels pSet);
    [ destruct (labels pSet !! i) eqn:El; simpl; [ | trivial ] | simpl ]);
  repeat split; intros; eauto using lookup_lt_Some; discriminate.
Qed.

Lemma write_records_inv (pSet : PointSet) :
  forall n i o,
    match write_records pSet n i o with
    | Ok _ =>
        forall j, (i <= j < i + n)%nat ->
          (hasNormals pSet = true -> (j < length (normals pSet))%nat) /\
          (hasColors pSet = true -> (j < length (colors pSet))%nat) /\
          (hasViews pSet = true -> (j < length (views pSet))%nat) /\
          (hasLabels pSet = true -> (j < length (labels pSet))%nat)
    | UB => True
    | _ => False
    end.
Proof.
  induction n as [|n IH]; intros i o; cbn [write_records].
  - intros j Hj. lia.
  - pose proof (write_record_inv pSet i) as Hi.
    destruct (write_record pSet i) as [rec| | |]; simpl; try exact Hi.
    specialize (IH (S i) (o ++ rec)).
    destruct (write_records pSet n (S i) (o ++ rec)); try exact IH.
    intros j Hj. destruct (decide (j = i)) as [-> | Hne]; [ exact Hi | ].
    apply IH. lia.
Qed.

Lemma long_enough_of_last {A B : Type} (pts : list A) (col : list B) :
  ((0 <? Z.of_nat (length col)) = true ->
   forall j, (j < length pts)%nat -> (j < length col)%nat) ->
  long_enough pts col.
Proof.
  intros Hj. unfold long_enough.
  destruct (0 <? Z.of_nat (length col)) eqn:E.
  - right. destruct (length pts) as [|n] eqn:En; [ lia | ].
    specialize (Hj eq_refl n). lia.
  - left. apply Z.ltb_ge in E. lia.
Qed.

(** X14 ([fastPlySavePointSet]): the call returns exactly when every
    optional column that is present holds at least as many elements as
    [points]; the bytes it has then sent to its stream are the header and
    the first [points.size()] elements of each column, and the file
    system holds what the stream has kept of them: it is unchanged when
    the stream did not open, which the call does not report.  With a
    shorter column the call reads outside a vector.  It never throws. *)
Theorem fastPlySavePointSet_needs_long_columns `{Storage} (pSet : PointSet)
  (fs : filesystem) (filename : string) :
  match fastPlySavePointSet pSet fs filename with
  | Ok fs' =>
      columns_long_enough pSet /\
      fs' = match written fs filename (saved_bytes pSet) with
            | Some content => <[filename := content]> fs
            | None => fs
            end
  | UB => ~ columns_long_enough pSet
  | _ => False
  end.
Proof.
  unfold fastPlySavePointSet, ply_bytes.
  pose proof (write_records_inv pSet (length (points pSet)) 0 (ply_header pSet)) as Hinv.
  destruct (write_records pSet (length (points pSet)) 0 (ply_header pSet))
    as [o| | |] eqn:Hw; simpl; try exact Hinv.
  - assert (columns_long_enough pSet) as Hlong.
    { unfold columns_long_enough.
      repeat split; apply long_enough_of_last; intros Hc j Hj;
        apply (Hinv j); (lia || exact Hc). }
    split; [ exact Hlong | ].
    rewrite write_records_long in Hw by (assumption || lia).
    injection Hw as <-. reflexivity.
  - intros Hlong. rewrite write_records_long in Hw by (assumption || lia).
    discriminate Hw.
Qed.

Lemma read_labels_ok (pSet : PointSet) :
  forall n idx, (idx + n <= length (labels pSet))%nat -> read_labels pSet n idx = Ok tt.
Proof.
  induction n as [|n IH]; intros idx Hn; [ reflexivity | ].
  cbn [read_labels]. destruct (at_ok (labels pSet) idx) as [l ->]; [ lia | ].
  rewrite bind_ret_l. apply IH. lia.
Qed.

Lemma read_labels_ub (pSet : PointSet) :
  forall n idx, (0 < n)%nat -> (length (labels pSet) < idx + n)%nat ->
    read_labels pSet n idx = UB.
Proof.
  induction n as [|n IH]; intros idx Hn Hl; [ lia | ].
  cbn [read_labels]. unfold at_.
  destruct (labels pSet !! idx) as [l|] eqn:E; [ | reflexivity ].
  apply lookup_lt_Some in E. rewrite bind_ret_l. apply IH; lia.
Qed.

(** X15 ([savePointSet]): the loop over the labels makes the call safe
    exactly when [labels] holds at least as many elements as [points]; then
    the call is [fastPlySavePointSet] for the extension [.ply] and
    [pdalSavePointSet] for any other; otherwise it reads outside the
    vector and nothing is written. *)
Theorem savePointSet_reads_every_label `{Pdal} `{Storage} (pSet : PointSet)
  (fs : filesystem) (filename : string) :
  savePointSet pSet fs filename
  = if (length (points pSet) <=? length (labels pSet))%nat
    then if bool_decide (extension filename = str ".ply")
         then fastPlySavePointSet pSet fs filename
         else pdalSavePointSet pSet fs filename
    else UB.
Proof.
  unfold savePointSet.
  destruct (Nat.leb_spec (length (points pSet)) (length (labels pSet))) as [Hle | Hlt].
  - rewrite read_labels_ok by lia. reflexivity.
  - rewrite read_labels_ub by lia. reflexivity.
Qed.

Lemma labels_present (r : PointSet) :
  columns_ok r -> hasLabels r = true -> length (labels r) = length (points r).
Proof.
  intros (_ & _ & _ & [E | E]) Hlab; [ | exact E ].
  unfold hasLabels in Hlab. rewrite E in Hlab. discriminate Hlab.
Qed.

Lemma remap_labels_fallback `{Json} `{Labels} (fs : filesystem) (filename : string)
  (r : PointSet) :
  columns_ok r -> hasLabels r = true ->
  getClassMappings fs filename = Ok ∅ ->
  remap_labels fs filename r = Ok (set_labels r (map asprs_label (labels r))).
Proof.
  intros Hcols Hlab Hmap. pose proof (labels_present r Hcols Hlab) as Hlen.
  unfold remap_labels. rewrite Hlab, Hmap, bind_ret_l.
  rewrite bool_decide_true by reflexivity. cbn [negb].
  rewrite relabel_loop_map by (simpl; lia).
  rewrite take_0, drop_0. reflexivity.
Qed.

(** X16 ([readPointSet], the branch without mappings): when no
    classification is found for the file, every label of the loaded data
    set is replaced by its image under the table of external codes,
    narrowed to [uint8_t]; nothing else changes. *)
Theorem fallback_table_replaces_every_label
  `{FormattedInput} `{Pdal} `{Json} `{Labels} `{Memory}
  color0 (fs : filesystem) (filename : string) (r : PointSet) :
  (if bool_decide (extension filename = str ".ply")
   then fastPlyReadPointSet color0 fs filename
   else pdalReadPointSet fs filename) = Ok r ->
  columns_ok r ->
  hasLabels r = true ->
  getClassMappings fs filename = Ok ∅ ->
  readPointSet color0 fs filename
  = Ok (set_labels r (map asprs_label (labels r))).
Proof.
  intros Hload Hcols Hlab Hmap. unfold readPointSet. rewrite Hload, bind_ret_l.
  apply remap_labels_fallback; assumption.
Qed.

Lemma fallback_table_replaces_every_label_witness :
  readPointSet (H := failing_input) (H0 := without_pdal) (H1 := json_ground)
               (H2 := codes_five) (H3 := ample_memory) rgb_zero
               (on_disk labelled "cloud_set.ply") "cloud_set.ply"
  = Ok (set_labels labelled [to_uint8 2; to_uint8 0; to_uint8 2]).
Proof.
  apply (@fallback_table_replaces_every_label failing_input without_pdal json_ground
           codes_five ample_memory rgb_zero (on_disk labelled "cloud_set.ply") "cloud_set.ply"
           labelled).
  - vm_compute. reflexivity.
  - unfold columns_ok, column_ok. simpl. tauto.
  - reflexivity.
  - vm_compute. reflexivity.
Defined.

(** X17 ([savePointSet], [readPointSet]): the public pair does not return
    the labels it was given: a labelled data set saved under a [.ply] name
    under which the stream opens and takes the bytes, and next to which no
    classification is found, comes back through [readPointSet], when the
    columns are allocated, with the table of external codes applied to
    each label. *)
Theorem save_then_read_remaps_labels
  `{FormattedInput} `{Pdal} `{Json} `{Labels} `{Memory} `{Storage}
  color0 (pSet : PointSet) (fs : filesystem) (filename : string) :
  columns_ok pSet ->
  hasLabels pSet = true ->
  count pSet <= INT_MAX ->
  extension filename = str ".ply" ->
  written fs filename (saved_bytes pSet) = Some (saved_bytes pSet) ->
  columns_allocate (schema_of pSet) ->
  getClassMappings (saved_files pSet fs filename) filename = Ok ∅ ->
  savePointSet pSet fs filename = Ok (saved_files pSet fs filename) /\
  readPointSet color0 (saved_files pSet fs filename) filename
  = Ok (set_labels (reloaded pSet) (map asprs_label (labels pSet))).
Proof.
  intros Hcols Hlab Hn Hext Hw Hmem Hmap.
  pose proof (labels_present pSet Hcols Hlab) as Hlen. split.
  - unfold savePointSet. rewrite read_labels_ok by lia. rewrite bind_ret_l.
    rewrite bool_decide_true by exact Hext.
    rewrite fastPlySavePointSet_ok by exact Hcols. rewrite Hw. reflexivity.
  - unfold readPointSet. rewrite bool_decide_true by exact Hext.
    unfold saved_files in *. rewrite fastPlyReadPointSet_saved by auto.
    apply Z.leb_le in Hn. rewrite Hn, bind_ret_l.
    apply (remap_labels_fallback _ filename (reloaded pSet)); assumption.
Qed.

Lemma save_then_read_remaps_labels_witness :
  savePointSet (H := without_pdal) (H0 := open_storage) labelled ∅ "cloud_set.ply"
  = Ok (saved_files labelled ∅ "cloud_set.ply") /\
  readPointSet (H := failing_input) (H0 := without_pdal) (H1 := json_ground)
               (H2 := codes_five) (H3 := ample_memory) rgb_zero
               (saved_files labelled ∅ "cloud_set.ply") "cloud_set.ply"
  = Ok (set_labels (reloaded labelled) [to_uint8 2; to_uint8 0; to_uint8 2]).
Proof.
  apply (@save_then_read_remaps_labels failing_input without_pdal json_ground
           codes_five ample_memory open_storage rgb_zero labelled ∅ "cloud_set.ply").
  - unfold columns_ok, column_ok. simpl. tauto.
  - reflexivity.
  - vm_compute. discriminate.
  - vm_compute. reflexivity.
  - reflexivity.
  - apply ample_columns_allocate.
  - vm_compute. reflexivity.
Defined.

(** X18 ([readPointSet], [getClassMappings]): for a file name shorter than
    nine characters, a load that finds labels ends with [std::out_of_range]:
    [getClassMappings] looks for [_eval] nine characters before the end of
    the name, at a position that has wrapped around.  Without labels the
    loaded data set is returned. *)
Theorem short_file_name_throws_on_labels
  `{FormattedInput} `{Pdal} `{Json} `{Labels} `{Memory}
  color0 (fs : filesystem) (filename : string) (r : PointSet) :
  (length (str filename) < 9)%nat ->
  (if bool_decide (extension filename = str ".ply")
   then fastPlyReadPointSet color0 fs filename
   else pdalReadPointSet fs filename) = Ok r ->
  readPointSet color0 fs filename
  = if hasLabels r then Throw (out_of_range "basic_string::substr") else Ok r.
Proof.
  intros Hlen Hload. unfold readPointSet. rewrite Hload, bind_ret_l.
  unfold remap_labels. destruct (hasLabels r); [ | reflexivity ].
  unfold getClassMappings.
  assert (substr (str filename) (Z.of_nat (length (str filename)) - 5 - 4) 5
          = Throw (out_of_range "basic_string::substr")) as ->; [ | reflexivity ].
  unfold substr, to_size_t.
  assert ((Z.of_nat (length (str filename)) - 5 - 4) mod 2 ^ 64
          = Z.of_nat (length (str filename)) - 9 + 2 ^ 64) as ->.
  { symmetry. apply (Z.mod_unique _ _ (-1)); lia. }
  destruct (Z.ltb_spec (Z.of_nat (length (str filename)))
              (Z.of_nat (length (str filename)) - 9 + 2 ^ 64)); [ reflexivity | lia ].
Qed.

Lemma short_file_name_throws_on_labels_witness :
  readPointSet (H := failing_input) (H0 := without_pdal) (H1 := json_ground)
               (H2 := codes_ground) (H3 := ample_memory) rgb_zero
               (on_disk labelled "a.ply") "a.ply"
  = Throw (out_of_range "basic_string::substr").
Proof.
  apply (@short_file_name_throws_on_labels failing_input without_pdal json_ground
           codes_ground ample_memory rgb_zero (on_disk labelled "a.ply") "a.ply" labelled).
  - simpl. lia.
  - vm_compute. reflexivity.
Defined.

(** ** [appendPoint] and [trackPoint] *)

(** X19 ([appendPoint], [trackPoint]): after a point of [src] has been
    appended to a set that holds as many colours as points, [trackPoint]
    stores in [src.pointMap] the index at which the copy of the position
    and of the colour is found. *)
Theorem tracked_index_designates_the_copy (dst src : PointSet) (idx : nat)
  (p : array3 float_repr) (c : array3 byte) :
  points src !! idx = Some p -> colors src !! idx = Some c ->
  (idx < length (pointMap src))%nat ->
  length (colors dst) = length (points dst) ->
  Z.of_nat (length (points dst)) < 2 ^ 64 ->
  exists (dst' src' : PointSet) (j : nat),
    appendPoint dst src idx = Ok dst' /\
    trackPoint dst' src idx = Ok src' /\
    pointMap src' !! idx = Some (Z.of_nat j) /\
    points dst' !! j = Some p /\ colors dst' !! j = Some c.
Proof.
  intros Hp Hc Hm Hcol Hsz.
  exists (set_colors (set_points dst (points dst ++ [p])) (colors dst ++ [c])).
  eexists. exists (length (points dst)).
  split; [ | split; [ | split; [ | split ] ] ].
  - unfold appendPoint, at_. rewrite Hp, Hc. reflexivity.
  - unfold trackPoint. destruct (at_ok (pointMap src) idx Hm) as [x ->].
    rewrite bind_ret_l. reflexivity.
  - cbn [pointMap set_pointMap]. rewrite list_lookup_insert_eq by exact Hm.
    f_equal. unfold count, to_size_t. cbn [points set_colors set_points].
    rewrite length_app. cbn [length]. rewrite Z.mod_small by lia. lia.
  - cbn [points set_colors set_points].
    rewrite lookup_app_r by lia. rewrite Nat.sub_diag. reflexivity.
  - cbn [colors set_colors set_points].
    rewrite lookup_app_r by lia. rewrite Hcol, Nat.sub_diag. reflexivity.
Qed.

Lemma tracked_index_designates_the_copy_witness :
  exists (dst' src' : PointSet) (j : nat),
    appendPoint coloured (set_pointMap coloured [7]) 0 = Ok dst' /\
    trackPoint dst' (set_pointMap coloured [7]) 0 = Ok src' /\
    pointMap src' !! 0%nat = Some (Z.of_nat j) /\
    points dst' !! j = Some p1 /\ colors dst' !! j = Some grey.
Proof.
  apply (tracked_index_designates_the_copy coloured (set_pointMap coloured [7]) 0 p1 grey);
    try reflexivity; simpl; lia.
Defined.

(** ** [PointSet::spacing]: the histogram and its most frequent bucket *)

Lemma fold_most_frequent (entries : list (Z * Z)) :
  forall (d0 m0 : Z),
    let r := fold_left (fun '(d, max_val) '(k, v) =>
                          if max_val <? v then (k, v) else (d, max_val))
                       entries (d0, m0) in
    (Forall (fun e => e.2 <= m0) entries /\ r = (d0, m0))
    \/ (exists pre post,
          entries = pre ++ r :: post /\ m0 < r.2 /\
          Forall (fun e => e.2 < r.2) pre /\ Forall (fun e => e.2 <= r.2) post).
Proof.
  induction entries as [|[k v] es IH]; intros d0 m0; cbn zeta.
  - left. split; [ constructor | reflexivity ].
  - cbn [fold_left]. destruct (Z.ltb_spec m0 v) as [Hlt | Hge].
    + right. destruct (IH k v) as [[Hall ->] | (pre & post & He & Hm & Hpre & Hpost)].
      * exists [], es. repeat split; [ exact Hlt | constructor | exact Hall ].
      * exists ((k, v) :: pre), post. rewrite He at 1.
        repeat split; [ lia | | exact Hpost ].
        constructor; [ exact Hm | exact Hpre ].
    + destruct (IH d0 m0) as [[Hall ->] | (pre & post & He & Hm & Hpre & Hpost)].
      * left. split; [ | reflexivity ]. constructor; [ exact Hge | exact Hall ].
      * right. exists ((k, v) :: pre), post. rewrite He at 1.
        repeat split; [ exact Hm | | exact Hpost ].
        constructor; [ cbn [snd]; lia | exact Hpre ].
Qed.

(** X20 ([PointSet::spacing], lines 60 to 67): over a histogram with
    positive counts the bucket that is chosen holds the greatest count,
    and among buckets of the same count it is the first in the order of
    traversal. *)
Theorem most_frequent_is_first_maximum (entries : list (Z * Z)) :
  entries <> [] ->
  Forall (fun e => 0 < e.2) entries ->
  exists (pre post : list (Z * Z)) (v : Z),
    entries = pre ++ (most_frequent entries, v) :: post /\
    Forall (fun e => e.2 < v) pre /\ Forall (fun e => e.2 <= v) post.
Proof.
  intros Hne Hpos. unfold most_frequent.
  destruct (fold_most_frequent entries 0 0) as [[Hall _] | (pre & post & He & _ & Hpre & Hpost)].
  - destruct entries as [|e es]; [ congruence | ].
    inversion Hall; subst. inversion Hpos; subst. lia.
  - destruct (fold_left _ entries (0, 0)) as [d m]. exists pre, post, m. auto.
Qed.

Lemma most_frequent_is_first_maximum_witness :
  exists (pre post : list (Z * Z)) (v : Z),
    [(3, 1); (7, 4); (5, 4); (9, 2)]
    = pre ++ (most_frequent [(3, 1); (7, 4); (5, 4); (9, 2)], v) :: post /\
    Forall (fun e => e.2 < v) pre /\ Forall (fun e => e.2 <= v) post.
Proof.
  apply most_frequent_is_first_maximum; [ discriminate | ].
  repeat constructor.
Defined.

Lemma total_count_comm (j1 j2 z1 z2 y : Z) : z1 + (z2 + y) = z2 + (z1 + y).
Proof. lia. Qed.

Lemma total_count_insert (m : gmap Z Z) (k v : Z) :
  m !! k = None -> total_count (<[k := v]> m) = v + total_count m.
Proof.
  intros Hk. unfold total_count.
  apply (map_fold_insert_L (fun _ v acc => v + acc)); [ | exact Hk ].
  intros. lia.
Qed.

Lemma total_count_lookup (m : gmap Z Z) (k v : Z) :
  m !! k = Some v -> total_count m = v + total_count (delete k m).
Proof.
  intros Hk. unfold total_count.
  apply (map_fold_delete_L (fun _ v acc => v + acc)); [ | exact Hk ].
  intros. lia.
Qed.

Lemma total_count_nonneg (m : gmap Z Z) :
  map_Forall (fun _ v => 1 <= v) m -> 0 <= total_count m.
Proof.
  induction m as [|k v m Hk _ IH] using map_first_key_ind.
  - intros _. unfold total_count. rewrite map_fold_empty. lia.
  - intros Hall. rewrite total_count_insert by exact Hk.
    apply map_Forall_insert in Hall as [Hv Hm]; [ | exact Hk ].
    specialize (IH Hm). lia.
Qed.

Lemma bump_total (m : gmap Z Z) (k : Z) :
  map_Forall (fun _ v => 1 <= v) m -> total_count m + 1 < 2 ^ 64 ->
  total_count (bump m k) = total_count m + 1
  /\ map_Forall (fun _ v => 1 <= v) (bump m k).
Proof.
  intros Hall Hsz. unfold bump. destruct (m !! k) as [n|] eqn:Hk.
  - pose proof (Hall k n Hk) as Hn. cbn beta in Hn.
    pose proof (total_count_lookup m k n Hk) as Ht.
    assert (0 <= total_count (delete k m)) as Hd.
    { apply total_count_nonneg. apply map_Forall_delete. exact Hall. }
    assert (to_size_t (n + 1) = n + 1) as ->.
    { unfold to_size_t. apply Z.mod_small. lia. }
    split.
    + rewrite <- insert_delete_eq.
      rewrite total_count_insert by apply lookup_delete_eq. lia.
    + apply map_Forall_insert_2; [ lia | exact Hall ].
  - split.
    + rewrite total_count_insert by exact Hk. lia.
    + apply map_Forall_insert_2; [ lia | exact Hall ].
Qed.

Lemma sample_loop_total `{SpacingEnv} (pts : list (array3 float_repr))
  (kNeighbors cnt : Z) :
  forall (n i : nat) (sqr_dists : list float) (m0 m : gmap Z Z),
    map_Forall (fun _ v => 1 <= v) m0 ->
    total_count m0 + Z.of_nat n < 2 ^ 64 ->
    sample_loop pts kNeighbors cnt n i sqr_dists m0 = Ok m ->
    total_count m = total_count m0 + Z.of_nat n.
Proof.
  induction n as [|n IH]; intros i sqr_dists m0 m Hall Hsz Hr.
  - injection Hr as <-. lia.
  - cbn [sample_loop] in Hr.
    apply bind_Ok in Hr as (p & _ & Hr).
    apply bind_Ok in Hr as (sum & _ & Hr).
    apply bind_Ok in Hr as (k & _ & Hr).
    destruct (bump_total m0 k Hall) as [Ht Hall']; [ lia | ].
    apply IH in Hr; [ | exact Hall' | lia ]. lia.
Qed.

(** X21 ([PointSet::spacing], lines 31 to 57): when the sampling loop
    returns, the counts of the histogram add up to the number of samples:
    every sample is counted in exactly one bucket. *)
Theorem histogram_counts_every_sample `{SpacingEnv} (pts : list (array3 float_repr))
  (kNeighbors cnt : Z) (n : nat) (sqr_dists : list float) (m : gmap Z Z) :
  Z.of_nat n < 2 ^ 64 ->
  sample_loop pts kNeighbors cnt n 0 sqr_dists ∅ = Ok m ->
  total_count m = Z.of_nat n.
Proof.
  intros Hn Hr.
  apply sample_loop_total in Hr.
  - rewrite Hr. unfold total_count. rewrite map_fold_empty. lia.
  - apply map_Forall_empty.
  - unfold total_count. rewrite map_fold_empty. lia.
Qed.

Lemma histogram_counts_every_sample_witness :
  total_count {[ 67 := 3 ]} = 3.
Proof.
  apply (@histogram_counts_every_sample unit_grid [p1; p2; p3] 3 4 3
           (replicate 4 (S754_zero false)) {[ 67 := 3 ]}).
  - lia.
  - vm_compute. reflexivity.
Defined.

(** X22 ([PointSet::spacing], line 35): the statistic of one sample is the
    sum of the square roots of the squared distances at ranks 1 to
    [kNeighbors - 1], divided by [kNeighbors]: rank 0, the query point
    itself, and rank [kNeighbors] are left out. *)
Theorem sample_statistic_sums_ranks_below_k (sqr_dists : list float) (kNeighbors : Z) :
  1 <= kNeighbors <= INT_MAX -> kNeighbors < Z.of_nat (length sqr_dists) ->
  sample_statistic sqr_dists kNeighbors
  = Ok (float_div
          (fold_left (fun s d => float_add s (float_sqrt d))
                     (take (Z.to_nat (kNeighbors - 1)) (drop 1 sqr_dists))
                     (S754_zero false))
          (float_of_Z kNeighbors)).
Proof. apply sample_statistic_window. Qed.

Lemma sample_statistic_sums_ranks_below_k_witness :
  sample_statistic (map float_of_Z [0; 4; 9; 16]) 3
  = Ok (float_div (float_of_Z 5) (float_of_Z 3)).
Proof.
  apply (sample_statistic_sums_ranks_below_k (map float_of_Z [0; 4; 9; 16]) 3).
  - unfold INT_MAX. lia.
  - simpl. lia.
Defined.

Lemma getIndex_builds `{SpacingEnv} (pSet : PointSet) :
  (kdTree pSet = false -> buildIndex (points pSet) = Ok tt) ->
  getIndex pSet = Ok (set_kdTree pSet true).
Proof.
  intros Hb. unfold getIndex. destruct pSet as [ps cs ns ls vs pm kd sp]. simpl in *.
  destruct kd; [ reflexivity | ]. rewrite Hb by reflexivity. reflexivity.
Qed.

Lemma sample_statistic_one (sqr_dists : list float) :
  sample_statistic sqr_dists 1 = Ok (S754_zero false).
Proof.
  unfold sample_statistic. change (to_size_t 1) with 1.
  destruct (length sqr_dists); reflexivity.
Qed.

Lemma sample_loop_one `{SpacingEnv} (pts : list (array3 float_repr)) (cnt : Z) :
  forall (n i : nat) (sqr_dists : list float) (m0 : gmap Z Z),
    (forall j, (i <= j < i + n)%nat -> 0 <= randomDis j < Z.of_nat (length pts)) ->
    (forall k v, m0 !! k = Some v -> k = 0) ->
    exists m, sample_loop pts 1 cnt n i sqr_dists m0 = Ok m /\
              forall k v, m !! k = Some v -> k = 0.
Proof.
  induction n as [|n IH]; intros i sqr_dists m0 Hd Hm.
  - exists m0. split; [ reflexivity | exact Hm ].
  - cbn [sample_loop].
    destruct (at_ok pts (Z.to_nat (randomDis i))) as [p ->];
      [ specialize (Hd i ltac:(lia)); lia | ].
    rewrite bind_ret_l, sample_statistic_one, bind_ret_l.
    change (bucket_key (S754_zero false)) with (@Ok Z 0). rewrite bind_ret_l.
    apply IH.
    + intros j Hj. apply Hd. lia.
    + intros k v. unfold bump.
      destruct (m0 !! 0); intros Hk; apply lookup_insert_Some in Hk as [[<- _] | [_ Hk]];
        eauto.
Qed.

Lemma most_frequent_zero_keys (entries : list (Z * Z)) :
  Forall (fun e => e.1 = 0) entries -> most_frequent entries = 0.
Proof.
  intros Hall. unfold most_frequent.
  assert (forall m0, exists m,
            fold_left (fun '(d, max_val) '(k, v) =>
                         if max_val <? v then (k, v) else (d, max_val))
                      entries (0, m0) = (0, m)) as Hfold.
  { induction Hall as [|[k v] es Hk _ IH]; intros m0; [ eauto | ].
    cbn [fold_left]. cbn [fst] in Hk. subst k.
    destruct (m0 <? v); apply IH. }
  destruct (Hfold 0) as [m ->]. reflexivity.
Qed.

(** X23 ([PointSet::spacing] with [kNeighbors = 1]): the inner loop sums
    nothing, every sample falls in bucket 0, and the estimate is the floor
    0.01 for any data set, whatever the points and the index answer; the
    draws only have to be indices of points, and the two work vectors of
    two elements to be allocated. *)
Theorem spacing_with_one_neighbour `{SpacingEnv} `{Memory} (pSet : PointSet) :
  double_eqb (m_spacing pSet) double_minus_1 = true ->
  (kdTree pSet = false -> buildIndex (points pSet) = Ok tt) ->
  (forall i, (i < length (points pSet))%nat -> 0 <= randomDis i < count pSet) ->
  allocates (8 * 2) = true -> allocates (4 * 2) = true ->
  spacing pSet 1
  = Ok (double_0_01, set_m_spacing (set_kdTree pSet true) double_0_01).
Proof.
  intros Hs Hb Hd Ha8 Ha4. unfold spacing. rewrite Hs. cbn [negb].
  rewrite (getIndex_builds pSet Hb), bind_ret_l.
  change (INT_MAX <? 1 + 1) with false.
  change ((2 ^ 63 - 1) / 8 <? to_size_t (1 + 1)) with false.
  change (to_size_t (1 + 1)) with 2. rewrite Ha8, Ha4.
  change (to_size_t 2) with (to_size_t (1 + 1)).
  change ((0 <? 2) && negb (true && true)) with false. cbv iota zeta.
  destruct (sample_loop_one (points (set_kdTree pSet true)) (1 + 1)
              (Z.to_nat (Z.min (count (set_kdTree pSet true)) 10000)) 0
              (replicate (Z.to_nat (1 + 1)) (S754_zero false)) ∅) as (m & -> & Hm).
  { intros j Hj. apply Hd. unfold count in Hj. cbn [points set_kdTree] in *. lia. }
  { intros k v Hk. rewrite lookup_empty in Hk. discriminate Hk. }
  rewrite bind_ret_l.
  rewrite most_frequent_zero_keys; [ reflexivity | ].
  apply Forall_forall. intros [k v] Hin.
  rewrite (traverse_perm m) in Hin. apply elem_of_map_to_list in Hin.
  exact (Hm k v Hin).
Qed.

Lemma spacing_with_one_neighbour_witness :
  spacing (H := unit_grid) (H0 := ample_memory) labelled 1
  = Ok (double_0_01, set_m_spacing (set_kdTree labelled true) double_0_01).
Proof.
  apply (@spacing_with_one_neighbour unit_grid ample_memory labelled).
  - reflexivity.
  - reflexivity.
  - intros i Hi. vm_compute. split; [ discriminate | reflexivity ].
  - reflexivity.
  - reflexivity.
Defined.

(** X24 ([PointSet::spacing] with [kNeighbors <= -2]): the number of
    neighbours asked for, [kNeighbors + 1], is negative and becomes the
    size of a vector: the call throws [std::length_error], on any data set
    whose spacing is not cached. *)
Theorem spacing_with_negative_count_throws `{SpacingEnv} `{Memory}
  (pSet : PointSet) (kNeighbors : Z) :
  double_eqb (m_spacing pSet) double_minus_1 = true ->
  (kdTree pSet = false -> buildIndex (points pSet) = Ok tt) ->
  INT_MIN <= kNeighbors <= -2 ->
  spacing pSet kNeighbors
  = Throw (length_error "cannot create std::vector larger than max_size()").
Proof.
  intros Hs Hb Hk. unfold spacing. rewrite Hs. cbn [negb].
  rewrite (getIndex_builds pSet Hb), bind_ret_l. unfold INT_MIN, INT_MAX in *.
  destruct (Z.ltb_spec 2147483647 (kNeighbors + 1)); [ lia | ].
  assert (to_size_t (kNeighbors + 1) = kNeighbors + 1 + 2 ^ 64) as ->.
  { unfold to_size_t. symmetry. apply (Z.mod_unique _ _ (-1)); lia. }
  change ((2 ^ 63 - 1) / 8) with 1152921504606846975.
  destruct (Z.ltb_spec 1152921504606846975 (kNeighbors + 1 + 2 ^ 64)); [ reflexivity | lia ].
Qed.

Lemma spacing_with_negative_count_throws_witness :
  spacing (H := unit_grid) (H0 := ample_memory) one_point (-2)
  = Throw (length_error "cannot create std::vector larger than max_size()").
Proof.
  apply (@spacing_with_negative_count_throws unit_grid ample_memory one_point (-2));
    [ reflexivity | reflexivity | unfold INT_MIN; lia ].
Defined.

(** X25 ([PointSet::spacing] with [kNeighbors = 0]): on a data set with
    points, once the two work vectors of one element are allocated, the
    first sample divides the empty sum by zero, and the conversion of the
    resulting NaN to [size_t] is undefined. *)
Theorem spacing_with_zero_neighbours `{SpacingEnv} `{Memory} (pSet : PointSet) :
  double_eqb (m_spacing pSet) double_minus_1 = true ->
  (kdTree pSet = false -> buildIndex (points pSet) = Ok tt) ->
  points pSet <> [] ->
  0 <= randomDis 0 < count pSet ->
  allocates (8 * 1) = true -> allocates (4 * 1) = true ->
  spacing pSet 0 = UB.
Proof.
  intros Hs Hb Hne Hd Ha8 Ha4. unfold spacing. rewrite Hs. cbn [negb].
  rewrite (getIndex_builds pSet Hb), bind_ret_l.
  change (INT_MAX <? 0 + 1) with false.
  change ((2 ^ 63 - 1) / 8 <? to_size_t (0 + 1)) with false.
  change (to_size_t (0 + 1)) with 1. rewrite Ha8, Ha4.
  change (to_size_t 1) with (to_size_t (0 + 1)).
  change ((0 <? 1) && negb (true && true)) with false. cbv iota zeta.
  unfold count in *. cbn [points set_kdTree].
  destruct (points pSet) as [|p0 ps] eqn:Ep; [ congruence | ].
  assert (exists n, Z.to_nat (Z.min (Z.of_nat (length (p0 :: ps))) 10000) = S n)
    as [n ->].
  { exists (Z.to_nat (Z.min (Z.of_nat (length (p0 :: ps))) 10000) - 1)%nat.
    cbn [length]. lia. }
  cbn [sample_loop].
  destruct (at_ok (p0 :: ps) (Z.to_nat (randomDis 0))) as [p ->]; [ lia | ].
  rewrite bind_ret_l.
  assert (forall ds, sample_statistic ds 0 = Ok S754_nan) as ->.
  { intros ds. unfold sample_statistic. change (to_size_t 0) with 0.
    destruct (length ds); reflexivity. }
  reflexivity.
Qed.

Lemma spacing_with_zero_neighbours_witness :
  spacing (H := unit_grid) (H0 := ample_memory) one_point 0 = UB.
Proof.
  apply (@spacing_with_zero_neighbours unit_grid ample_memory one_point);
    [ reflexivity | reflexivity | discriminate | vm_compute | reflexivity | reflexivity ].
  split; [ discriminate | reflexivity ].
Defined.

(** ** Colour offsets declared on three lines *)

(** X26 ([fastPlyReadPointSet], lines 211 to 215): when red, green and
    blue are declared on three different property lines, the test on the
    sum of the re-based offsets is exact: the header is accepted when the
    three lines are consecutive, in any order, and refused with "red/green/
    blue properties need to be contiguous" otherwise. *)
Theorem distinct_colour_lines_accepted_iff_consecutive (st : header_scan) :
  0 <= redIdx st < 2 ^ 32 -> 0 <= greenIdx st < 2 ^ 32 -> 0 <= blueIdx st < 2 ^ 32 ->
  redIdx st <> greenIdx st -> greenIdx st <> blueIdx st -> redIdx st <> blueIdx st ->
  resolve_colors st
  = (let lo := Z.min (Z.min (redIdx st) (greenIdx st)) (blueIdx st) in
     let hi := Z.max (Z.max (redIdx st) (greenIdx st)) (blueIdx st) in
     if hi - lo =? 2
     then Ok (redIdx st - lo, greenIdx st - lo, blueIdx st - lo)
     else Throw not_contiguous).
Proof.
  intros Hr Hg Hb Hrg Hgb Hrb. cbv zeta. unfold resolve_colors.
  set (lo := Z.min (Z.min (redIdx st) (greenIdx st)) (blueIdx st)).
  set (hi := Z.max (Z.max (redIdx st) (greenIdx st)) (blueIdx st)).
  assert (to_size_t (redIdx st - lo) = redIdx st - lo) as ->
    by (apply Z.mod_small; lia).
  assert (to_size_t (greenIdx st - lo) = greenIdx st - lo) as ->
    by (apply Z.mod_small; lia).
  assert (to_size_t (blueIdx st - lo) = blueIdx st - lo) as ->
    by (apply Z.mod_small; lia).
  assert (to_size_t (redIdx st - lo + (greenIdx st - lo) + (blueIdx st - lo))
          = redIdx st - lo + (greenIdx st - lo) + (blueIdx st - lo)) as ->
    by (apply Z.mod_small; lia).
  destruct (Z.eqb_spec (hi - lo) 2) as [E | E].
  - rewrite bool_decide_false by lia. reflexivity.
  - rewrite bool_decide_true by lia. reflexivity.
Qed.

Lemma distinct_colour_lines_accepted_iff_consecutive_witness :
  resolve_colors (mkScan 7 false false true [] 4 5 3) = Ok (1, 2, 0)
  /\ resolve_colors (mkScan 7 false false true [] 0 3 1) = Throw not_contiguous.
Proof.
  split.
  - apply (distinct_colour_lines_accepted_iff_consecutive
             (mkScan 7 false false true [] 4 5 3)); simpl; lia.
  - apply (distinct_colour_lines_accepted_iff_consecutive
             (mkScan 7 false false true [] 0 3 1)); simpl; lia.
Defined.

(** ** The declared count and the ASCII body *)

(** X27 ([fastPlyReadPointSet], lines 219 to 223): a header whose count
    exceeds the largest size of the [points] vector, as a negative number
    on the count line does once it is converted to [size_t], is accepted
    by the header functions and makes [resize] throw [std::length_error]. *)
Theorem oversized_count_throws_length_error `{FormattedInput} `{Memory} color0
  (fs : filesystem) (filename : string) (content : list byte) (h : schema)
  (reader : istream) :
  fs !! filename = Some content ->
  read_header (open_stream content) = Ok (h, reader) ->
  (2 ^ 63 - 1) / 12 < vertexCount h ->
  fastPlyReadPointSet color0 fs filename
  = Throw (length_error "vector::_M_default_append").
Proof.
  intros Hfs Hh Hn. unfold fastPlyReadPointSet. rewrite Hfs, Hh, bind_ret_l.
  cbv beta iota. unfold allocate, resize.
  destruct (Z.ltb_spec ((2 ^ 63 - 1) / 12) (vertexCount h)); [ reflexivity | lia ].
Qed.

Lemma oversized_count_throws_length_error_witness :
  fastPlyReadPointSet (H := failing_input) (H0 := ample_memory) rgb_zero
    {[ "f.ply"%string := negative_count_file ]} "f.ply"
  = Throw (length_error "vector::_M_default_append").
Proof.
  apply (@oversized_count_throws_length_error failing_input ample_memory rgb_zero
           {[ "f.ply"%string := negative_count_file ]} "f.ply" negative_count_file
           (mkSchema false (2 ^ 64 - 3) false false false false 0 1 2)
           (open_stream (bytes_of_xyz p1))).
  - reflexivity.
  - vm_compute. reflexivity.
  - vm_compute. reflexivity.
Defined.

(** The stream after an extraction does not depend on the operand. *)
Lemma read_float_stream `{FormattedInput} (reader : istream) (x y : float_repr) :
  snd (read_float reader x) = snd (read_float reader y).
Proof.
  unfold read_float. destruct (good reader); [ | reflexivity ].
  destruct (extract_float reader) as [v reader1]. reflexivity.
Qed.

Lemma extract_xyz_stream `{FormattedInput} (reader : istream) (p q : array3 float_repr) :
  snd (extract_xyz reader p) = snd (extract_xyz reader q).
Proof.
  destruct p as [[x1 y1] z1], q as [[x2 y2] z2]. unfold extract_xyz.
  pose proof (read_float_stream reader x1 x2) as E1.
  destruct (read_float reader x1) as [a1 r1], (read_float reader x2) as [a2 r2].
  cbn [snd] in E1. subst r2.
  pose proof (read_float_stream r1 y1 y2) as E2.
  destruct (read_float r1 y1) as [b1 r3], (read_float r1 y2) as [b2 r4].
  cbn [snd] in E2. subst r4.
  pose proof (read_float_stream r3 z1 z2) as E3.
  destruct (read_float r3 z1) as [c1 r5], (read_float r3 z2) as [c2 r6].
  exact E3.
Qed.

(** A turn of the ASCII loop on positions and normals returns whatever
    the extractions do. *)
Lemma read_ascii_floats_total `{FormattedInput} (h : schema) (i n : nat)
  (s : body_state (option Z)) :
  sColors h = false -> sViews h = false -> sLabels h = false ->
  sized h (bSet s) n -> (i < n)%nat ->
  exists s', read_ascii_record h i s = Ok s'.
Proof.
  intros Hc Hv Hl (Lp & Ln & _) Hi.
  destruct s as [reader r b]. cbn [bSet] in *. unfold read_ascii_record.
  rewrite Hc, Hv, Hl.
  destruct (at_ok (points r) i) as [p ->]; [ lia | ]. rewrite bind_ret_l.
  destruct (extract_xyz reader p) as [p' reader1].
  destruct (sNormals h).
  - destruct (at_ok (normals (set_points r (<[i := p']> (points r)))) i) as [x ->];
      [ simpl; rewrite Ln by reflexivity; lia | ].
    rewrite bind_ret_l. destruct (extract_xyz reader1 x) as [n1 rd0].
    rewrite !bind_ret_l. cbv beta iota. eauto.
  - rewrite !bind_ret_l. cbv beta iota. eauto.
Qed.

Lemma read_ascii_floats_records_total `{FormattedInput} (h : schema) (m : nat) :
  sColors h = false -> sViews h = false -> sLabels h = false ->
  forall (n i : nat) (s : body_state (option Z)),
    sized h (bSet s) m -> (i + n <= m)%nat ->
    exists s', for_records (read_ascii_record h) n i s = Ok s' /\
               same_lengths (bSet s) (bSet s').
Proof.
  intros Hc Hv Hl. induction n as [|n IH]; intros i s Hs Hi.
  - exists s. split; [ reflexivity | apply same_lengths_refl ].
  - cbn [for_records].
    destruct (read_ascii_floats_total h i m s Hc Hv Hl Hs) as [s1 H1]; [ lia | ].
    rewrite H1, bind_ret_l.
    pose proof (read_ascii_record_lengths h i s s1 H1) as L1.
    destruct (IH (S i) s1) as (s' & H' & L'); [ | lia | ].
    + eapply sized_same_lengths; eassumption.
    + exists s'. split; [ exact H' | eapply same_lengths_trans; eassumption ].
Qed.

(** The first turn of the ASCII loop reads [buf] without a value when the
    stream has failed before the first extraction into it. *)
Lemma read_ascii_record_unset_buf `{FormattedInput} (h : schema) (n : nat)
  (reader : istream) (r : PointSet) :
  sized h r (S n) ->
  sColors h = true \/ sViews h = true \/ sLabels h = true ->
  good (after_first_floats h reader) = false ->
  read_ascii_record h 0 (mkBody reader r None) = UB.
Proof.
  intros (Lp & Ln & Lc & Lv & Ll) Hcol Hbad.
  unfold read_ascii_record, after_first_floats in *.
  destruct (at_ok (points r) 0) as [p ->]; [ lia | ]. rewrite bind_ret_l.
  rewrite (extract_xyz_stream reader xyz_zero p) in Hbad.
  destruct (extract_xyz reader p) as [p' reader1]. cbn [snd] in Hbad.
  set (r1 := set_points r _).
  assert (exists reader2 r2,
            (if sNormals h
             then at_ (normals r1) 0 ≫= fun n0 =>
                  let '(n1, reader0) := extract_xyz reader1 n0 in
                  Ok (reader0, set_normals r1 (<[0%nat := n1]> (normals r1)))
             else Ok (reader1, r1)) = Ok (reader2, r2) /\
            good reader2 = false /\ same_lengths r r2)
    as (reader2 & r2 & -> & Hbad2 & S2).
  { destruct (sNormals h).
    - destruct (at_ok (normals r1) 0) as [x Hx]; [ simpl; rewrite Ln by reflexivity; lia | ].
      rewrite Hx, bind_ret_l.
      rewrite (extract_xyz_stream reader1 xyz_zero x) in Hbad.
      destruct (extract_xyz reader1 x) as [n1 rd0]. cbn [snd] in Hbad.
      do 2 eexists. split; [ reflexivity | split; [ exact Hbad | ] ].
      unfold same_lengths. simpl. rewrite !length_insert. tauto.
    - do 2 eexists. split; [ reflexivity | split; [ exact Hbad | ] ].
      unfold same_lengths. simpl. rewrite !length_insert. tauto. }
  rewrite bind_ret_l. cbv beta iota.
  destruct S2 as (P2 & C2 & N2 & V2 & L2).
  assert (forall b, read_uint16 reader2 b = (b, sentry_failed reader2)) as Hread.
  { intros b. unfold read_uint16. rewrite Hbad2. reflexivity. }
  destruct (sColors h).
  - destruct (at_ok (colors r2) 0) as [e ->]; [ rewrite C2, Lc by reflexivity; lia | ].
    rewrite bind_ret_l, Hread. reflexivity.
  - rewrite bind_ret_l. cbv beta iota.
    destruct (sViews h).
    + destruct (at_ok (views r2) 0) as [x ->]; [ rewrite V2, Lv by reflexivity; lia | ].
      rewrite bind_ret_l, Hread. reflexivity.
    + rewrite bind_ret_l. cbv beta iota.
      destruct (sLabels h).
      * destruct (at_ok (labels r2) 0) as [x ->];
          [ rewrite L2, Ll by reflexivity; lia | ].
        rewrite bind_ret_l, Hread. reflexivity.
      * destruct Hcol as [E | [E | E]]; discriminate E.
Qed.



(** ** The classification file of [getClassMappings] *)

Lemma fileExists_none (fs : filesystem) (path : list byte) :
  fs !! string_of_list_byte path = None -> fileExists fs path = false.
Proof.
  intros Hp. unfold fileExists. rewrite Hp. apply bool_decide_false.
  intros [x Hx]. discriminate Hx.
Qed.

Lemma fileExists_some (fs : filesystem) (path content : list byte) :
  fs !! string_of_list_byte path = Some content -> fileExists fs path = true.
Proof.
  intros Hp. unfold fileExists. rewrite Hp. apply bool_decide_true. eauto.
Qed.

Lemma substr_eval_suffix (fname : list byte) :
  9 <= Z.of_nat (length fname) < 2 ^ 64 ->
  substr fname (Z.of_nat (length fname) - 5 - 4) 5
  = Ok (take 5 (drop (length fname - 9) fname)).
Proof.
  intros Hl. unfold substr, to_size_t.
  rewrite (Z.mod_small (Z.of_nat (length fname) - 5 - 4)) by lia.
  destruct (Z.ltb_spec (Z.of_nat (length fname)) (Z.of_nat (length fname) - 5 - 4));
    [ lia | ].
  replace (Z.to_nat (Z.of_nat (length fname) - 5 - 4)) with (length fname - 9)%nat by lia.
  reflexivity.
Qed.

Lemma substr_eval_stem (fname : list byte) :
  9 <= Z.of_nat (length fname) < 2 ^ 64 ->
  substr fname 0 (Z.of_nat (length fname) - 5 - 4) = Ok (take (length fname - 9) fname).
Proof.
  intros Hl. unfold substr, to_size_t.
  rewrite (Z.mod_small (Z.of_nat (length fname) - 5 - 4)) by lia.
  change (0 mod 2 ^ 64) with 0.
  destruct (Z.ltb_spec (Z.of_nat (length fname)) 0); [ lia | ].
  replace (Z.to_nat (Z.of_nat (length fname) - 5 - 4)) with (length fname - 9)%nat by lia.
  reflexivity.
Qed.

Lemma json_sibling_json (filename : string) :
  exists p, json_sibling filename = p ++ str ".json".
Proof.
  unfold json_sibling. destruct (path_dir_and_filename (str filename)) as [dir name].
  eexists. apply app_assoc.
Qed.

(** X29 ([getClassMappings], [fileExists]): when the file system holds no
    file whose name ends with [.json], the mapping is empty for every file
    name of nine characters or more, so that [readPointSet] takes the
    branch of the table of external codes. *)
Theorem no_json_file_gives_empty_mapping `{Json} (fs : filesystem) (filename : string) :
  9 <= Z.of_nat (length (str filename)) < 2 ^ 64 ->
  (forall p, fs !! string_of_list_byte (p ++ str ".json") = None) ->
  getClassMappings fs filename = Ok ∅.
Proof.
  intros Hl Hno. unfold getClassMappings.
  rewrite substr_eval_suffix by exact Hl. rewrite bind_ret_l.
  destruct (json_sibling_json filename) as [p Hp].
  rewrite !Hp.
  rewrite !(fileExists_none fs (p ++ str ".json")) by apply Hno.
  cbn [negb]. rewrite andb_true_r.
  change (str "mappings.json") with (str "mappings" ++ str ".json").
  rewrite (app_assoc _ (str "mappings")).
  destruct (bool_decide _).
  - rewrite substr_eval_stem by exact Hl. rewrite !bind_ret_l.
    rewrite !fileExists_none by apply Hno. cbn [negb]. rewrite Hno. reflexivity.
  - rewrite !bind_ret_l.
    rewrite !fileExists_none by apply Hno. cbn [negb]. rewrite Hno. reflexivity.
Qed.

Lemma no_json_file_gives_empty_mapping_witness :
  getClassMappings (H := json_ground) ∅ "cloud_set.ply" = Ok ∅.
Proof.
  apply (@no_json_file_gives_empty_mapping json_ground ∅ "cloud_set.ply").
  - simpl. lia.
  - intros p. reflexivity.
Defined.

(** X30 ([getClassMappings], the [_eval] suffix): for a file named
    [<stem>_eval] and an extension of four characters, without a
    classification file of its own name, the classification read is the
    one of [<stem>.json]. *)
Theorem eval_file_reads_the_classification_of_its_stem `{Json} (fs : filesystem)
  (filename : string) (stem ext content : list byte) :
  str filename = stem ++ str "_eval" ++ ext ->
  length ext = 4%nat ->
  Z.of_nat (length stem) < 2 ^ 63 ->
  fs !! string_of_list_byte (json_sibling filename) = None ->
  fs !! string_of_list_byte (stem ++ str ".json") = Some content ->
  getClassMappings fs filename
  = (parse_classification content ≫= fun data =>
     match data with
     | Some entries => collect_mappings entries ∅
     | None => Ok ∅
     end).
Proof.
  intros Hname Hext Hstem Hsib Hjson.
  assert (length (str filename) = (length stem + 9)%nat) as Hlen.
  { rewrite Hname, !length_app, Hext. reflexivity. }
  unfold getClassMappings.
  rewrite substr_eval_suffix by lia. rewrite bind_ret_l.
  rewrite (fileExists_none fs (json_sibling filename) Hsib). cbn [negb].
  rewrite substr_eval_stem by lia.
  rewrite Hlen. replace (length stem + 9 - 9)%nat with (length stem) by lia.
  rewrite Hname. rewrite drop_app_length, take_app_length.
  change (take 5 (str "_eval" ++ ext)) with (str "_eval").
  rewrite bool_decide_true by reflexivity. cbn [andb]. rewrite !bind_ret_l.
  rewrite (fileExists_some fs _ content Hjson). cbn [negb].
  rewrite Hjson. reflexivity.
Qed.

Lemma eval_file_reads_the_classification_of_its_stem_witness :
  getClassMappings (H := json_ground) {[ "scan.json"%string := [] ]} "scan_eval.ply"
  = Ok {[ 5 := "ground"%string ]}.
Proof.
  apply (@eval_file_reads_the_classification_of_its_stem json_ground
           {[ "scan.json"%string := [] ]} "scan_eval.ply" (str "scan") (str ".ply") []);
    reflexivity.
Defined.
